(** * excel-extractor: a shallow embedding of the extraction and conversion code

    The development follows the Python sources:
    - [extractor.py]          the live-application backend (xlwings),
    - [openpyxl_extractor.py] the file-parsing backend (openpyxl),
    - [_convert_impl.py]      the JSON to CSV converter,
    - [cli.py]                the command line.

    Part I embeds the code, Part II proves properties of it.

    Conventions.
    - A Python [str] is a [string]; its characters are read as the code
      points U+0000 to U+00FF.
    - Python values that flow through the code untyped ([Any]) are [pyval].
      Numbers are carried as integers.
    - A call that may raise returns a [Result]; [try ... except Exception]
      is a [match] on it.
    - Objects of the spreadsheet libraries are records of the attributes the
      code reads. *)

From Stdlib Require Import ZArith List Bool Ascii String Lia Arith.
From Stdlib Require Import Sorting.Mergesort Sorting.Sorted Sorting.Permutation Orders.
From Stdlib Require Import Structures.OrderedTypeEx Classes.RelationClasses.
From Stdlib Require DecimalString.
From Equations Require Import Equations.
Import ListNotations.

Set Implicit Arguments.
Set Warnings "-register-all".
Open Scope string_scope.
Open Scope Z_scope.

(* ===================================================================== *)
(** * Part I: the embedding *)
(* ===================================================================== *)

(** ** Python values and exceptions *)

Inductive pyval : Type :=
| PNone
| PBool (b : bool)
| PInt (z : Z)
| PStr (s : string)
| PList (l : list pyval)
| PTuple (l : list pyval)
| PDict (d : list (string * pyval)).

Inductive exn : Type :=
| KeyError (k : string)
| IndexError
| AttributeError (attr : string)
| ValueError (msg : string)
| ComError (msg : string).

Inductive Result (A : Type) : Type :=
| Ok (a : A)
| Raise (e : exn).
Arguments Ok {A} a.
Arguments Raise {A} e.

Definition bind {A B} (r : Result A) (k : A -> Result B) : Result B :=
  match r with
  | Ok a => k a
  | Raise e => Raise e
  end.

Notation "x <- r ;; k" := (bind r (fun x => k))
  (at level 61, r at next level, right associativity).

(** [try: r except Exception: d] *)
Definition try_except {A} (r : Result A) (d : A) : A :=
  match r with
  | Ok a => a
  | Raise _ => d
  end.

(** [str(e)] for an exception. *)
Definition str_exn (e : exn) : string :=
  match e with
  | KeyError k => "'" ++ k ++ "'"
  | IndexError => "list index out of range"
  | AttributeError a => "object has no attribute '" ++ a ++ "'"
  | ValueError m => m
  | ComError m => m
  end.

(** [x is not None] *)
Definition is_not_None (v : pyval) : bool :=
  match v with
  | PNone => false
  | _ => true
  end.

(** Truth value of a Python object, as [if x:] tests it. *)
Definition truthy (v : pyval) : bool :=
  match v with
  | PNone => false
  | PBool b => b
  | PInt z => negb (z =? 0)
  | PStr s => negb (String.eqb s "")
  | PList l => match l with [] => false | _ => true end
  | PTuple l => match l with [] => false | _ => true end
  | PDict d => match d with [] => false | _ => true end
  end.

(** Equality of a string with a Python value ([s == v]). *)
Definition str_eq_val (s : string) (v : pyval) : bool :=
  match v with
  | PStr t => String.eqb s t
  | _ => false
  end.

(** [range(lo, hi + 1)] *)
Definition zrange (lo hi : Z) : list Z :=
  map (fun i => lo + Z.of_nat i) (seq 0 (Z.to_nat (hi + 1 - lo))).

(** ** Python string methods *)

Module PyStr.

Definition ord (c : ascii) : Z := Z.of_nat (nat_of_ascii c).
Definition chr (z : Z) : ascii := ascii_of_nat (Z.to_nat z).

Definition DQUOTE : ascii := chr 34.
Definition SQUOTE : ascii := chr 39.

Definition in_range (lo hi : Z) (c : ascii) : bool :=
  (lo <=? ord c) && (ord c <=? hi).

(** [c.isspace()] on U+0000..U+00FF. *)
Definition is_space (c : ascii) : bool :=
  in_range 9 13 c || in_range 28 32 c || (ord c =? 133) || (ord c =? 160).

(** [a in s] for a one-character [a]. *)
Fixpoint contains (a : ascii) (s : string) : bool :=
  match s with
  | EmptyString => false
  | String c s' => Ascii.eqb a c || contains a s'
  end.

Definition startswith (a : ascii) (s : string) : bool :=
  match s with
  | EmptyString => false
  | String c _ => Ascii.eqb a c
  end.

Fixpoint endswith (a : ascii) (s : string) : bool :=
  match s with
  | EmptyString => false
  | String c EmptyString => Ascii.eqb a c
  | String _ s' => endswith a s'
  end.

Fixpoint rev_acc (s acc : string) : string :=
  match s with
  | EmptyString => acc
  | String c s' => rev_acc s' (String c acc)
  end.
Definition rev (s : string) : string := rev_acc s EmptyString.

Fixpoint lstrip_by (p : ascii -> bool) (s : string) : string :=
  match s with
  | EmptyString => EmptyString
  | String c s' => if p c then lstrip_by p s' else s
  end.

Definition strip_by (p : ascii -> bool) (s : string) : string :=
  rev (lstrip_by p (rev (lstrip_by p s))).

(** [s.strip()] *)
Definition strip (s : string) : string := strip_by is_space s.

(** [s.strip(a)] for a one-character [a]. *)
Definition strip_char (a : ascii) (s : string) : string := strip_by (Ascii.eqb a) s.

(** [s[1:]] *)
Definition drop_first (s : string) : string :=
  match s with
  | EmptyString => EmptyString
  | String _ s' => s'
  end.

(** [s[:-1]] *)
Fixpoint drop_last (s : string) : string :=
  match s with
  | EmptyString => EmptyString
  | String _ EmptyString => EmptyString
  | String c s' => String c (drop_last s')
  end.

(** [s[:n]] *)
Fixpoint take (n : nat) (s : string) : string :=
  match n, s with
  | S n', String c s' => String c (take n' s')
  | _, _ => EmptyString
  end.

(** [s.split(a)] for a one-character separator: the pieces between the
    separators, in order; never an empty list. *)
Fixpoint split (a : ascii) (s : string) : list string :=
  match s with
  | EmptyString => [EmptyString]
  | String c s' =>
      if Ascii.eqb a c then EmptyString :: split a s'
      else match split a s' with
           | [] => [String c EmptyString]
           | p :: ps => String c p :: ps
           end
  end.

(** [s.split(a, 1)]: cut at the first separator only. *)
Fixpoint split1 (a : ascii) (s : string) : list string :=
  match s with
  | EmptyString => [EmptyString]
  | String c s' =>
      if Ascii.eqb a c then [EmptyString; s']
      else match split1 a s' with
           | [] => [String c EmptyString]
           | p :: ps => String c p :: ps
           end
  end.

(** [l[i]] *)
Definition index {A} (l : list A) (i : nat) : Result A :=
  match nth_error l i with
  | Some x => Ok x
  | None => Raise IndexError
  end.

(** [s.replace(" ", "")] *)
Fixpoint remove_spaces (s : string) : string :=
  match s with
  | EmptyString => EmptyString
  | String c s' =>
      if Ascii.eqb c " "%char then remove_spaces s' else String c (remove_spaces s')
  end.

(** [c.lower()] on U+0000..U+00FF: A-Z and the accented capitals
    U+00C0..U+00DE (the sign U+00D7 apart) move up by 32. *)
Definition lower_char (c : ascii) : ascii :=
  if in_range 65 90 c || (in_range 192 222 c && negb (ord c =? 215))
  then chr (ord c + 32) else c.

Fixpoint lower (s : string) : string :=
  match s with
  | EmptyString => EmptyString
  | String c s' => String (lower_char c) (lower s')
  end.

(** [c.upper()] on U+0000..U+00FF. a-z and U+00E0..U+00FE (the sign
    U+00F7 apart) move down by 32 and U+00DF becomes "SS". The images of
    U+00B5 and U+00FF lie above U+00FF; like these two characters
    themselves they are neither in A-Z nor digits, and they are left in
    place. *)
Definition upper_char (c : ascii) : string :=
  if in_range 97 122 c || (in_range 224 254 c && negb (ord c =? 247))
  then String (chr (ord c - 32)) EmptyString
  else if ord c =? 223 then "SS"
  else String c EmptyString.

Fixpoint upper (s : string) : string :=
  match s with
  | EmptyString => EmptyString
  | String c s' => upper_char c ++ upper s'
  end.

(** Wrap a string in double quotes. *)
Definition quoted (s : string) : string :=
  String DQUOTE (s ++ String DQUOTE EmptyString).

End PyStr.

(** ** Address utilities: [ExcelFormulaExtractor._column_to_letter] *)

Module ColumnLetter.
Import PyStr.

(** The loop of [_column_to_letter]:
    [while column_number > 0:
       column_number, remainder = divmod(column_number - 1, 26)
       result = chr(65 + remainder) + result] *)
Equations? column_to_letter_loop (column_number : Z) (result : string) : string
  by wf (Z.to_nat column_number) lt :=
  column_to_letter_loop column_number result with Z_gt_dec column_number 0 => {
    | left _ =>
        column_to_letter_loop ((column_number - 1) / 26)
          (String (chr (65 + (column_number - 1) mod 26)) result);
    | right _ => result }.
Proof.
  assert ((column_number - 1) / 26 < column_number).
  { apply Z.div_lt_upper_bound; lia. }
  assert (0 <= (column_number - 1) / 26) by (apply Z.div_pos; lia).
  lia.
Qed.

Definition _column_to_letter (column_number : Z) : string :=
  column_to_letter_loop column_number EmptyString.

(** The reference inverse: a letter string read as a bijective base-26
    numeral, A = 1, ..., Z = 26. *)
Fixpoint letter_to_column_from (acc : Z) (s : string) : Z :=
  match s with
  | EmptyString => acc
  | String c s' => letter_to_column_from (acc * 26 + (ord c - 64)) s'
  end.

Definition letter_to_column (s : string) : Z := letter_to_column_from 0 s.

End ColumnLetter.

(** ** Formula dependencies: [_parse_formula_dependencies]

    The method has the same body in both backends:
    [matches = re.findall(r'[A-Z]+\d+', formula.upper())
     return sorted(list(set(matches)))] *)

Module Dependencies.
Import PyStr.

(** The character class [A-Z]. *)
Definition is_AZ (c : ascii) : bool := in_range 65 90 c.

(** The character class [\d] on U+0000..U+00FF. *)
Definition is_digit (c : ascii) : bool := in_range 48 57 c.

Fixpoint span (p : ascii -> bool) (s : list ascii) : list ascii * list ascii :=
  match s with
  | [] => ([], [])
  | c :: s' =>
      if p c then let (a, b) := span p s' in (c :: a, b) else ([], s)
  end.

(** [\d+] at the head of [s]: the longest run of digits, at least one. *)
Definition match_digits (s : list ascii) : option (list ascii * list ascii) :=
  match span is_digit s with
  | ([], _) => None
  | (ds, r) => Some (ds, r)
  end.

(** [[A-Z]+] has taken the first [k] characters; [\d+] is tried after them,
    and on failure the engine backtracks to [k - 1] letters. *)
Fixpoint match_backtrack (k : nat) (s : list ascii) : option (list ascii * list ascii) :=
  match k with
  | O => None
  | S k' =>
      match match_digits (skipn k s) with
      | Some (ds, r) => Some ((firstn k s ++ ds)%list, r)
      | None => match_backtrack k' s
      end
  end.

(** One attempt of [[A-Z]+\d+] at the head of [s]: the matched text and
    what follows it. The letters are taken greedily first. *)
Definition match_here (s : list ascii) : option (list ascii * list ascii) :=
  match_backtrack (List.length (fst (span is_AZ s))) s.

Lemma span_length (p : ascii -> bool) (s : list ascii) :
  (List.length (fst (span p s)) + List.length (snd (span p s)) = List.length s)%nat.
Proof.
  induction s as [|c s IH]; simpl; [reflexivity|].
  destruct (p c); [|reflexivity].
  destruct (span p s); simpl in *; lia.
Qed.

Lemma match_digits_shorter (s ds r : list ascii) :
  match_digits s = Some (ds, r) -> (List.length r < List.length s)%nat.
Proof.
  unfold match_digits. pose proof (span_length is_digit s) as Hlen.
  destruct (span is_digit s) as [[|d ds'] r']; [discriminate|].
  intros H; inversion H; subst. simpl in Hlen. lia.
Qed.

Lemma match_backtrack_shorter (k : nat) (s tok rest : list ascii) :
  match_backtrack k s = Some (tok, rest) ->
  (List.length rest < List.length s)%nat.
Proof.
  induction k as [|k IH]; cbn [match_backtrack]; [discriminate|].
  destruct (match_digits (skipn (S k) s)) as [[ds r]|] eqn:Hd; [|exact IH].
  intros H; inversion H; subst; clear H.
  apply match_digits_shorter in Hd.
  rewrite length_skipn in Hd. lia.
Qed.

Definition inspect {A} (a : A) : {b : A | a = b} := exist _ a eq_refl.

(** [re.findall]: the matches from left to right, each search resuming
    where the previous match ended. *)
Equations? findall (s : list ascii) : list (list ascii) by wf (List.length s) lt :=
  findall [] := [];
  findall (c :: s') with inspect (match_here (c :: s')) := {
    | exist _ (Some (tok, rest)) _ => tok :: findall rest;
    | exist _ None _ => findall s' }.
Proof.
  apply (match_backtrack_shorter _ _ e).
Qed.

Definition re_findall (s : string) : list string :=
  map string_of_list_ascii (findall (list_ascii_of_string s)).

(** Strings in code point order, as [sorted] compares them. *)
Module StringOrder <: TotalLeBool.
Definition t := string.
Definition leb := String.leb.
Theorem leb_total : forall a1 a2, is_true (leb a1 a2) \/ is_true (leb a2 a1).
Proof. exact String.leb_total. Qed.
End StringOrder.

Module StringSort := Sort StringOrder.

(** The elements of [set(l)]. The order in which a set is enumerated is not
    fixed; [sorted] below does not depend on it. *)
Definition py_set (l : list string) : list string := nodup string_dec l.

Definition sorted (l : list string) : list string := StringSort.sort l.

Definition _parse_formula_dependencies (formula : string) : list string :=
  let matches := re_findall (upper formula) in
  sorted (py_set matches).

(** The specification's words. A token is one or more letters A-Z followed
    by one or more digits. *)
Definition token (tok : list ascii) : Prop :=
  exists ls ds : list ascii,
    tok = (ls ++ ds)%list /\ ls <> [] /\ ds <> []
    /\ Forall (fun c => is_AZ c = true) ls
    /\ Forall (fun c => is_digit c = true) ds.

(** [l] does not end with a letter A-Z. *)
Definition no_letter_before (l : list ascii) : Prop :=
  forall p c, l = (p ++ [c])%list -> is_AZ c = false.

(** [l] does not start with a character of the class [p]. *)
Definition stops (p : ascii -> bool) (l : list ascii) : Prop :=
  forall c q, l = c :: q -> p c = false.

(** [l] does not start with a digit. *)
Definition no_digit_after (l : list ascii) : Prop := stops is_digit l.

(** [tok] occurs in [text], which follows [pre], as a maximal token: it is
    a token, and neither one more character on its left nor one more on its
    right gives a token. *)
Definition maximal_token_after (pre text tok : list ascii) : Prop :=
  exists a b : list ascii,
    text = (a ++ tok ++ b)%list /\ token tok
    /\ no_letter_before (pre ++ a)%list /\ no_digit_after b.

Definition maximal_token_of (text tok : list ascii) : Prop :=
  maximal_token_after [] text tok.

End Dependencies.

(** ** Validation sources: the first lines of [_resolve_validation_list_items]

    Both backends start with
    [f = str(formula1).strip()
     if f.startswith("="): f = f[1:]
     if f.startswith('"') and f.endswith('"') and len(f) >= 2: f = f[1:-1]]
    and test for a literal list with
    ["," in f and "!" not in f and ":" not in f and "[" not in f]. *)

Module Source.
Import PyStr.

Definition strip_equals (f : string) : string :=
  if startswith "="%char f then drop_first f else f.

Definition strip_quotes (f : string) : string :=
  if startswith DQUOTE f && endswith DQUOTE f && (2 <=? String.length f)%nat
  then drop_last (drop_first f) else f.

Definition normalize (formula1 : string) : string :=
  strip_quotes (strip_equals (strip formula1)).

Definition is_literal_list (f : string) : bool :=
  contains ","%char f && negb (contains "!"%char f)
  && negb (contains ":"%char f) && negb (contains "["%char f).

(** [[s.strip() for s in f.split(",")]] *)
Definition literal_items (f : string) : list pyval :=
  map (fun s => PStr (strip s)) (split ","%char f).

Definition has_brackets (f : string) : bool :=
  contains "["%char f && contains "]"%char f.

Definition is_range_like (f : string) : bool :=
  contains "!"%char f || contains ":"%char f.

(** [a, b = l]: unpacking a list into two names. *)
Definition unpack2 (l : list string) : Result (string * string) :=
  match l with
  | [a; b] => Ok (a, b)
  | _ => Raise (ValueError "unpack")
  end.

(** [d.get(k)] on a dictionary kept as a list of items. *)
Fixpoint dict_get {A} (k : string) (d : list (string * A)) : option A :=
  match d with
  | [] => None
  | (k', v) :: d' => if String.eqb k k' then Some v else dict_get k d'
  end.

End Source.

(** ** The file-parsing backend: [OpenpyxlExcelExtractor] *)

Module Openpyxl.
Import PyStr Source.

(** [openpyxl.worksheet.cell_range.CellRange]: the four bounds. *)
Record CellRange_t : Type := {
  min_col : Z;
  min_row : Z;
  max_col : Z;
  max_row : Z
}.

Record Table : Type := { tbl_ref : string }.

(** A defined name: [dn.destinations] lists (sheet title, coordinate). *)
Record DefinedName : Type := {
  dn_name : string;
  attr_text : string;
  destinations : list (string * string)
}.

(** A worksheet: [cell_value ws r c] is [ws.cell(r, c).value]; a cell that
    was never written holds [None]. *)
Record Worksheet : Type := {
  title : string;
  cell_value : Z -> Z -> pyval;
  tables : list (string * Table)
}.

Record Workbook : Type := {
  worksheets : list Worksheet;
  defined_names : list (string * DefinedName)
}.

(** [wb[key]] *)
Definition wb_getitem (wb : Workbook) (key : string) : Result Worksheet :=
  match find (fun ws => String.eqb (title ws) key) (worksheets wb) with
  | Some ws => Ok ws
  | None => Raise (KeyError key)
  end.

(** [ws.iter_rows(min_row, max_row, min_col, max_col)]: one tuple of cell
    values per row. *)
Definition iter_rows (ws : Worksheet) (r1 r2 c1 c2 : Z) : list (list pyval) :=
  map (fun r => map (fun c => cell_value ws r c) (zrange c1 c2)) (zrange r1 r2).

(** [next(it)] *)
Definition next {A} (it : list A) : Result A :=
  match it with
  | x :: _ => Ok x
  | [] => Raise (ValueError "StopIteration")
  end.

(** [t.value] where [t] is a tuple, a list or a scalar read from a cell:
    none of these objects has such an attribute. *)
Definition getattr_value (t : pyval) : Result pyval :=
  Raise (AttributeError "value").

(** [[f(x) for x in l]] where [f] may raise. *)
Fixpoint comprehension {A B} (f : A -> Result B) (l : list A) : Result (list B) :=
  match l with
  | [] => Ok []
  | x :: l' => y <- f x ;; ys <- comprehension f l' ;; Ok (y :: ys)
  end.

(** [headers.index(x)] for an [x] that occurs in [headers]. *)
Fixpoint list_index (x : string) (l : list pyval) : Z :=
  match l with
  | [] => 0
  | v :: l' => if str_eq_val x v then 0 else 1 + list_index x l'
  end.

Definition _flatten_values (vals : pyval) : list pyval :=
  match vals with
  | PNone => []
  | PList l =>
      flat_map (fun r =>
                  match r with
                  | PList rl => filter is_not_None rl
                  | _ => [r]
                  end) l
  | _ => [vals]
  end.

Section WithLibrary.

(** [CellRange(ref)] parses a reference; it raises on a malformed one. *)
Variable CellRange : string -> Result CellRange_t.

Definition _values_from_range (ws : Worksheet) (ref : string) : option (list pyval) :=
  match CellRange ref with
  | Ok cr =>
      let vals := List.concat (iter_rows ws (min_row cr) (max_row cr) (min_col cr) (max_col cr)) in
      Some (_flatten_values (PList vals))
  | Raise _ => None
  end.

(** The loop of [_resolve_named_range] over [dn.destinations]. [wb[title]]
    is not guarded inside the loop: its failure ends the method. *)
Fixpoint named_range_destinations (wb : Workbook) (dests : list (string * string))
  : Result (option (list pyval)) :=
  match dests with
  | [] => Ok None
  | (title, coord) :: rest =>
      ws <- wb_getitem wb title ;;
      match _values_from_range ws coord with
      | Some vals => Ok (Some vals)
      | None => named_range_destinations wb rest
      end
  end.

Definition _resolve_named_range (wb : Workbook) (name : string) : option (list pyval) :=
  match dict_get name (defined_names wb) with
  | None => None
  | Some dn => try_except (named_range_destinations wb (destinations dn)) None
  end.

(** The body of the [try] inside the sheet loop of [_resolve_table_column].
    [Ok None] stands for reaching the end of the body without [return].
    With [values_only=True], [iter_rows] yields one tuple of values per row;
    the comprehension [[c.value for c in ...]] reads [.value] of each of
    these tuples. *)
Definition table_column_on_sheet (ws : Worksheet) (table_name col_name : string)
  : Result (option (list pyval)) :=
  match dict_get table_name (tables ws) with
  | None => Ok None
  | Some tbl =>
      ref_range <- CellRange (tbl_ref tbl) ;;
      headers <- next (iter_rows ws (min_row ref_range) (min_row ref_range)
                                    (min_col ref_range) (max_col ref_range)) ;;
      if existsb (str_eq_val col_name) headers then
        let col_idx := list_index col_name headers + min_col ref_range in
        let data_min_row := min_row ref_range + 1 in
        vals <- comprehension getattr_value
                  (map PTuple (iter_rows ws data_min_row (max_row ref_range) col_idx col_idx)) ;;
        let flat := map (fun t => match t with
                                  | PTuple (x :: _) => x
                                  | _ => t
                                  end) vals in
        Ok (Some flat)
      else Ok None
  end.

Fixpoint table_column_sheets (wss : list Worksheet) (table_name col_name : string)
  : option (list pyval) :=
  match wss with
  | [] => None
  | ws :: rest =>
      match table_column_on_sheet ws table_name col_name with
      | Ok (Some flat) => Some flat
      | Ok None => table_column_sheets rest table_name col_name
      | Raise _ => table_column_sheets rest table_name col_name
      end
  end.

Definition _resolve_table_column (wb : Workbook) (ref : string) : option (list pyval) :=
  if negb (contains "["%char ref) || negb (contains "]"%char ref) then None
  else
    try_except
      (table_name <- index (split1 "["%char ref) 0 ;;
       after <- index (split1 "["%char ref) 1 ;;
       col_name <- index (split1 "]"%char after) 0 ;;
       Ok (table_column_sheets (worksheets wb) table_name col_name))
      None.

(** The range branch of [_resolve_validation_list_items]: the target sheet
    and the address. *)
Definition range_target (wb : Workbook) (ws : Worksheet) (f : string)
  : Result (Worksheet * string) :=
  if contains "!"%char f then
    parts <- unpack2 (split1 "!"%char f) ;;
    ws_target <- wb_getitem wb (strip_char SQUOTE (strip (fst parts))) ;;
    Ok (ws_target, snd parts)
  else Ok (ws, f).

(** What [_resolve_validation_list_items] does after the structured
    reference step: the range branch, then the named-range branch. An
    exception ends the method with [None]. *)
Definition resolve_range_or_name (wb : Workbook) (ws : Worksheet) (f : string)
  : option (list pyval) :=
  let ranged : Result (option (list pyval)) :=
    if is_range_like f then
      target <- range_target wb ws f ;;
      Ok (_values_from_range (fst target) (snd target))
    else Ok None in
  match ranged with
  | Raise _ => None
  | Ok (Some vals) => Some vals
  | Ok None => _resolve_named_range wb f
  end.

(** [_resolve_validation_list_items(ws, formula1)], with [wb] for
    [ws.parent]. *)
Definition _resolve_validation_list_items (wb : Workbook) (ws : Worksheet)
    (formula1 : option string) : option (list pyval) :=
  match formula1 with
  | None => None
  | Some formula1 =>
  if String.eqb formula1 "" then None
  else
    let f := normalize formula1 in
    if is_literal_list f then Some (literal_items f)
    else
      match (if has_brackets f then _resolve_table_column wb f else None) with
      | Some resolved => Some resolved
      | None => resolve_range_or_name wb ws f
      end
  end.

End WithLibrary.

(** *** Cell records *)

(** The attributes of an openpyxl cell that [_extract_cell_full_details]
    reads directly. *)
Record Cell : Type := {
  coordinate : string;
  cell_row : Z;
  cell_column : Z;
  cell_value_attr : pyval
}.

(** The keys of the record built by [_extract_cell_full_details] that come
    from these attributes. The keys [format], [hyperlink], [note] and
    [data_validation] are filled by helper methods from other attributes of
    the cell; they are left out here. *)
Record CellDetails : Type := {
  address : string;
  row : Z;
  column : Z;
  column_letter : string;
  value : pyval;
  formula : pyval;
  display_text : pyval
}.

(** [value if isinstance(value, str) and value.startswith("=") else None] *)
Definition formula_of (value : pyval) : pyval :=
  match value with
  | PStr s => if startswith "="%char s then value else PNone
  | _ => PNone
  end.

Section WithColumnLetter.

(** [openpyxl.utils.get_column_letter]; it raises on an index that is not
    a column. *)
Variable get_column_letter : Z -> Result string.

Definition _column_to_letter (col : Z) : Result string := get_column_letter col.

Definition _extract_cell_full_details (cell : Cell) : Result CellDetails :=
  let value := cell_value_attr cell in
  let formula := formula_of value in
  letter <- _column_to_letter (cell_column cell) ;;
  Ok {| address := coordinate cell;
        row := cell_row cell;
        column := cell_column cell;
        column_letter := letter;
        value := if truthy formula then PNone else value;
        formula := formula;
        display_text := PNone |}.

End WithColumnLetter.

(** *** The workbook walker *)

Record Extractor : Type := {
  excel_file_path : string;
  workbook : option Workbook;
  worksheet : option Worksheet
}.

Definition set_worksheet (self : Extractor) (ws : Worksheet) : Extractor :=
  {| excel_file_path := excel_file_path self;
     workbook := workbook self;
     worksheet := Some ws |}.

(** The record appended when a sheet fails. *)
Definition degraded_sheet (name : pyval) (error : string) : pyval :=
  PDict [("sheet", PDict [("name", name); ("error", PStr error)]);
         ("cells", PList []);
         ("tables", PList [])].

Section Walker.

(** [self.extract_sheet_full_details(sheet_name)]. Its body is a sequence of
    library calls on the selected sheet; the walker observes only whether
    the call returns a sheet entry or raises. *)
Variable extract_sheet_full_details : Extractor -> string -> Result pyval.

(** [self.workbook.defined_names.definedName], which the library may not
    provide. *)
Variable definedName : Workbook -> Result (list DefinedName).

(** [datetime.now().isoformat()] *)
Variable now : string.

(** One turn of the loop over [self.workbook.worksheets]. *)
Definition walk_sheet (self : Extractor) (ws : Worksheet) : pyval :=
  let self := set_worksheet self ws in
  match extract_sheet_full_details self (title ws) with
  | Ok entry => entry
  | Raise e => degraded_sheet (PStr (title ws)) (str_exn e)
  end.

Definition names_metadata (wb : Workbook) : list pyval :=
  match definedName wb with
  | Ok l => map (fun name => PDict [("name", PStr (dn_name name));
                                    ("refers_to", PStr (attr_text name))]) l
  | Raise _ => []
  end.

(** [self.workbook] is [None] until [open_workbook] has run; reading
    [.worksheets] of it raises. *)
Definition extract_workbook_full_details (self : Extractor) : Result pyval :=
  match workbook self with
  | None => Raise (AttributeError "worksheets")
  | Some wb =>
      let all_sheets := map (walk_sheet self) (worksheets wb) in
      let names := names_metadata wb in
      Ok (PDict [("file_path", PStr (excel_file_path self));
                 ("extraction_timestamp", PStr now);
                 ("workbook",
                  PDict [("sheet_count", PInt (Z.of_nat (List.length (worksheets wb))));
                         ("sheets", PList all_sheets);
                         ("names", PList names)])])
  end.

End Walker.

End Openpyxl.

(** ** The live-application backend: [ExcelFormulaExtractor] *)

Module Xlwings.
Import PyStr Source.

(** A table of a sheet ([ListObject]). [data_body_address col] stands for
    [lo.ListColumns.Item(col)], which raises when there is no such column,
    followed by the [Address] of its [DataBodyRange]; [None] when one of
    the two is missing. *)
Record ListObject : Type := {
  lo_Name : option string;
  data_body_address : string -> Result (option string)
}.

(** [sheet.used_range] as the walker reads it: its [address] and the
    [count] of its [rows] and [columns]. *)
Record UsedRange : Type := {
  ur_address : Result string;
  ur_rows_count : Result pyval;
  ur_columns_count : Result pyval
}.

(** [sheet.api.UsedRange]: [getattr(r, "Address", None)] and the [Count] of
    its [Rows] and [Columns]. *)
Record ApiUsedRange : Type := {
  api_Address : Result (option string);
  api_Rows_Count : Result pyval;
  api_Columns_Count : Result pyval
}.

(** A sheet handle. Every attribute is read from the application and the
    read may fail, [name] included. [range_value addr] is
    [sheet.range(addr).value]: a scalar for one cell, a list for one row or
    one column, a list of rows otherwise. [api_Evaluate expr] is the
    [Address] of the object returned by [sheet.api.Evaluate(expr)], [None]
    when it has none. The last four fields are
    [getattr(sheet.api, "Visible", None)] and the three protection flags.
    Reading the same attribute twice gives the same result. *)
Record Sheet : Type := {
  name : Result string;
  range_value : string -> Result pyval;
  ListObjects : Result (list (Result ListObject));
  api_Evaluate : string -> Result (option string);
  used_range : Result UsedRange;
  api_UsedRange : Result ApiUsedRange;
  api_Visible : Result pyval;
  api_ProtectContents : Result pyval;
  api_ProtectDrawing : Result pyval;
  api_ProtectScenarios : Result pyval
}.

Record Name : Type := {
  nm_name : option string;
  nm_refers_to : option string
}.

(** [sheets] is the collection [wb.sheets] as the loops enumerate it,
    [sheets_getitem n] is [wb.sheets[n]] and [active] is [wb.sheets.active]. *)
Record Book : Type := {
  sheets : list Sheet;
  sheets_getitem : string -> Result Sheet;
  active : Result Sheet;
  names : list Name
}.

Record Extractor : Type := {
  excel_file_path : string;
  app_Evaluate : string -> Result (option string);
  workbook : option Book;
  worksheet : option Sheet
}.

Definition set_worksheet (self : Extractor) (ws : Sheet) : Extractor :=
  {| excel_file_path := excel_file_path self;
     app_Evaluate := app_Evaluate self;
     workbook := workbook self;
     worksheet := Some ws |}.

(** [self.workbook.<attr>]: raises while no workbook is open. *)
Definition the_workbook (self : Extractor) : Result Book :=
  match workbook self with
  | Some wb => Ok wb
  | None => Raise (AttributeError "workbook")
  end.

Definition _flatten_to_list (vals : pyval) : list pyval :=
  match vals with
  | PList l =>
      flat_map (fun row =>
                  match row with
                  | PList r => filter is_not_None r
                  | PNone => []
                  | _ => [row]
                  end) l
  | PNone => []
  | _ => [vals]
  end.

Definition _values_from_range_on_sheet (sheet : option Sheet) (addr : string)
  : option (list pyval) :=
  match sheet with
  | Some sh =>
      match range_value sh addr with
      | Ok vals => Some (_flatten_to_list vals)
      | Raise _ => None
      end
  | None => None
  end.

(** [_evaluate_in_excel(expr, sheet)] followed by
    [getattr(res, "Address", None)]. *)
Definition evaluate_address (self : Extractor) (expr : string) (sheet : option Sheet)
  : option string :=
  match (match sheet with
         | Some sh => api_Evaluate sh expr
         | None => Raise (AttributeError "api")
         end) with
  | Ok a => a
  | Raise _ => try_except (app_Evaluate self expr) None
  end.

(** [if addr:] *)
Definition nonempty (a : option string) : option string :=
  match a with
  | Some s => if String.eqb s "" then None else Some s
  | None => None
  end.

(** The name comparison of [_try_resolve_named_range]:
    [n.replace(" ", "").lower() == target.replace(" ", "").lower()] *)
Definition same_name (n target : string) : bool :=
  String.eqb (lower (remove_spaces n)) (lower (remove_spaces target)).

(** The sheet and address a range-like target of a name points to. *)
Definition named_range_target (self : Extractor) (wb : Book) (f : string)
  : Result (option Sheet * string) :=
  if contains "!"%char f then
    parts <- unpack2 (split1 "!"%char f) ;;
    let sheet_name := strip_char SQUOTE (strip (fst parts)) in
    if String.eqb sheet_name "" then Ok (worksheet self, snd parts)
    else sh <- sheets_getitem wb sheet_name ;; Ok (Some sh, snd parts)
  else Ok (worksheet self, f).

(** "Try evaluate on each sheet context". *)
Fixpoint evaluate_on_sheets (self : Extractor) (f : string) (wss : list Sheet)
  : option (list pyval) :=
  match wss with
  | [] => None
  | ws :: rest =>
      match nonempty (evaluate_address self f (Some ws)) with
      | Some addr =>
          match range_value ws addr with
          | Ok vals => Some (_flatten_to_list vals)
          | Raise _ => evaluate_on_sheets self f rest
          end
      | None => evaluate_on_sheets self f rest
      end
  end.

(** The loop of [_try_resolve_named_range] over [self.workbook.names]. *)
Fixpoint named_range_names (self : Extractor) (wb : Book) (target : string)
    (nms : list Name) : Result (option (list pyval)) :=
  match nms with
  | [] => Ok None
  | nm :: rest =>
      match nonempty (nm_name nm) with
      | None => named_range_names self wb target rest
      | Some n =>
          if same_name n target then
            match nonempty (nm_refers_to nm) with
            | None => named_range_names self wb target rest
            | Some refers_to =>
                let f := strip_equals refers_to in
                if is_range_like f then
                  t <- named_range_target self wb f ;;
                  Ok (_values_from_range_on_sheet (fst t) (snd t))
                else
                  match evaluate_on_sheets self f (sheets wb) with
                  | Some vals => Ok (Some vals)
                  | None => named_range_names self wb target rest
                  end
            end
          else named_range_names self wb target rest
      end
  end.

Definition _try_resolve_named_range (self : Extractor) (name : string)
  : option (list pyval) :=
  let target := strip_char SQUOTE (strip name) in
  try_except
    (wb <- the_workbook self ;; named_range_names self wb target (names wb))
    None.

(** One table of a sheet in [_try_resolve_table_column]; [Some] is a
    [return], [None] goes on with the next table. *)
Definition table_column_on_object (ws : Sheet) (lo : ListObject)
    (table_name col_name : string) : option (list pyval) :=
  if match lo_Name lo with Some n => String.eqb n table_name | None => false end then
    match data_body_address lo col_name with
    | Ok addr =>
        match nonempty addr with
        | Some a =>
            match range_value ws a with
            | Ok vals => Some (_flatten_to_list vals)
            | Raise _ => None
            end
        | None => None
        end
    | Raise _ => None
    end
  else None.

Fixpoint table_column_objects (ws : Sheet) (los : list (Result ListObject))
    (table_name col_name : string) : Result (option (list pyval)) :=
  match los with
  | [] => Ok None
  | item :: rest =>
      lo <- item ;;
      match table_column_on_object ws lo table_name col_name with
      | Some vals => Ok (Some vals)
      | None => table_column_objects ws rest table_name col_name
      end
  end.

Fixpoint table_column_sheets (wss : list Sheet) (table_name col_name : string)
  : option (list pyval) :=
  match wss with
  | [] => None
  | ws :: rest =>
      match (los <- ListObjects ws ;; table_column_objects ws los table_name col_name) with
      | Ok (Some vals) => Some vals
      | Ok None => table_column_sheets rest table_name col_name
      | Raise _ => table_column_sheets rest table_name col_name
      end
  end.

Definition _try_resolve_table_column (self : Extractor) (structured_ref : string)
  : option (list pyval) :=
  let text := strip_char SQUOTE (strip structured_ref) in
  if has_brackets text then
    try_except
      (table_name <- index (split1 "["%char text) 0 ;;
       after <- index (split1 "["%char text) 1 ;;
       col_name <- index (split1 "]"%char after) 0 ;;
       wb <- the_workbook self ;;
       Ok (table_column_sheets (sheets wb) table_name col_name))
      None
  else None.

(** The range branch of [_resolve_validation_list_items]. *)
Definition range_target (self : Extractor) (f : string) : Result (option Sheet * string) :=
  if contains "!"%char f then
    parts <- unpack2 (split1 "!"%char f) ;;
    wb <- the_workbook self ;;
    sh <- sheets_getitem wb (strip_char SQUOTE (strip (fst parts))) ;;
    Ok (Some sh, snd parts)
  else Ok (worksheet self, f).

(** "Last resort: evaluate expression in Excel context". *)
Definition last_resort (self : Extractor) (f : string) : option (list pyval) :=
  match nonempty (evaluate_address self f (worksheet self)) with
  | Some addr => _values_from_range_on_sheet (worksheet self) addr
  | None => None
  end.

(** What [_resolve_validation_list_items] does after the structured
    reference step: the range branch, the named-range branch, the last
    resort. An exception ends the method with [None]. *)
Definition resolve_range_or_name (self : Extractor) (f : string) : option (list pyval) :=
  let ranged : Result (option (list pyval)) :=
    if is_range_like f then
      target <- range_target self f ;;
      Ok (_values_from_range_on_sheet (fst target) (snd target))
    else Ok None in
  match ranged with
  | Raise _ => None
  | Ok (Some vals) => Some vals
  | Ok None =>
      match _try_resolve_named_range self f with
      | Some named_vals => Some named_vals
      | None => last_resort self f
      end
  end.

(** [_resolve_validation_list_items(cell, formula1)]; the method does not
    use its [cell] argument. *)
Definition _resolve_validation_list_items (self : Extractor) (formula1 : option string)
  : option (list pyval) :=
  match formula1 with
  | None => None
  | Some formula1 =>
  if String.eqb formula1 "" then None
  else
    let f := normalize formula1 in
    if is_literal_list f then Some (literal_items f)
    else
      match (if has_brackets f then _try_resolve_table_column self f else None) with
      | Some resolved => Some resolved
      | None => resolve_range_or_name self f
      end
  end.

(** *** Cell records *)

(** The attributes of an xlwings cell read by [_extract_cell_full_details];
    each read goes to the application and may fail. *)
Record Cell : Type := {
  cell_address : string;
  cell_row : Z;
  cell_column : Z;
  cell_value : Result pyval;
  cell_formula : Result pyval
}.

(** The keys of the record that come from these attributes; [display_text],
    [format], [hyperlink], [note] and [data_validation] are filled by helper
    methods and are left out here. *)
Record CellDetails : Type := {
  address : string;
  row : Z;
  column : Z;
  column_letter : string;
  value : pyval;
  formula : pyval
}.

Definition _extract_cell_full_details (cell : Cell) : CellDetails :=
  let value := try_except (cell_value cell) PNone in
  let formula := try_except (cell_formula cell) PNone in
  {| address := cell_address cell;
     row := cell_row cell;
     column := cell_column cell;
     column_letter := ColumnLetter._column_to_letter (cell_column cell);
     value := value;
     formula := if truthy formula then formula else PNone |}.

(** *** Pieces of the workbook record *)

(** The record appended when a sheet fails. *)
Definition degraded_sheet (name : pyval) (error : string) : pyval :=
  PDict [("sheet", PDict [("name", name); ("error", PStr error)]);
         ("cells", PList []);
         ("tables", PList [])].

Definition opt_str (o : option string) : pyval :=
  match o with
  | Some s => PStr s
  | None => PNone
  end.

Definition names_metadata (wb : Book) : list pyval :=
  map (fun nm => PDict [("name", opt_str (nm_name nm));
                        ("refers_to", opt_str (nm_refers_to nm))]) (names wb).

End Xlwings.

(** ** The converter: [_convert_impl.py] *)

Module Convert.
Import PyStr Source.

(** A JSON object as loaded by [json.load]. *)
Definition dict : Type := list (string * pyval).

(** [d.get(k)] *)
Definition py_get (k : string) (d : dict) : pyval :=
  match dict_get k d with
  | Some v => v
  | None => PNone
  end.

(** [k in d] *)
Definition key_in (k : string) (d : dict) : bool :=
  match dict_get k d with
  | Some _ => true
  | None => false
  end.

(** The character class of the first [re.sub] in [sanitize_filename]:
    backslash, slash, colon, star, question mark, double quote, the angle
    brackets and the bar. *)
Definition forbidden (c : ascii) : bool :=
  existsb (fun z => ord c =? z) [92; 47; 58; 42; 63; 34; 60; 62; 124].

Fixpoint sub_forbidden (s : string) : string :=
  match s with
  | EmptyString => EmptyString
  | String c s' => String (if forbidden c then "_"%char else c) (sub_forbidden s')
  end.

(** [re.sub(r"\s+", "_", s)]; [in_run] tells that the previous character
    was white space already replaced. *)
Fixpoint sub_spaces (in_run : bool) (s : string) : string :=
  match s with
  | EmptyString => EmptyString
  | String c s' =>
      if is_space c then
        if in_run then sub_spaces true s' else String "_"%char (sub_spaces true s')
      else String c (sub_spaces false s')
  end.

Definition sanitize_filename (name : string) : string :=
  let name := strip name in
  let name := sub_forbidden name in
  let name := sub_spaces false name in
  let cut := take 120 name in
  if String.eqb cut "" then "sheet" else cut.

Definition detect_structure (data : dict) : string :=
  if match dict_get "workbook" data with
     | Some (PDict wb) => key_in "sheets" wb
     | _ => false
     end
  then "workbook"
  else if key_in "sheet" data && key_in "cells" data then "sheet"
  else "unknown".

(** [extract_sheets]; [x or []] keeps a true [x] whatever its type. *)
Definition extract_sheets (data : dict) : pyval :=
  let kind := detect_structure data in
  if String.eqb kind "workbook" then
    let sheets := match py_get "workbook" data with
                  | PDict wb => py_get "sheets" wb
                  | _ => PNone
                  end in
    if truthy sheets then sheets else PList []
  else if String.eqb kind "sheet" then PList [PDict data]
  else PList [].

(** The [columns] list of [write_sheet_csvs]. *)
Definition columns : list string :=
  [ "address"; "row"; "column"; "column_letter";
    "value"; "display_text"; "formula";
    "format.number_format"; "format.font_name"; "format.font_size";
    "format.font_bold"; "format.font_italic";
    "hyperlink.address"; "note";
    "data_validation.type_name"; "data_validation.formula1";
    "data_validation.formula2"; "data_validation.list_items";
    "format.merged"; "format.merge_area" ].

(** The loop of [get_nested] over [path.split('.')]. *)
Fixpoint get_nested_parts (cur : pyval) (parts : list string) : pyval :=
  match parts with
  | [] => cur
  | part :: rest =>
      match cur with
      | PDict d => get_nested_parts (py_get part d) rest
      | _ => PNone
      end
  end.

Definition get_nested (d : dict) (path : string) : pyval :=
  get_nested_parts (PDict d) (split "."%char path).

(** The files written so far: path and rows handed to [csv.writer], the
    latest first. *)
Definition FileSystem : Type := list (string * list (list pyval)).

Section WithStr.

(** The builtin [str]. *)
Variable str : pyval -> string.

(** [if isinstance(val, list): val = ", ".join(str(x) for x in val)] *)
Definition join_list (val : pyval) : pyval :=
  match val with
  | PList l => PStr (String.concat ", " (map str l))
  | _ => val
  end.

(** The entry of one column in the line of record [r]. *)
Definition csv_entry (r : dict) (col : string) : pyval :=
  let val := if contains "."%char col then get_nested r col else py_get col r in
  join_list val.

Definition csv_line (r : dict) : list pyval := map (csv_entry r) columns.

(** [write_csv(path, rows)]: the header row, then one line per record. *)
Definition write_csv (path : string) (rows : list dict) (fs : FileSystem) : FileSystem :=
  (path, map PStr columns :: map csv_line rows) :: fs.

(** [out_dir / name] *)
Definition joinpath (out_dir name : string) : string := out_dir ++ "/" ++ name.

Definition write_sheet_csvs (out_dir sheet_name : string) (cells : list dict)
    (fs : FileSystem) : list (string * string) * FileSystem :=
  let base := sanitize_filename sheet_name in
  let all_csv := joinpath out_dir (base ++ "-cells.csv") in
  let form_csv := joinpath out_dir (base ++ "-formulas.csv") in
  let val_csv := joinpath out_dir (base ++ "-validations.csv") in
  let fs := write_csv all_csv cells fs in
  let formula_rows := filter (fun c => truthy (py_get "formula" c)) cells in
  let fs := write_csv form_csv formula_rows fs in
  let validation_rows := filter (fun c => truthy (py_get "data_validation" c)) cells in
  let fs := write_csv val_csv validation_rows fs in
  ([("cells_csv", all_csv); ("formulas_csv", form_csv); ("validations_csv", val_csv)], fs).

End WithStr.

End Convert.

(** ** Stand-ins for library functions

    The embedding takes [CellRange], [get_column_letter] and [str] as
    parameters. The functions below instantiate them on the inputs used in
    the examples: plain A1-style references, column indices of a sheet, and
    scalars. *)

Module Standin.
Import PyStr.

Fixpoint remove_dollars (s : string) : string :=
  match s with
  | EmptyString => EmptyString
  | String c s' =>
      if Ascii.eqb c "$"%char then remove_dollars s' else String c (remove_dollars s')
  end.

Fixpoint decimal_from (acc : Z) (s : list ascii) : Z :=
  match s with
  | [] => acc
  | c :: s' => decimal_from (acc * 10 + (ord c - 48)) s'
  end.

(** "B12" as (column, row). *)
Definition coordinate (s : string) : option (Z * Z) :=
  match Dependencies.span Dependencies.is_AZ (list_ascii_of_string s) with
  | ([], _) => None
  | (ls, r) =>
      match Dependencies.span Dependencies.is_digit r with
      | (d :: ds, []) =>
          Some (ColumnLetter.letter_to_column (string_of_list_ascii ls), decimal_from 0 (d :: ds))
      | _ => None
      end
  end.

Definition CellRange (ref : string) : Result Openpyxl.CellRange_t :=
  match map coordinate (split ":"%char (upper (remove_dollars ref))) with
  | [Some (c, r)] =>
      Ok {| Openpyxl.min_col := c; Openpyxl.min_row := r;
            Openpyxl.max_col := c; Openpyxl.max_row := r |}
  | [Some (c1, r1); Some (c2, r2)] =>
      if (c1 <=? c2) && (r1 <=? r2)
      then Ok {| Openpyxl.min_col := c1; Openpyxl.min_row := r1;
                 Openpyxl.max_col := c2; Openpyxl.max_row := r2 |}
      else Raise (ValueError ("not a valid coordinate or range: " ++ ref))
  | _ => Raise (ValueError ("not a valid coordinate or range: " ++ ref))
  end.

Definition get_column_letter (col : Z) : Result string :=
  if (1 <=? col) && (col <=? 18278) then Ok (ColumnLetter._column_to_letter col)
  else Raise (ValueError "Invalid column index").

(** [str] on [None], booleans, whole numbers and strings. *)
Definition str (v : pyval) : string :=
  match v with
  | PNone => "None"
  | PBool true => "True"
  | PBool false => "False"
  | PInt z => DecimalString.NilZero.string_of_int (Z.to_int z)
  | PStr s => s
  | _ => "?"
  end.

End Standin.

(** ** Concrete workbooks *)

Module Examples.
Import PyStr.

(** A sheet whose column A holds 10, an empty cell and 30. *)
Definition o_sheet1 : Openpyxl.Worksheet :=
  {| Openpyxl.title := "Sheet1";
     Openpyxl.cell_value := fun r c =>
       if (c =? 1) && (r =? 1) then PInt 10
       else if (c =? 1) && (r =? 3) then PInt 30
       else PNone;
     Openpyxl.tables := [] |}.

Definition o_name (n : string) : string * Openpyxl.DefinedName :=
  (n, {| Openpyxl.dn_name := n;
         Openpyxl.attr_text := "Sheet1!$A$1:$A$3";
         Openpyxl.destinations := [("Sheet1", "$A$1:$A$3")] |}).

(** No defined name at all. *)
Definition o_book_plain : Openpyxl.Workbook :=
  {| Openpyxl.worksheets := [o_sheet1]; Openpyxl.defined_names := [] |}.

(** One defined name, "MyRange", for A1:A3 of the sheet. *)
Definition o_book_named : Openpyxl.Workbook :=
  {| Openpyxl.worksheets := [o_sheet1];
     Openpyxl.defined_names := [o_name "MyRange"] |}.


(** A sheet with a table "Table1" on A1:A3, header "Col", and a table
    "Empty" that has a header row only. *)
Definition o_sheet_tables : Openpyxl.Worksheet :=
  {| Openpyxl.title := "Data";
     Openpyxl.cell_value := fun r c =>
       if c =? 1 then (if r =? 1 then PStr "Col" else PInt r) else PNone;
     Openpyxl.tables := [("Table1", {| Openpyxl.tbl_ref := "A1:A3" |});
                         ("Empty", {| Openpyxl.tbl_ref := "A1:A1" |})] |}.

Definition o_book_tables : Openpyxl.Workbook :=
  {| Openpyxl.worksheets := [o_sheet_tables]; Openpyxl.defined_names := [] |}.

(** The validation source [INDIRECT("Table1[Col]")]. *)
Definition indirect_source : string := "INDIRECT(" ++ quoted "Table1[Col]" ++ ")".

(** The table "Table1" of the live sheet below: its column "Col" has the
    body range $B$2:$B$3. *)
Definition x_table1 : Xlwings.ListObject :=
  {| Xlwings.lo_Name := Some "Table1";
     Xlwings.data_body_address := fun col =>
       if String.eqb col "Col" then Ok (Some "$B$2:$B$3")
       else Raise (ComError "no such column") |}.

(** A live sheet: A1:A3 holds 10, an empty cell and 30; B1:B3 is the table
    "Table1" with header "Col" and the values "x" and "y". The application
    evaluates the INDIRECT expression to the body range $B$2:$B$3. *)
Definition x_sheet1 : Xlwings.Sheet :=
  {| Xlwings.name := Ok "Sheet1";
     Xlwings.range_value := fun addr =>
       if String.eqb addr "$A$1:$A$3" then Ok (PList [PInt 10; PNone; PInt 30])
       else if String.eqb addr "$B$2:$B$3" then Ok (PList [PStr "x"; PStr "y"])
       else Raise (ComError "range");
     Xlwings.ListObjects := Ok [Ok x_table1];
     Xlwings.api_Evaluate := fun expr =>
       if String.eqb expr indirect_source then Ok (Some "$B$2:$B$3")
       else Raise (ComError "evaluate");
     Xlwings.used_range :=
       Ok {| Xlwings.ur_address := Ok "$A$1:$B$3";
             Xlwings.ur_rows_count := Ok (PInt 3);
             Xlwings.ur_columns_count := Ok (PInt 2) |};
     Xlwings.api_UsedRange :=
       Ok {| Xlwings.api_Address := Ok (Some "$A$1:$B$3");
             Xlwings.api_Rows_Count := Ok (PInt 3);
             Xlwings.api_Columns_Count := Ok (PInt 2) |};
     Xlwings.api_Visible := Ok (PInt (-1));
     Xlwings.api_ProtectContents := Ok (PBool false);
     Xlwings.api_ProtectDrawing := Ok (PBool false);
     Xlwings.api_ProtectScenarios := Ok (PBool false) |}.

Definition x_book : Xlwings.Book :=
  {| Xlwings.sheets := [x_sheet1];
     Xlwings.sheets_getitem := fun n =>
       if String.eqb n "Sheet1" then Ok x_sheet1 else Raise (KeyError n);
     Xlwings.active := Ok x_sheet1;
     Xlwings.names := [ {| Xlwings.nm_name := Some "MyRange";
                           Xlwings.nm_refers_to := Some "=Sheet1!$A$1:$A$3" |} ] |}.

Definition x_self : Xlwings.Extractor :=
  {| Xlwings.excel_file_path := "book.xlsx";
     Xlwings.app_Evaluate := fun _ => Raise (ComError "evaluate");
     Xlwings.workbook := Some x_book;
     Xlwings.worksheet := Some x_sheet1 |}.

(** A formula cell as the application reports it: the computed value and
    the formula text. *)
Definition x_formula_cell : Xlwings.Cell :=
  {| Xlwings.cell_address := "$C$1";
     Xlwings.cell_row := 1;
     Xlwings.cell_column := 3;
     Xlwings.cell_value := Ok (PInt 3);
     Xlwings.cell_formula := Ok (PStr "=1+2") |}.

Definition o_formula_cell : Openpyxl.Cell :=
  {| Openpyxl.coordinate := "C1";
     Openpyxl.cell_row := 1;
     Openpyxl.cell_column := 3;
     Openpyxl.cell_value_attr := PStr "=1+2" |}.

(** Two sheets; extracting the one called "Bad" raises. *)
Definition o_sheet_bad : Openpyxl.Worksheet :=
  {| Openpyxl.title := "Bad";
     Openpyxl.cell_value := fun _ _ => PNone;
     Openpyxl.tables := [] |}.

Definition o_self_two : Openpyxl.Extractor :=
  {| Openpyxl.excel_file_path := "book.xlsx";
     Openpyxl.workbook := Some {| Openpyxl.worksheets := [o_sheet_bad; o_sheet1];
                                  Openpyxl.defined_names := [] |};
     Openpyxl.worksheet := None |}.

Definition good_entry (n : string) : pyval :=
  PDict [("sheet", PDict [("name", PStr n)]); ("cells", PList []); ("tables", PList [])].

Definition o_extract_sheet (self : Openpyxl.Extractor) (sheet_name : string) : Result pyval :=
  if String.eqb sheet_name "Bad" then Raise (ValueError "unreadable sheet")
  else Ok (good_entry sheet_name).

Definition o_definedName (wb : Openpyxl.Workbook) : Result (list Openpyxl.DefinedName) :=
  Ok (map snd (Openpyxl.defined_names wb)).

(** A live sheet that has become inaccessible: every read of it fails, its
    name included. *)
Definition x_sheet_gone : Xlwings.Sheet :=
  {| Xlwings.name := Raise (ComError "sheet");
     Xlwings.range_value := fun _ => Raise (ComError "range");
     Xlwings.ListObjects := Raise (ComError "ListObjects");
     Xlwings.api_Evaluate := fun _ => Raise (ComError "evaluate");
     Xlwings.used_range := Raise (ComError "used_range");
     Xlwings.api_UsedRange := Raise (ComError "UsedRange");
     Xlwings.api_Visible := Raise (ComError "Visible");
     Xlwings.api_ProtectContents := Raise (ComError "ProtectContents");
     Xlwings.api_ProtectDrawing := Raise (ComError "ProtectDrawing");
     Xlwings.api_ProtectScenarios := Raise (ComError "ProtectScenarios") |}.

(** The same sheet, except that its name "Bad" can still be read. *)
Definition x_sheet_bad : Xlwings.Sheet :=
  {| Xlwings.name := Ok "Bad";
     Xlwings.range_value := Xlwings.range_value x_sheet_gone;
     Xlwings.ListObjects := Xlwings.ListObjects x_sheet_gone;
     Xlwings.api_Evaluate := Xlwings.api_Evaluate x_sheet_gone;
     Xlwings.used_range := Xlwings.used_range x_sheet_gone;
     Xlwings.api_UsedRange := Xlwings.api_UsedRange x_sheet_gone;
     Xlwings.api_Visible := Xlwings.api_Visible x_sheet_gone;
     Xlwings.api_ProtectContents := Xlwings.api_ProtectContents x_sheet_gone;
     Xlwings.api_ProtectDrawing := Xlwings.api_ProtectDrawing x_sheet_gone;
     Xlwings.api_ProtectScenarios := Xlwings.api_ProtectScenarios x_sheet_gone |}.

(** A live workbook of two sheets, the first of them given. *)
Definition x_book_two (first : Xlwings.Sheet) : Xlwings.Book :=
  {| Xlwings.sheets := [first; x_sheet1];
     Xlwings.sheets_getitem := fun n =>
       if String.eqb n "Sheet1" then Ok x_sheet1
       else if String.eqb n "Bad" then Ok first
       else Raise (KeyError n);
     Xlwings.active := Ok first;
     Xlwings.names := [] |}.

Definition x_self_two : Xlwings.Extractor :=
  {| Xlwings.excel_file_path := "book.xlsx";
     Xlwings.app_Evaluate := fun _ => Raise (ComError "evaluate");
     Xlwings.workbook := Some (x_book_two x_sheet_bad);
     Xlwings.worksheet := None |}.

Definition x_self_gone : Xlwings.Extractor :=
  {| Xlwings.excel_file_path := "book.xlsx";
     Xlwings.app_Evaluate := fun _ => Raise (ComError "evaluate");
     Xlwings.workbook := Some (x_book_two x_sheet_gone);
     Xlwings.worksheet := None |}.

(** The record of a cell and of a table, cut down to two keys each. *)
Definition x_cell_record (sh : Xlwings.Sheet) (row col : Z) : Result pyval :=
  Ok (PDict [("row", PInt row); ("column", PInt col)]).

Definition x_table_record (lo : Xlwings.ListObject) : Result pyval :=
  Ok (PDict [("name", Xlwings.opt_str (Xlwings.lo_Name lo)); ("columns", PList [])]).

End Examples.

(** ** More of the converter: summaries, NDJSON rows, the index, [convert] *)

Module ConvertMore.
Import PyStr Source Convert.

(** [d.get(k, default)] *)
Definition get_default (k : string) (d : dict) (default : pyval) : pyval :=
  match dict_get k d with
  | Some v => v
  | None => default
  end.

(** [v.get(...)]: among the values [json.load] returns only an object has
    the method. *)
Definition as_dict (v : pyval) : Result dict :=
  match v with
  | PDict d => Ok d
  | _ => Raise (AttributeError "get")
  end.

(** [name.strip()] at the start of [sanitize_filename]: only a string has
    the method. *)
Definition as_str (v : pyval) : Result string :=
  match v with
  | PStr s => Ok s
  | _ => Raise (AttributeError "strip")
  end.

(** [sheet_entry.get("sheet", {}).get("name", "Unknown")] *)
Definition sheet_name_of (sheet_entry : dict) : Result pyval :=
  sheet_meta <- as_dict (get_default "sheet" sheet_entry (PDict [])) ;;
  Ok (get_default "name" sheet_meta (PStr "Unknown")).

(** [sheet_entry.get("cells", []) or []] *)
Definition cells_value (sheet_entry : dict) : pyval :=
  let cells := get_default "cells" sheet_entry (PList []) in
  if truthy cells then cells else PList [].

Fixpoint chars (s : string) : list pyval :=
  match s with
  | EmptyString => []
  | String c s' => PStr (String c EmptyString) :: chars s'
  end.

(** [for c in v]: the elements of a list, the characters of a string, the
    keys of an object; a number, a boolean or [None] cannot be iterated
    (Python's TypeError, carried here as an AttributeError). *)
Definition py_iter (v : pyval) : Result (list pyval) :=
  match v with
  | PList l => Ok l
  | PTuple l => Ok l
  | PStr s => Ok (chars s)
  | PDict d => Ok (map (fun kv => PStr (fst kv)) d)
  | _ => Raise (AttributeError "__iter__")
  end.

(** [len(v)] for a value that can be iterated. *)
Definition py_len (v : pyval) : Z :=
  match v with
  | PList l => Z.of_nat (List.length l)
  | PTuple l => Z.of_nat (List.length l)
  | PStr s => Z.of_nat (String.length s)
  | PDict d => Z.of_nat (List.length d)
  | _ => 0
  end.

(** [c.get(k)] for an element [c] of the cell list. *)
Definition cell_get (k : string) (c : pyval) : Result pyval :=
  d <- as_dict c ;; Ok (py_get k d).

(** [sum(1 for c in cells if test(c))]; the first element on which the test
    raises ends the sum. *)
Fixpoint count_if (test : pyval -> Result bool) (l : list pyval) : Result Z :=
  match l with
  | [] => Ok 0
  | c :: l' =>
      b <- test c ;;
      n <- count_if test l' ;;
      Ok (if b then 1 + n else n)
  end.

Definition has_formula (c : pyval) : Result bool :=
  v <- cell_get "formula" c ;; Ok (truthy v).

Definition has_validation (c : pyval) : Result bool :=
  v <- cell_get "data_validation" c ;; Ok (truthy v).

(** [(c.get("data_validation") or {}).get("type_name") == "xlValidateList"] *)
Definition is_dropdown (c : pyval) : Result bool :=
  v <- cell_get "data_validation" c ;;
  dv <- as_dict (if truthy v then v else PDict []) ;;
  Ok (str_eq_val "xlValidateList" (py_get "type_name" dv)).

Record Stats : Type := {
  n_cells : Z;
  n_formulas : Z;
  n_validations : Z;
  n_dropdowns : Z
}.

Definition summarize_sheet (sheet_entry : dict) : Result (pyval * Stats) :=
  name <- sheet_name_of sheet_entry ;;
  let cells := cells_value sheet_entry in
  items <- py_iter cells ;;
  formula_count <- count_if has_formula items ;;
  validation_count <- count_if has_validation items ;;
  dropdown_count <- count_if is_dropdown items ;;
  Ok (name, {| n_cells := py_len cells;
               n_formulas := formula_count;
               n_validations := validation_count;
               n_dropdowns := dropdown_count |}).

(** [d[k] = v]: an existing key keeps its place. *)
Fixpoint dict_set {A} (k : string) (v : A) (d : list (string * A)) : list (string * A) :=
  match d with
  | [] => [(k, v)]
  | (k', v') :: d' =>
      if String.eqb k k' then (k, v) :: d' else (k', v') :: dict_set k v d'
  end.

(** [d.update(u)] for an object [u]. *)
Definition dict_update (d u : dict) : dict :=
  fold_left (fun acc kv => dict_set (fst kv) (snd kv) acc) u d.

Fixpoint all_dicts (l : list pyval) : Result (list dict) :=
  match l with
  | [] => Ok []
  | v :: l' => d <- as_dict v ;; ds <- all_dicts l' ;; Ok (d :: ds)
  end.

(** The cell list of an entry as the code declares it, [List[Dict[str, Any]]].
    A value of another type is outside the declared input; the model stops
    on it with an error. *)
Definition typed_cells (sheet_entry : dict) : Result (list dict) :=
  match cells_value sheet_entry with
  | PList l => all_dicts l
  | _ => Raise (AttributeError "get")
  end.

(** The rows that [write_ndjson] hands to [json.dumps], in order:
    [row = {"sheet": name}; row.update(cell)] for every cell of every
    sheet. *)
Fixpoint ndjson_rows (sheets : list dict) : Result (list dict) :=
  match sheets with
  | [] => Ok []
  | sheet_entry :: rest =>
      name <- sheet_name_of sheet_entry ;;
      cells <- typed_cells sheet_entry ;;
      more <- ndjson_rows rest ;;
      Ok (map (fun cell => dict_update [("sheet", name)] cell) cells ++ more)%list
  end.

(** [s.replace(" ", "_")] *)
Fixpoint spaces_to_underscores (s : string) : string :=
  match s with
  | EmptyString => EmptyString
  | String c s' =>
      String (if Ascii.eqb c " "%char then "_"%char else c) (spaces_to_underscores s')
  end.

(** What a run leaves on disk. *)
Inductive Content : Type :=
| Directory
| Csv (rows : list (list pyval))
| Json (doc : pyval)
| Ndjson (rows : list dict)
| Text (text : string).

(** Paths created or written, the latest first. *)
Definition Files : Type := list (string * Content).

(** The end of a run of [convert]: [SystemExit] with its message, another
    exception (what was written before it is not described), or the normal
    end with the files. *)
Inductive Outcome : Type :=
| Exit (msg : string)
| Failed (e : exn)
| Done (fs : Files).

Definition no_sheets_message : string :=
  "No sheets found in JSON. Ensure you passed a _full_details.json file.".

Section WithBuiltins.

(** The builtin [str], used by the f-strings and by the CSV writer. *)
Variable str : pyval -> string.

(** [Path(p).name] *)
Variable path_name : string -> string.

(** [write_sheet_csvs] on the disk of [convert]. *)
Definition write_sheet_csvs_on (sheet_dir sheet_name : string) (cells : list dict)
    (fs : Files) : list (string * string) * Files :=
  let (files, written) := write_sheet_csvs str sheet_dir sheet_name cells [] in
  (files, (map (fun f => (fst f, Csv (snd f))) written ++ fs)%list).

Definition write_sheet_json (out_dir sheet_name : string) (sheet_entry : dict)
    (fs : Files) : string * Files :=
  let path := joinpath out_dir (sanitize_filename sheet_name ++ ".json") in
  (path, (path, Json (PDict sheet_entry)) :: fs).

Definition write_ndjson (out_dir workbook_name : string) (sheets : list dict)
    (fs : Files) : Result (string * Files) :=
  let path := joinpath out_dir (workbook_name ++ "-cells.ndjson") in
  rows <- ndjson_rows sheets ;;
  Ok (path, (path, Ndjson rows) :: fs).

(** [[{Path(files.get(k, '')).name}]({Path(files.get(k, '')).name})] *)
Definition index_link (files : list (string * string)) (k : string) : string :=
  let n := path_name (match dict_get k files with Some p => p | None => "" end) in
  "[" ++ n ++ "](" ++ n ++ ")".

(** The table line of one sheet in [write_index_md]. *)
Definition index_line (file_map : list (string * list (string * string)))
    (sheet_entry : dict) : Result string :=
  summary <- summarize_sheet sheet_entry ;;
  let (name, stats) := summary in
  name_str <- as_str name ;;
  let key := sanitize_filename name_str in
  let files := match dict_get key file_map with Some f => f | None => [] end in
  Ok ("| " ++ str name ++ " | " ++ str (PInt (n_cells stats))
      ++ " | " ++ str (PInt (n_formulas stats))
      ++ " | " ++ str (PInt (n_validations stats))
      ++ " | " ++ str (PInt (n_dropdowns stats)) ++ " | "
      ++ index_link files "cells_csv" ++ " | "
      ++ index_link files "formulas_csv" ++ " | "
      ++ index_link files "validations_csv" ++ " | "
      ++ "[" ++ key ++ ".json](" ++ key ++ ".json) |" ++ String (chr 10) "").

Fixpoint index_lines (file_map : list (string * list (string * string)))
    (sheets : list dict) : Result (list string) :=
  match sheets with
  | [] => Ok []
  | sheet_entry :: rest =>
      line <- index_line file_map sheet_entry ;;
      more <- index_lines file_map rest ;;
      Ok (line :: more)
  end.

Definition NL : string := String (chr 10) "".

(** The lines of the index before and after the table body. *)
Definition index_head (workbook_file_name : string) : list string :=
  [ "# Excel Extraction Index" ++ NL;
    "- **source_file**: `" ++ workbook_file_name ++ "`" ++ NL;
    "";
    "## Sheets" ++ NL;
    "| Sheet | Cells | Formulas | Validations | Dropdowns | CSV (cells) | CSV (formulas) | CSV (validations) | JSON |" ++ NL;
    "|---|---:|---:|---:|---:|---|---|---|---|" ++ NL ].

Definition index_foot : list string :=
  [ ""; "Generated by convert_excel_json.py" ++ NL ].

Definition write_index_md (out_dir workbook_file_name : string) (sheets : list dict)
    (file_map : list (string * list (string * string))) (fs : Files)
  : Result (string * Files) :=
  let index := joinpath out_dir "INDEX.md" in
  body <- index_lines file_map sheets ;;
  let lines := List.app (index_head workbook_file_name) (List.app body index_foot) in
  Ok (index, (index, Text (String.concat NL lines)) :: fs).

(** The loop of [convert] over the sheets: the directory, the three CSV
    files and the JSON file of each sheet, and the map from the sanitized
    name to these files. *)
Fixpoint convert_sheets (out_root : string) (sheets : list dict)
    (file_map : list (string * list (string * string))) (fs : Files)
  : Result (list (string * list (string * string)) * Files) :=
  match sheets with
  | [] => Ok (file_map, fs)
  | sheet_entry :: rest =>
      name <- sheet_name_of sheet_entry ;;
      name <- as_str name ;;
      let sheet_dir := joinpath out_root (sanitize_filename name) in
      let fs := (sheet_dir, Directory) :: fs in
      cells <- typed_cells sheet_entry ;;
      let (csv_files, fs) := write_sheet_csvs_on sheet_dir name cells fs in
      let (json_file, fs) := write_sheet_json sheet_dir name sheet_entry fs in
      let key := sanitize_filename name in
      let file_map := dict_set key (csv_files ++ [("json", json_file)])%list file_map in
      convert_sheets out_root rest file_map fs
  end.

(** [convert(input_json, output_dir, make_ndjson)]. [data] is what
    [load_json] returned; [input_stem] and [input_name] are
    [input_json.stem] and [input_json.name]. The sheet list is taken as the
    code declares it, a list of objects. *)
Definition convert (data : dict) (input_stem input_name output_dir : string)
    (make_ndjson : bool) (fs : Files) : Outcome :=
  let sheets := extract_sheets data in
  if negb (truthy sheets) then Exit no_sheets_message
  else
    let run : Result Files :=
      items <- py_iter sheets ;;
      sheets <- all_dicts items ;;
      let workbook_stem := spaces_to_underscores input_stem in
      let out_root := joinpath output_dir workbook_stem in
      let fs := (out_root, Directory) :: fs in
      looped <- convert_sheets out_root sheets [] fs ;;
      let (file_map, fs) := looped in
      fs <- (if make_ndjson
             then r <- write_ndjson out_root workbook_stem sheets fs ;; Ok (snd r)
             else Ok fs) ;;
      r <- write_index_md out_root input_name sheets file_map fs ;;
      Ok (snd r) in
    match run with
    | Ok fs => Done fs
    | Raise e => Failed e
    end.

End WithBuiltins.

End ConvertMore.

(** ** The sheet and workbook walkers of the live backend

    [get_worksheet_info], [extract_sheet_full_details] and
    [extract_workbook_full_details] of [ExcelFormulaExtractor]. Every read
    of the application may fail; the code guards most reads with a [try]
    of their own, and the model keeps each guard where the code has it. *)

Module XlwingsWalker.
Import PyStr Source Convert ConvertMore Xlwings.

(** A TypeError of Python's arithmetic, carried with a short message. *)
Definition type_error : exn := ValueError "unsupported operand type(s)".

(** A number as [+] and [range] take it: an [int], or a [bool] as 0 or 1. *)
Definition py_int_of (v : pyval) : option Z :=
  match v with
  | PInt z => Some z
  | PBool b => Some (if b then 1 else 0)
  | _ => None
  end.

(** [range(1, v + 1)] *)
Definition py_range1 (v : pyval) : Result (list Z) :=
  match py_int_of v with
  | Some z => Ok (zrange 1 z)
  | None => Raise type_error
  end.

(** [a * b]: the product of two numbers, or a string, list or tuple
    repeated a number of times. *)
Definition py_mul (a b : pyval) : Result pyval :=
  match py_int_of a, py_int_of b with
  | Some x, Some y => Ok (PInt (x * y))
  | Some n, None =>
      match b with
      | PStr s => Ok (PStr (String.concat "" (repeat s (Z.to_nat n))))
      | PList l => Ok (PList (List.concat (repeat l (Z.to_nat n))))
      | PTuple l => Ok (PTuple (List.concat (repeat l (Z.to_nat n))))
      | _ => Raise type_error
      end
  | None, Some n =>
      match a with
      | PStr s => Ok (PStr (String.concat "" (repeat s (Z.to_nat n))))
      | PList l => Ok (PList (List.concat (repeat l (Z.to_nat n))))
      | PTuple l => Ok (PTuple (List.concat (repeat l (Z.to_nat n))))
      | _ => Raise type_error
      end
  | None, None => Raise type_error
  end.

(** [v or 0] *)
Definition or_zero (v : pyval) : pyval := if truthy v then v else PInt 0.

(** [self.worksheet.<attr>]: raises while no sheet is selected. *)
Definition the_worksheet (self : Extractor) : Result Sheet :=
  match worksheet self with
  | Some sh => Ok sh
  | None => Raise (AttributeError "worksheet")
  end.

(** [get_worksheet_info(sheet_name)]: the dictionary it returns, and the
    extractor with the sheet it has selected. The selection stays when a
    later read fails; the dictionary is then empty. *)
Definition get_worksheet_info (self : Extractor) (sheet_name : option string)
  : dict * Extractor :=
  match (wb <- the_workbook self ;;
         match nonempty sheet_name with
         | Some n => sheets_getitem wb n
         | None => active wb
         end) with
  | Raise _ => ([], self)
  | Ok sh =>
      let self := set_worksheet self sh in
      (try_except
         (ur <- used_range sh ;;
          sheet_name <- name sh ;;
          address <- ur_address ur ;;
          rows <- ur_rows_count ur ;;
          columns <- ur_columns_count ur ;;
          total_cells <- py_mul rows columns ;;
          Ok [("sheet_name", PStr sheet_name);
              ("used_range", PStr address);
              ("rows", rows);
              ("columns", columns);
              ("total_cells", total_cells)])
         [],
       self)
  end.

(** "Safe used range retrieval": [used_address], [rows_count] and
    [cols_count], from [used_range], else from [api.UsedRange], else
    [None], 0 and 0. *)
Definition safe_used_range (self : Extractor) : pyval * pyval * pyval :=
  match (sh <- the_worksheet self ;;
         ur <- used_range sh ;;
         used_address <- ur_address ur ;;
         rows_count <- ur_rows_count ur ;;
         cols_count <- ur_columns_count ur ;;
         Ok (PStr used_address, rows_count, cols_count)) with
  | Ok t => t
  | Raise _ =>
      try_except
        (sh <- the_worksheet self ;;
         used_range_api <- api_UsedRange sh ;;
         used_address <- api_Address used_range_api ;;
         rows_count <- api_Rows_Count used_range_api ;;
         cols_count <- api_Columns_Count used_range_api ;;
         Ok (opt_str used_address, or_zero rows_count, or_zero cols_count))
        (PNone, PInt 0, PInt 0)
  end.

(** The four sheet-level properties, read in one [try]: when one read
    fails all four are [None]. *)
Definition sheet_flags (self : Extractor) : pyval * pyval * pyval * pyval :=
  try_except
    (sh <- the_worksheet self ;;
     visible <- api_Visible sh ;;
     protect_contents <- api_ProtectContents sh ;;
     protect_drawing <- api_ProtectDrawing sh ;;
     protect_scenarios <- api_ProtectScenarios sh ;;
     Ok (visible, protect_contents, protect_drawing, protect_scenarios))
    (PNone, PNone, PNone, PNone).

Section Walker.

(** The [try] body of the cell loop:
    [cell = self.worksheet.cells(row, col)] followed by
    [self._extract_cell_full_details(cell)], the record of one cell. It
    raises when the cell cannot be reached. *)
Variable cell_record : Sheet -> Z -> Z -> Result pyval.

(** The inner [try] body of the table loop: the record appended for one
    table. *)
Variable table_record : ListObject -> Result pyval.

(** [datetime.now().isoformat()] *)
Variable now : string.

(** One turn of the cell loop, with its [except: continue]. *)
Definition cell_entries (self : Extractor) (row col : Z) : list pyval :=
  match (sh <- the_worksheet self ;; cell_record sh row col) with
  | Ok details => [details]
  | Raise _ => []
  end.

(** [if rows_count and cols_count:] and the two loops. The column range is
    computed inside the row loop, so only when there is a row. *)
Definition sheet_cells (self : Extractor) (rows_count cols_count : pyval)
  : Result (list pyval) :=
  if truthy rows_count && truthy cols_count then
    rows <- py_range1 rows_count ;;
    match rows with
    | [] => Ok []
    | _ :: _ =>
        cols <- py_range1 cols_count ;;
        Ok (flat_map (fun row => flat_map (fun col => cell_entries self row col) cols) rows)
    end
  else Ok [].

(** The table loop: a failing [list_objects.Item(i)] ends the loop through
    the outer [except: pass], a failing record is skipped. *)
Fixpoint table_entries (los : list (Result ListObject)) : list pyval :=
  match los with
  | [] => []
  | Raise _ :: _ => []
  | Ok lo :: rest =>
      match table_record lo with
      | Ok t => t :: table_entries rest
      | Raise _ => table_entries rest
      end
  end.

Definition sheet_tables (self : Extractor) : list pyval :=
  match (sh <- the_worksheet self ;; ListObjects sh) with
  | Ok los => table_entries los
  | Raise _ => []
  end.

(** The [try] body of [extract_sheet_full_details], and the extractor
    with the sheet that [get_worksheet_info] has selected. *)
Definition extract_sheet_body (self : Extractor) (sheet_name : option string)
  : Result pyval * Extractor :=
  let (sheet_info, self) := get_worksheet_info self sheet_name in
  let '(used_address, rows_count, cols_count) := safe_used_range self in
  (cells <- sheet_cells self rows_count cols_count ;;
   let tables := sheet_tables self in
   let '(visible, protect_contents, protect_drawing, protect_scenarios) :=
     sheet_flags self in
   sheet_info <- (if truthy used_address then
                    total_cells <- py_mul rows_count cols_count ;;
                    Ok (dict_set "total_cells" total_cells
                          (dict_set "columns" cols_count
                             (dict_set "rows" rows_count
                                (dict_set "used_range" used_address sheet_info))))
                  else Ok sheet_info) ;;
   Ok (PDict [("sheet",
               PDict [("name", py_get "sheet_name" sheet_info);
                      ("used_range", py_get "used_range" sheet_info);
                      ("rows", py_get "rows" sheet_info);
                      ("columns", py_get "columns" sheet_info);
                      ("visible", visible);
                      ("protect_contents", protect_contents);
                      ("protect_drawing", protect_drawing);
                      ("protect_scenarios", protect_scenarios)]);
              ("cells", PList cells);
              ("tables", PList tables)]),
   self).

(** [extract_sheet_full_details(sheet_name)]. In the [except] branch
    [safe_name] is [self.worksheet.name], and [sheet_name] when that read
    fails. *)
Definition extract_sheet_full_details (self : Extractor) (sheet_name : option string)
  : pyval :=
  let (body, self) := extract_sheet_body self sheet_name in
  match body with
  | Ok entry => entry
  | Raise e =>
      let safe_name :=
        match (sh <- the_worksheet self ;; name sh) with
        | Ok n => PStr n
        | Raise _ => opt_str sheet_name
        end in
      degraded_sheet safe_name (str_exn e)
  end.

(** One turn of the loop over [self.workbook.sheets]:
    [self.worksheet = ws], then
    [try: all_sheets.append(self.extract_sheet_full_details(ws.name))].
    The handler reads [ws.name] again, for its message and for the entry;
    when that read fails the exception leaves the loop. *)
Definition walk_sheet (self : Extractor) (ws : Sheet) : Result pyval :=
  let self := set_worksheet self ws in
  match (sheet_name <- name ws ;;
         Ok (extract_sheet_full_details self (Some sheet_name))) with
  | Ok entry => Ok entry
  | Raise e =>
      _ <- name ws ;;
      sheet_name <- name ws ;;
      Ok (degraded_sheet (PStr sheet_name) (str_exn e))
  end.

Fixpoint walk (self : Extractor) (wss : list Sheet) : Result (list pyval) :=
  match wss with
  | [] => Ok []
  | ws :: rest =>
      entry <- walk_sheet self ws ;;
      more <- walk self rest ;;
      Ok (entry :: more)
  end.

(** [extract_workbook_full_details()]: the whole method sits in a [try];
    on any exception it returns [{}]. *)
Definition extract_workbook_full_details (self : Extractor) : pyval :=
  try_except
    (wb <- the_workbook self ;;
     all_sheets <- walk self (sheets wb) ;;
     let names := names_metadata wb in
     Ok (PDict [("file_path", PStr (excel_file_path self));
                ("extraction_timestamp", PStr now);
                ("workbook",
                 PDict [("sheet_count", PInt (Z.of_nat (List.length (sheets wb))));
                        ("sheets", PList all_sheets);
                        ("names", PList names)])]))
    (PDict []).

End Walker.

End XlwingsWalker.

(** ** More of the live-application backend: colours and [_extract_cell_info] *)

Module XlwingsMore.
Import PyStr.

(** [b = (int(color_val) >> 16) & 255; g = (int(color_val) >> 8) & 255;
     r = int(color_val) & 255] *)
Definition blue_of (color_val : Z) : Z := Z.land (Z.shiftr color_val 16) 255.
Definition green_of (color_val : Z) : Z := Z.land (Z.shiftr color_val 8) 255.
Definition red_of (color_val : Z) : Z := Z.land color_val 255.

Definition rgb_dict (color_val : Z) : pyval :=
  PDict [("r", PInt (red_of color_val));
         ("g", PInt (green_of color_val));
         ("b", PInt (blue_of color_val))].

(** [_extract_font_color_rgb]; [color] is the read of [cell.api.Font.Color],
    a whole number or [None]. *)
Definition _extract_font_color_rgb (color : Result (option Z)) : pyval :=
  match color with
  | Ok (Some color_val) => rgb_dict color_val
  | Ok None => PNone
  | Raise _ => PNone
  end.

(** [_get_cell_fill_color]; [color] is the read of
    [cell.api.Interior.Color]. *)
Definition _get_cell_fill_color (color : Result (option Z)) : pyval :=
  match color with
  | Ok (Some color_val) =>
      PDict [("excel_bgr", PInt color_val); ("rgb", rgb_dict color_val)]
  | Ok None => PNone
  | Raise _ => PNone
  end.


(** [isinstance(value, (int, float))]: a boolean is an [int] too. *)
Definition is_number (v : pyval) : bool :=
  match v with
  | PInt _ => true
  | PBool _ => true
  | _ => false
  end.

(** [value != 0] for a number. *)
Definition is_nonzero (v : pyval) : bool :=
  match v with
  | PInt z => negb (z =? 0)
  | PBool b => b
  | _ => true
  end.



End XlwingsMore.

(** ** More of the file-parsing backend: range extraction and dependencies *)

Module OpenpyxlMore.
Import PyStr Source Openpyxl.

Section WithLibrary.

Variable CellRange : string -> Result CellRange_t.
Variable get_column_letter : Z -> Result string.

(** [cell.coordinate] of the cell in a given row and column. *)
Variable coordinate_of : Z -> Z -> string.

(** [ws[address].value]: the value of the cell at an address; the lookup
    raises on a string that is not the address of one cell. *)
Variable value_at : Worksheet -> string -> Result pyval.

(** The cell objects of [ws.iter_rows(...)], row by row. *)
Definition iter_cells (ws : Worksheet) (r1 r2 c1 c2 : Z) : list Cell :=
  flat_map (fun r =>
              map (fun c => {| coordinate := coordinate_of r c;
                               cell_row := r;
                               cell_column := c;
                               cell_value_attr := cell_value ws r c |})
                  (zrange c1 c2))
           (zrange r1 r2).

(** [info.get("formula") or (isinstance(info.get("value"), (int, float))
     and info.get("value") != 0)] *)
Definition reported (info : CellDetails) : bool :=
  truthy (formula info)
  || (XlwingsMore.is_number (value info) && XlwingsMore.is_nonzero (value info)).

(** The loop of [extract_formulas_from_range] over the cells. *)
Fixpoint collect_reported (cells : list Cell) : Result (list CellDetails) :=
  match cells with
  | [] => Ok []
  | cell :: rest =>
      info <- _extract_cell_full_details get_column_letter cell ;;
      more <- collect_reported rest ;;
      Ok (if reported info then info :: more else more)
  end.

(** [extract_formulas_from_range(start_cell, end_cell)] on the selected
    sheet [ws]. *)
Definition extract_formulas_from_range (ws : Worksheet) (start_cell : string)
    (end_cell : option string) : Result (list CellDetails) :=
  rng <- CellRange (match end_cell with
                    | Some e => if String.eqb e "" then start_cell
                                else start_cell ++ ":" ++ e
                    | None => start_cell
                    end) ;;
  collect_reported
    (iter_cells ws (min_row rng) (max_row rng) (min_col rng) (max_col rng)).

(** The entry of one dependency in [dependent_values]. *)
Definition dependency_entry (ws : Worksheet) (dep : string) : pyval :=
  match value_at ws dep with
  | Ok v => PDict [("value", v); ("formula", formula_of v); ("address", PStr dep)]
  | Raise _ => PDict [("error", PStr "Could not access cell")]
  end.

(** [extract_formula_dependencies(cell_address)] on the selected sheet. *)
Definition extract_formula_dependencies (ws : Worksheet) (cell_address : string)
  : Result pyval :=
  v <- value_at ws cell_address ;;
  match formula_of v with
  | PStr formula =>
      let deps := Dependencies._parse_formula_dependencies formula in
      let dependent_values :=
        fold_left (fun acc dep => ConvertMore.dict_set dep (dependency_entry ws dep) acc)
                  deps [] in
      Ok (PDict [("cell_address", PStr cell_address);
                 ("formula", PStr formula);
                 ("dependencies", PList (map PStr deps));
                 ("dependent_values", PDict dependent_values);
                 ("calculated_value", PNone)])
  | _ => Ok (PDict [("error", PStr "Cell does not contain a formula")])
  end.

End WithLibrary.

End OpenpyxlMore.

(** ** Data validations of a cell *)

Module Validations.
Import PyStr Source.

(** *** The live backend: [_get_cell_validation]

    [cell.api.Validation] as the method reads it. Every read goes to the
    application and may fail; an attribute that is absent reads as
    [None]. *)
Record XlValidation : Type := {
  v_Type : Result (option Z);
  v_AlertStyle : Result (option Z);
  v_Operator : Result (option Z);
  v_IgnoreBlank : Result bool;
  v_InCellDropdown : Result bool;
  v_Formula1 : Result (option string);
  v_Formula2 : Result pyval
}.

(** [type_name_map.get(int(v_type), None)] *)
Definition type_name_map (t : Z) : pyval :=
  if t =? 0 then PStr "xlValidateInputOnly"
  else if t =? 1 then PStr "xlValidateWholeNumber"
  else if t =? 2 then PStr "xlValidateDecimal"
  else if t =? 3 then PStr "xlValidateList"
  else if t =? 4 then PStr "xlValidateDate"
  else if t =? 5 then PStr "xlValidateTime"
  else if t =? 6 then PStr "xlValidateTextLength"
  else if t =? 7 then PStr "xlValidateCustom"
  else PNone.

Definition opt_int (o : option Z) : pyval :=
  match o with
  | Some z => PInt z
  | None => PNone
  end.

(** [validation["list_items"] = resolved_list] when the list was resolved. *)
Definition with_list_items (resolved : option (list pyval)) (validation : Convert.dict)
  : Convert.dict :=
  match resolved with
  | Some l => ConvertMore.dict_set "list_items" (PList l) validation
  | None => validation
  end.

Definition _get_cell_validation (self : Xlwings.Extractor) (api_Validation : Result XlValidation)
  : pyval :=
  try_except
    (v <- api_Validation ;;
     v_type <- v_Type v ;;
     match v_type with
     | None => Ok PNone
     | Some t =>
         alert_style <- v_AlertStyle v ;;
         operator <- v_Operator v ;;
         ignore_blank <- v_IgnoreBlank v ;;
         in_cell_dropdown <- v_InCellDropdown v ;;
         formula1 <- v_Formula1 v ;;
         formula2 <- v_Formula2 v ;;
         let validation :=
           [("type", PInt t);
            ("type_name", type_name_map t);
            ("alert_style", opt_int alert_style);
            ("operator", opt_int operator);
            ("ignore_blank", PBool ignore_blank);
            ("in_cell_dropdown", PBool in_cell_dropdown);
            ("formula1", Xlwings.opt_str formula1);
            ("formula2", formula2)] in
         Ok (PDict (if t =? 3
                    then with_list_items
                           (Xlwings._resolve_validation_list_items self formula1) validation
                    else validation))
     end)
    PNone.

(** *** The file-parsing backend: [_data_validation_for_cell]

    One [DataValidation] of [ws.data_validations.dataValidation]; [sqref]
    lists the ranges it applies to, each in its written form. *)
Record DataValidation : Type := {
  dv_type : option string;
  dv_operator : pyval;
  allow_blank : pyval;
  dv_formula1 : option string;
  dv_formula2 : pyval;
  sqref : list string
}.

Section WithLibrary.

Variable CellRange : string -> Result Openpyxl.CellRange_t.
Variable get_column_letter : Z -> Result string.

(** [f"{row}"] *)
Variable str_int : Z -> string.

(** [cr = CellRange(sq)] followed by [coord in cr], for an item [sq] of
    [dv.sqref]; either may raise. The items of [dv.sqref] are range objects
    of the library, named here by their written form. *)
Variable covers : string -> string -> Result bool.

(** [str(dv.type)] *)
Definition str_type (t : option string) : string :=
  match t with
  | Some s => s
  | None => "None"
  end.

(** The record built for the first range that holds the cell. *)
Definition validation_record (wb : Openpyxl.Workbook) (ws : Openpyxl.Worksheet)
    (dv : DataValidation) : Convert.dict :=
  let v := [("type", Xlwings.opt_str (dv_type dv));
            ("type_name", Xlwings.opt_str (dv_type dv));
            ("operator", dv_operator dv);
            ("ignore_blank", allow_blank dv);
            ("in_cell_dropdown", PBool true);
            ("formula1", Xlwings.opt_str (dv_formula1 dv));
            ("formula2", dv_formula2 dv)] in
  if String.eqb (lower (str_type (dv_type dv))) "list"
  then with_list_items
         (Openpyxl._resolve_validation_list_items CellRange wb ws (dv_formula1 dv)) v
  else v.

(** [for sq in dv.sqref]; [Ok None] when no range holds the cell. *)
Fixpoint validation_on_ranges (wb : Openpyxl.Workbook) (ws : Openpyxl.Worksheet)
    (dv : DataValidation) (coord : string) (sqs : list string) : Result (option pyval) :=
  match sqs with
  | [] => Ok None
  | sq :: rest =>
      inside <- covers sq coord ;;
      if inside then Ok (Some (PDict (validation_record wb ws dv)))
      else validation_on_ranges wb ws dv coord rest
  end.

(** [for dv in ws.data_validations.dataValidation], each turn in a [try]
    that goes on with the next validation on an exception. *)
Fixpoint validation_loop (wb : Openpyxl.Workbook) (ws : Openpyxl.Worksheet)
    (coord : string) (dvs : list DataValidation) : pyval :=
  match dvs with
  | [] => PNone
  | dv :: rest =>
      match validation_on_ranges wb ws dv coord (sqref dv) with
      | Ok (Some v) => v
      | Ok None => validation_loop wb ws coord rest
      | Raise _ => validation_loop wb ws coord rest
      end
  end.

(** [_data_validation_for_cell(ws, row, col)], with [wb] for [ws.parent].
    [data_validations] is [None] when [ws.data_validations] is falsy, and
    the list [ws.data_validations.dataValidation] otherwise. *)
Definition _data_validation_for_cell (wb : Openpyxl.Workbook) (ws : Openpyxl.Worksheet)
    (data_validations : option (list DataValidation)) (row col : Z) : pyval :=
  match data_validations with
  | None => PNone
  | Some dvs =>
      match get_column_letter col with
      | Ok letter => validation_loop wb ws (letter ++ str_int row) dvs
      | Raise _ => PNone
      end
  end.

End WithLibrary.

End Validations.

(** ** The command line: [cli.main]

    [main] parses the arguments, picks a backend, calls one method of the
    extractor and exports the result. What is modelled is the choice of
    the method and of its arguments. *)

Module Cli.
Import PyStr Source.

Inductive Engine : Type := xlwings | openpyxl.

Inductive Format : Type := json | text.

(** The namespace returned by [parser.parse_args()]. *)
Record Args : Type := {
  excel_file : string;
  sheet : option string;
  output : option string;
  format : Format;
  range : option string;
  dependencies : option string;
  full : bool;
  all_sheets : bool;
  engine : option Engine
}.

(** The method of the extractor that [main] calls, with its arguments. *)
Inductive Call : Type :=
| call_extract_workbook_full_details
| call_extract_sheet_full_details (sheet_name : option string)
| call_extract_formula_dependencies (cell_address : string)
| call_extract_formulas_from_range (start_cell : string) (end_cell : option string)
| call_extract_all_formulas (sheet_name : option string).

Definition dispatch (args : Args) : Result Call :=
  if full args then
    if all_sheets args then Ok call_extract_workbook_full_details
    else Ok (call_extract_sheet_full_details (sheet args))
  else
    match Xlwings.nonempty (dependencies args) with
    | Some d => Ok (call_extract_formula_dependencies d)
    | None =>
        match Xlwings.nonempty (range args) with
        | Some r =>
            if contains ":"%char r then
              parts <- unpack2 (split ":"%char r) ;;
              Ok (call_extract_formulas_from_range (fst parts) (Some (snd parts)))
            else Ok (call_extract_formulas_from_range r None)
        | None => Ok (call_extract_all_formulas (sheet args))
        end
    end.

End Cli.


(** ** More concrete inputs *)

Module ExamplesMore.
Import PyStr Examples.

(** A defined name with two destinations; the sheet of the first one is
    not in the workbook. *)
Definition o_book_missing_sheet : Openpyxl.Workbook :=
  {| Openpyxl.worksheets := [o_sheet1];
     Openpyxl.defined_names :=
       [("Both", {| Openpyxl.dn_name := "Both";
                    Openpyxl.attr_text := "Gone!$A$1:$A$3,Sheet1!$A$1:$A$3";
                    Openpyxl.destinations := [("Gone", "$A$1:$A$3");
                                              ("Sheet1", "$A$1:$A$3")] |});
        ("Later", {| Openpyxl.dn_name := "Later";
                     Openpyxl.attr_text := "Sheet1!A:A,Sheet1!$A$1:$A$3";
                     Openpyxl.destinations := [("Sheet1", "A:A");
                                               ("Sheet1", "$A$1:$A$3")] |})] |}.

(** A live workbook with four defined names: one that does not match
    "myrange", one without a name, and two that match it up to case and
    spaces. *)
Definition x_book_names : Xlwings.Book :=
  {| Xlwings.sheets := [x_sheet1];
     Xlwings.sheets_getitem := fun n =>
       if String.eqb n "Sheet1" then Ok x_sheet1 else Raise (KeyError n);
     Xlwings.active := Ok x_sheet1;
     Xlwings.names :=
       [ {| Xlwings.nm_name := Some "Other";
            Xlwings.nm_refers_to := Some "=Sheet1!$B$2:$B$3" |};
         {| Xlwings.nm_name := None;
            Xlwings.nm_refers_to := Some "=Sheet1!$B$2:$B$3" |};
         {| Xlwings.nm_name := Some "My Range";
            Xlwings.nm_refers_to := Some "=Sheet1!$A$1:$A$3" |};
         {| Xlwings.nm_name := Some "MYRANGE";
            Xlwings.nm_refers_to := Some "=Sheet1!$B$2:$B$3" |} ] |}.

Definition x_self_names : Xlwings.Extractor :=
  {| Xlwings.excel_file_path := "book.xlsx";
     Xlwings.app_Evaluate := fun _ => Raise (ComError "evaluate");
     Xlwings.workbook := Some x_book_names;
     Xlwings.worksheet := Some x_sheet1 |}.

(** The sheet of the examples with a formula in C1, and the lookup
    [ws[address].value] on addresses of one cell: it raises on a column
    beyond the last one of a sheet. *)
Definition o_sheet_formula : Openpyxl.Worksheet :=
  {| Openpyxl.title := "Sheet1";
     Openpyxl.cell_value := fun r c =>
       if (c =? 3) && (r =? 1) then PStr "=A1+A3+ZZZZ9"
       else Openpyxl.cell_value o_sheet1 r c;
     Openpyxl.tables := [] |}.

Definition o_value_at (ws : Openpyxl.Worksheet) (a : string) : Result pyval :=
  match Standin.coordinate a with
  | Some (c, r) =>
      if (1 <=? c) && (c <=? 16384) && (1 <=? r) then Ok (Openpyxl.cell_value ws r c)
      else Raise (ValueError a)
  | None => Raise (ValueError a)
  end.

(** A sheet entry with a formula cell, a dropdown cell and a plain cell,
    and a workbook record that holds it. *)
Definition summary_example : Convert.dict :=
  [("sheet", PDict [("name", PStr "S")]);
   ("cells", PList [PDict [("formula", PStr "=A1")];
                    PDict [("data_validation", PDict [("type_name", PStr "xlValidateList")])];
                    PDict [("value", PInt 1)]])].

Definition workbook_example : Convert.dict :=
  [("file_path", PStr "my book.xlsx");
   ("workbook", PDict [("sheet_count", PInt 1);
                       ("sheets", PList [PDict summary_example]);
                       ("names", PList [])])].

(** [Path(p).name]: what follows the last "/". *)
Definition path_name (p : string) : string := last (split "/"%char p) "".

(** A list validation of the live application on the literal source
    "A,B". *)
Definition x_validation_list : Validations.XlValidation :=
  {| Validations.v_Type := Ok (Some 3);
     Validations.v_AlertStyle := Ok (Some 1);
     Validations.v_Operator := Ok (Some 1);
     Validations.v_IgnoreBlank := Ok true;
     Validations.v_InCellDropdown := Ok true;
     Validations.v_Formula1 := Ok (Some "A,B");
     Validations.v_Formula2 := Ok PNone |}.

(** The same validation as the file library reports it, on B2:B5. *)
Definition o_validation_list : Validations.DataValidation :=
  {| Validations.dv_type := Some "list";
     Validations.dv_operator := PNone;
     Validations.allow_blank := PBool true;
     Validations.dv_formula1 := Some (quoted "A,B");
     Validations.dv_formula2 := PNone;
     Validations.sqref := ["B2:B5"] |}.

Definition str_int (z : Z) : string := DecimalString.NilZero.string_of_int (Z.to_int z).

(** [CellRange(sq)] on a range object: the constructor takes the text of
    a reference and raises on anything else, whatever the cell. *)
Definition covers (sq coord : string) : Result bool :=
  Raise (ValueError "not a valid coordinate or range").

(** Command lines: [book.xlsx --range A1:B3] and
    [book.xlsx --full --dependencies C1 --range A1]. *)
Definition args_range : Cli.Args :=
  {| Cli.excel_file := "book.xlsx"; Cli.sheet := None; Cli.output := None;
     Cli.format := Cli.json; Cli.range := Some "A1:B3"; Cli.dependencies := None;
     Cli.full := false; Cli.all_sheets := false; Cli.engine := None |}.

Definition args_full : Cli.Args :=
  {| Cli.excel_file := "book.xlsx"; Cli.sheet := None; Cli.output := None;
     Cli.format := Cli.json; Cli.range := Some "A1"; Cli.dependencies := Some "C1";
     Cli.full := true; Cli.all_sheets := false; Cli.engine := None |}.

End ExamplesMore.

(* ===================================================================== *)
(** * Part II: properties *)
(* ===================================================================== *)

Section ColumnLetterFacts.
Import PyStr ColumnLetter.

Lemma ord_chr (z : Z) : 0 <= z < 256 -> ord (chr z) = z.
Proof.
  intros H. unfold ord, chr.
  rewrite nat_ascii_embedding by lia. lia.
Qed.

Lemma column_to_letter_loop_inverse (n : Z) (res : string) :
  0 <= n ->
  letter_to_column_from 0 (column_to_letter_loop n res) = letter_to_column_from n res.
Proof.
  intros Hn. revert res.
  pattern n. apply Zlt_0_ind; [|exact Hn]. clear n Hn.
  intros n IH Hn res.
  rewrite column_to_letter_loop_equation_1.
  destruct (Z_gt_dec n 0) as [Hpos|Hz]; cbn [column_to_letter_loop_unfold_clause_1].
  - assert (Hq : 0 <= (n - 1) / 26) by (apply Z.div_pos; lia).
    assert (Hlt : (n - 1) / 26 < n) by (apply Z.div_lt_upper_bound; lia).
    rewrite IH by lia. cbn [letter_to_column_from].
    pose proof (Z.mod_pos_bound (n - 1) 26 ltac:(lia)) as Hr.
    rewrite ord_chr by lia.
    f_equal.
    pose proof (Z.div_mod (n - 1) 26 ltac:(lia)). lia.
  - assert (n = 0) by lia. subst. reflexivity.
Qed.

Lemma is_AZ_chr (r : Z) : 0 <= r < 26 -> Dependencies.is_AZ (chr (65 + r)) = true.
Proof.
  intros H. unfold Dependencies.is_AZ, in_range.
  rewrite ord_chr by lia.
  apply andb_true_intro; split; apply Z.leb_le; lia.
Qed.

Lemma column_to_letter_loop_letters (n : Z) (res : string) (c : ascii) :
  0 <= n ->
  contains c (column_to_letter_loop n res) = true ->
  Dependencies.is_AZ c = true \/ contains c res = true.
Proof.
  intros Hn. revert res.
  pattern n. apply Zlt_0_ind; [|exact Hn]. clear n Hn.
  intros n IH Hn res.
  rewrite column_to_letter_loop_equation_1.
  destruct (Z_gt_dec n 0) as [Hpos|Hz]; cbn [column_to_letter_loop_unfold_clause_1].
  - assert (Hq : 0 <= (n - 1) / 26) by (apply Z.div_pos; lia).
    assert (Hlt : (n - 1) / 26 < n) by (apply Z.div_lt_upper_bound; lia).
    intros Hc. apply IH in Hc; [|lia].
    destruct Hc as [Hc|Hc]; [left; exact Hc|].
    cbn [contains] in Hc. apply orb_prop in Hc. destruct Hc as [Hc|Hc].
    + left. apply Ascii.eqb_eq in Hc. subst c.
      apply is_AZ_chr. apply Z.mod_pos_bound. lia.
    + right. exact Hc.
  - intros Hc. right. exact Hc.
Qed.

(** C8. Column-to-letter conversion writes a positive integer in base 26
    without a zero digit: 1 is "A", 26 is "Z", 27 is "AA"; every character
    it produces is a letter A-Z; and reading the letters back as a
    bijective base-26 numeral returns the integer, for every n >= 1 and so
    for every n in [1, 16384]. *)
Theorem column_letter_round_trip :
  (_column_to_letter 1 = "A" /\ _column_to_letter 26 = "Z" /\ _column_to_letter 27 = "AA")
  /\ forall n : Z, 1 <= n ->
       letter_to_column (_column_to_letter n) = n
       /\ (forall c, contains c (_column_to_letter n) = true -> Dependencies.is_AZ c = true).
Proof.
  split; [repeat split; reflexivity|].
  intros n Hn. split.
  - unfold letter_to_column, _column_to_letter.
    rewrite column_to_letter_loop_inverse by lia. reflexivity.
  - intros c Hc. unfold _column_to_letter in Hc.
    apply column_to_letter_loop_letters in Hc; [|lia].
    destruct Hc as [Hc|Hc]; [exact Hc|discriminate].
Qed.

Lemma column_letter_round_trip_witness :
  1 <= 16384 /\ letter_to_column (_column_to_letter 16384) = 16384.
Proof.
  split; [lia|].
  apply (proj2 column_letter_round_trip 16384). lia.
Defined.

End ColumnLetterFacts.

(** ** The validation list resolver *)

Section ResolverFacts.
Import PyStr Source Examples.

Lemma normalize_empty : normalize "" = "".
Proof. reflexivity. Qed.

(** A source that is a literal list or carries brackets is not blank. *)
Lemma literal_not_blank (formula1 : string) :
  is_literal_list (normalize formula1) = true -> String.eqb formula1 "" = false.
Proof.
  intros H. destruct (String.eqb formula1 "") eqn:E; [|reflexivity].
  apply String.eqb_eq in E. subst. discriminate H.
Qed.

Lemma brackets_not_blank (formula1 : string) :
  has_brackets (normalize formula1) = true -> String.eqb formula1 "" = false.
Proof.
  intros H. destruct (String.eqb formula1 "") eqn:E; [|reflexivity].
  apply String.eqb_eq in E. subst. discriminate H.
Qed.

Lemma brackets_not_literal (f : string) :
  has_brackets f = true -> is_literal_list f = false.
Proof.
  unfold has_brackets, is_literal_list. intros H.
  apply andb_prop in H. destruct H as [H _]. rewrite H.
  rewrite andb_false_r. reflexivity.
Qed.




(** C3, as the code has it. For every source that, once normalised (outer
    white space, a leading "=" and one pair of wrapping double quotes
    removed), contains a comma and none of "!", ":" and "[", both backends
    return the source split on commas with each item trimmed, in order; the
    quoted source "X, Y , Z" gives ["X"; "Y"; "Z"]. Wrapping quotes alone do
    not make a source a literal list. *)
Theorem literal_list_is_split_and_trimmed :
  forall (formula1 : string),
    is_literal_list (normalize formula1) = true ->
    (forall CellRange wb ws,
        Openpyxl._resolve_validation_list_items CellRange wb ws (Some formula1) =
        Some (map (fun s => PStr (strip s)) (split ","%char (normalize formula1))))
    /\ (forall self,
        Xlwings._resolve_validation_list_items self (Some formula1) =
        Some (map (fun s => PStr (strip s)) (split ","%char (normalize formula1))))
    /\ map (fun s => PStr (strip s)) (split ","%char (normalize (quoted "X, Y , Z")))
       = [PStr "X"; PStr "Y"; PStr "Z"]
    /\ is_literal_list (normalize (quoted "Red")) = false.
Proof.
  intros formula1 H.
  pose proof (literal_not_blank _ H) as Hb.
  repeat split; intros.
  - unfold Openpyxl._resolve_validation_list_items. rewrite Hb, H. reflexivity.
  - unfold Xlwings._resolve_validation_list_items. rewrite Hb, H. reflexivity.
Qed.

Lemma literal_list_witness :
  is_literal_list (normalize (quoted "X, Y , Z")) = true
  /\ Openpyxl._resolve_validation_list_items Standin.CellRange o_book_plain o_sheet1
       (Some (quoted "X, Y , Z")) = Some [PStr "X"; PStr "Y"; PStr "Z"]
  /\ Xlwings._resolve_validation_list_items x_self (Some (quoted "X, Y , Z"))
     = Some [PStr "X"; PStr "Y"; PStr "Z"].
Proof.
  split; [reflexivity|].
  destruct (literal_list_is_split_and_trimmed (quoted "X, Y , Z") eq_refl)
    as (Ho & Hx & _).
  split; [apply Ho | apply Hx].
Defined.

(** C3 as stated fails on a quote-wrapped source without a comma: "Red" in
    double quotes is not resolved to the one-item list; on a workbook with
    no defined name the result is unresolved. *)
Lemma quoted_single_item_counterexample :
  Openpyxl._resolve_validation_list_items Standin.CellRange o_book_plain o_sheet1
    (Some (quoted "Red")) = None
  /\ Openpyxl._resolve_validation_list_items Standin.CellRange o_book_plain o_sheet1
       (Some (quoted "Red")) <> Some [PStr "Red"].
Proof. split; [vm_compute; reflexivity | vm_compute; discriminate]. Qed.

Lemma split1_at (a : ascii) (t rest : string) :
  contains a t = false -> split1 a (t ++ String a rest) = [t; rest].
Proof.
  induction t as [|c t IH]; simpl; intros H.
  - rewrite Ascii.eqb_refl. reflexivity.
  - apply orb_false_elim in H. destruct H as [Hc Ht].
    rewrite Hc, (IH Ht). reflexivity.
Qed.

(** Both backends cut a structured reference "Table[Column]" at the first
    "[" and then at the first "]": the table name and the column name. *)
Lemma structured_reference_parts {A} (table col : string) (k : string -> string -> Result A) :
  contains "["%char table = false -> contains "]"%char col = false ->
  (table_name <- index (split1 "["%char (table ++ String "["%char (col ++ "]"))) 0 ;;
   after <- index (split1 "["%char (table ++ String "["%char (col ++ "]"))) 1 ;;
   col_name <- index (split1 "]"%char after) 0 ;;
   k table_name col_name)
  = k table col.
Proof.
  intros Ht Hc. rewrite (@split1_at _ table _ Ht). cbn [index nth_error bind].
  change (col ++ "]") with (col ++ String "]"%char "").
  rewrite (@split1_at _ col _ Hc). reflexivity.
Qed.

(** In the live backend a table with the wanted name and column gives the
    values of the column's body range, flattened. *)
Lemma xlwings_table_column_found
    (ws : Xlwings.Sheet) (lo : Xlwings.ListObject) (table_name col_name addr : string)
    (vals : pyval) :
  Xlwings.lo_Name lo = Some table_name ->
  Xlwings.data_body_address lo col_name = Ok (Some addr) -> addr <> "" ->
  Xlwings.range_value ws addr = Ok vals ->
  Xlwings.table_column_on_object ws lo table_name col_name
  = Some (Xlwings._flatten_to_list vals).
Proof.
  intros Hn Ha Hne Hv. unfold Xlwings.table_column_on_object.
  rewrite Hn, String.eqb_refl, Ha. unfold Xlwings.nonempty.
  apply String.eqb_neq in Hne. rewrite Hne, Hv. reflexivity.
Qed.

Lemma zrange_cons (lo hi : Z) :
  lo <= hi -> zrange lo hi = lo :: zrange (lo + 1) hi.
Proof.
  intros H. unfold zrange.
  replace (Z.to_nat (hi + 1 - lo)) with (S (Z.to_nat (hi + 1 - (lo + 1)))) by lia.
  cbn [seq map]. f_equal; [lia|].
  rewrite <- seq_shift, map_map. apply map_ext. intros i. lia.
Qed.

(** The structured-reference lookup of the file-parsing backend on a sheet
    that has the table and the column: as soon as the table has a data row,
    reading [.value] of the row tuple raises, and the sheet is skipped. *)
Lemma openpyxl_table_lookup_raises_on_data_rows
    (CellRange : string -> Result Openpyxl.CellRange_t) (ws : Openpyxl.Worksheet)
    (table_name col_name : string) (tbl : Openpyxl.Table) (cr : Openpyxl.CellRange_t) :
  dict_get table_name (Openpyxl.tables ws) = Some tbl ->
  CellRange (Openpyxl.tbl_ref tbl) = Ok cr ->
  existsb (str_eq_val col_name)
    (map (fun c => Openpyxl.cell_value ws (Openpyxl.min_row cr) c)
         (zrange (Openpyxl.min_col cr) (Openpyxl.max_col cr))) = true ->
  Openpyxl.min_row cr + 1 <= Openpyxl.max_row cr ->
  Openpyxl.table_column_on_sheet CellRange ws table_name col_name
  = Raise (AttributeError "value").
Proof.
  intros Ht Hcr Hcol Hrows. unfold Openpyxl.table_column_on_sheet.
  rewrite Ht, Hcr. cbn [bind].
  unfold Openpyxl.iter_rows at 1.
  rewrite (zrange_cons (Z.le_refl _)). cbn [map Openpyxl.next bind].
  rewrite Hcol.
  unfold Openpyxl.iter_rows. rewrite (zrange_cons Hrows). reflexivity.
Qed.

Lemma openpyxl_table_with_data_unresolved :
  Openpyxl._resolve_table_column Standin.CellRange o_book_tables "Table1[Col]" = None
  /\ Openpyxl._resolve_table_column Standin.CellRange o_book_tables "Empty[Col]" = Some [].
Proof. split; vm_compute; reflexivity. Qed.

End ResolverFacts.

(** ** Range values *)

Section RangeFacts.
Import PyStr Source Examples.

(** The live backend's flattening never returns a null. *)
Lemma flatten_to_list_no_None (vals : pyval) :
  ~ In PNone (Xlwings._flatten_to_list vals).
Proof.
  destruct vals as [ |b|z|s|l|l|d]; simpl; try tauto;
    try (intros [H|[]]; discriminate).
  intros H. apply in_flat_map in H. destruct H as (row & _ & H).
  destruct row as [ |b|z|s|r|r|d]; simpl in H; try tauto;
    try (destruct H as [H|[]]; discriminate).
  apply filter_In in H. destruct H as [_ H]. discriminate.
Qed.

(** On a list of rows it is the row-major concatenation of the rows
    without their nulls. *)
Lemma flatten_to_list_rows (rows : list (list pyval)) :
  Xlwings._flatten_to_list (PList (map PList rows))
  = List.concat (map (filter is_not_None) rows).
Proof.
  simpl. induction rows as [|r rows IH]; simpl; [reflexivity|].
  rewrite IH. reflexivity.
Qed.

(** The file-parsing backend hands [_flatten_values] one flat list of cell
    values (none of them a list), and gets it back unchanged, nulls
    included. *)
Lemma flatten_values_flat_list (l : list pyval) :
  Forall (fun v => forall r, v <> PList r) l ->
  Openpyxl._flatten_values (PList l) = l.
Proof.
  induction 1 as [|v l Hv _ IH]; simpl in *; [reflexivity|].
  rewrite IH. destruct v; simpl in *; try reflexivity.
  exfalso. eapply Hv. reflexivity.
Qed.

Lemma Forall_concat {A} (P : A -> Prop) (ll : list (list A)) :
  Forall (Forall P) ll -> Forall P (List.concat ll).
Proof.
  induction 1 as [|l ll Hl _ IH]; simpl; [constructor|].
  apply Forall_app. split; assumption.
Qed.

(** A resolved range in the file-parsing backend is the list of the cell
    values of the rectangle, row by row, with the nulls left in. *)
Lemma openpyxl_values_from_range_row_major
    (CellRange : string -> Result Openpyxl.CellRange_t) (ws : Openpyxl.Worksheet)
    (ref : string) (cr : Openpyxl.CellRange_t) :
  CellRange ref = Ok cr ->
  (forall r c l, Openpyxl.cell_value ws r c <> PList l) ->
  Openpyxl._values_from_range CellRange ws ref =
  Some (List.concat
          (map (fun r => map (fun c => Openpyxl.cell_value ws r c)
                             (zrange (Openpyxl.min_col cr) (Openpyxl.max_col cr)))
               (zrange (Openpyxl.min_row cr) (Openpyxl.max_row cr)))).
Proof.
  intros Hcr Hscalar. unfold Openpyxl._values_from_range. rewrite Hcr.
  rewrite flatten_values_flat_list; [reflexivity|].
  apply Forall_concat. unfold Openpyxl.iter_rows.
  apply Forall_forall. intros row Hrow. apply in_map_iff in Hrow.
  destruct Hrow as (r & <- & _).
  apply Forall_forall. intros v Hv. apply in_map_iff in Hv.
  destruct Hv as (c & <- & _). intros l. apply Hscalar.
Qed.

(** C2 at the failing input. In the file-parsing backend the range A1:A3
    holding 10, an empty cell and 30 resolves to the three values, the null
    included, directly and through a sheet-qualified validation source; the
    live backend's flattening of the same values drops the null. *)
Theorem openpyxl_range_keeps_null_cells :
  Openpyxl._values_from_range Standin.CellRange o_sheet1 "A1:A3"
    = Some [PInt 10; PNone; PInt 30]
  /\ Openpyxl._resolve_validation_list_items Standin.CellRange o_book_plain o_sheet1
       (Some "=Sheet1!$A$1:$A$3") = Some [PInt 10; PNone; PInt 30]
  /\ Xlwings._resolve_validation_list_items x_self (Some "=Sheet1!$A$1:$A$3")
     = Some [PInt 10; PInt 30].
Proof. repeat split; vm_compute; reflexivity. Qed.

(** The name loop of the live backend stops at the first defined name that
    matches the target up to case and spaces and refers to a range. *)
Lemma xlwings_named_range_first_match
    (self : Xlwings.Extractor) (wb : Xlwings.Book) (target n refers_to : string)
    (nm : Xlwings.Name) (rest : list Xlwings.Name) :
  Xlwings.nm_name nm = Some n -> n <> "" ->
  lower (remove_spaces n) = lower (remove_spaces target) ->
  Xlwings.nm_refers_to nm = Some refers_to -> refers_to <> "" ->
  is_range_like (strip_equals refers_to) = true ->
  Xlwings.named_range_names self wb target (nm :: rest) =
  (t <- Xlwings.named_range_target self wb (strip_equals refers_to) ;;
   Ok (Xlwings._values_from_range_on_sheet (fst t) (snd t))).
Proof.
  intros Hn Hne Hsame Hr Hre Hrange.
  cbn [Xlwings.named_range_names]. rewrite Hn, Hr. unfold Xlwings.nonempty.
  apply String.eqb_neq in Hne. apply String.eqb_neq in Hre. rewrite Hne, Hre.
  unfold Xlwings.same_name. rewrite Hsame, String.eqb_refl, Hrange. reflexivity.
Qed.

(** A defined name that does not match is passed over. *)
Lemma xlwings_named_range_skip
    (self : Xlwings.Extractor) (wb : Xlwings.Book) (target n : string)
    (nm : Xlwings.Name) (rest : list Xlwings.Name) :
  Xlwings.nm_name nm = Some n ->
  lower (remove_spaces n) <> lower (remove_spaces target) ->
  Xlwings.named_range_names self wb target (nm :: rest) =
  Xlwings.named_range_names self wb target rest.
Proof.
  intros Hn Hdiff. cbn [Xlwings.named_range_names]. rewrite Hn.
  unfold Xlwings.nonempty. destruct (String.eqb n ""); [reflexivity|].
  unfold Xlwings.same_name. apply String.eqb_neq in Hdiff. rewrite Hdiff. reflexivity.
Qed.

(** The defined-name lookup of the file-parsing backend finds a name under
    its exact key only. *)
Lemma openpyxl_named_range_exact
    (CellRange : string -> Result Openpyxl.CellRange_t) (wb : Openpyxl.Workbook)
    (name : string) :
  (forall k dn, In (k, dn) (Openpyxl.defined_names wb) -> k <> name) ->
  Openpyxl._resolve_named_range CellRange wb name = None.
Proof.
  intros H. unfold Openpyxl._resolve_named_range.
  assert (E : dict_get name (Openpyxl.defined_names wb) = None).
  { induction (Openpyxl.defined_names wb) as [|[k dn] d IH]; [reflexivity|].
    simpl. destruct (String.eqb name k) eqn:Ek.
    - apply String.eqb_eq in Ek. exfalso. apply (H k dn); [left; reflexivity|congruence].
    - apply IH. intros k' dn' Hin. apply (H k' dn'). right. exact Hin. }
  rewrite E. reflexivity.
Qed.

(** C4 at the failing input. In the file-parsing backend the defined name
    "MyRange" is found under its exact spelling only: the source "myrange"
    stays unresolved, where the live backend resolves it. *)
Theorem openpyxl_defined_name_lookup_is_exact :
  Openpyxl._resolve_validation_list_items Standin.CellRange o_book_named o_sheet1
    (Some "MyRange") = Some [PInt 10; PNone; PInt 30]
  /\ Openpyxl._resolve_named_range Standin.CellRange o_book_named "myrange" = None
  /\ Openpyxl._resolve_validation_list_items Standin.CellRange o_book_named o_sheet1
       (Some "myrange") = None
  /\ Xlwings.same_name "MyRange" "myrange" = true
  /\ Xlwings._resolve_validation_list_items x_self (Some "myrange")
     = Some [PInt 10; PInt 30].
Proof. repeat split; vm_compute; reflexivity. Qed.

End RangeFacts.

(** ** Cell records *)

Section CellFacts.
Import PyStr Examples.

Lemma formula_of_cases (v : pyval) :
  (exists s, v = PStr s /\ startswith "="%char s = true
             /\ Openpyxl.formula_of v = PStr s
             /\ truthy (Openpyxl.formula_of v) = true)
  \/ ((forall s, v = PStr s -> startswith "="%char s = false)
      /\ Openpyxl.formula_of v = PNone).
Proof.
  destruct v as [ |b|z|s|l|l|dd]; try (right; split; [intros; discriminate|reflexivity]).
  simpl. destruct (startswith "="%char s) eqn:Hs.
  - left. exists s. repeat split; auto.
    destruct s; [discriminate|reflexivity].
  - right. split; [|reflexivity]. intros s' E. inversion E; subst. exact Hs.
Qed.

(** C6, as the code has it. The file-parsing backend's record carries at
    most one of value and formula: a cell whose content is a string
    starting with "=" gets that string as [formula] and a null [value];
    any other cell gets a null [formula] and its content as [value]. The
    live backend reports a formula cell with its formula next to its
    value: [value] is always the value read from the application (null only
    when the read fails), and a formula text that starts with "=" is the
    [formula] of the record. *)
Theorem cell_record_value_and_formula :
  (forall get_column_letter cell d,
      Openpyxl._extract_cell_full_details get_column_letter cell = Ok d ->
      (forall s, Openpyxl.cell_value_attr cell = PStr s -> startswith "="%char s = true ->
                 Openpyxl.formula d = PStr s /\ Openpyxl.value d = PNone)
      /\ ((forall s, Openpyxl.cell_value_attr cell = PStr s -> startswith "="%char s = false) ->
          Openpyxl.formula d = PNone /\ Openpyxl.value d = Openpyxl.cell_value_attr cell)
      /\ (Openpyxl.value d = PNone \/ Openpyxl.formula d = PNone))
  /\ (forall cell,
      Xlwings.value (Xlwings._extract_cell_full_details cell)
        = try_except (Xlwings.cell_value cell) PNone
      /\ (forall s, Xlwings.cell_formula cell = Ok (PStr s) ->
                    startswith "="%char s = true ->
                    Xlwings.formula (Xlwings._extract_cell_full_details cell) = PStr s)).
Proof.
  split.
  - intros gcl cell d Hd. unfold Openpyxl._extract_cell_full_details in Hd.
    destruct (Openpyxl._column_to_letter gcl (Openpyxl.cell_column cell)) as [letter|e];
      simpl in Hd; [|discriminate].
    inversion Hd; subst d; clear Hd. cbn [Openpyxl.formula Openpyxl.value].
    destruct (formula_of_cases (Openpyxl.cell_value_attr cell))
      as [(s & Hv & Hs & Hf & Ht)|(Hall & Hf)].
    + rewrite Ht, Hf. split; [|split].
      * intros s' E _. split; congruence.
      * intros Hall. specialize (Hall s Hv). congruence.
      * left. reflexivity.
    + rewrite Hf. simpl. split; [|split].
      * intros s' E Hs'. specialize (Hall s' E). congruence.
      * intros _. split; reflexivity.
      * right. reflexivity.
  - intros cell. cbn [Xlwings._extract_cell_full_details Xlwings.value Xlwings.formula].
    split; [reflexivity|].
    intros s Hf Hs. rewrite Hf. cbn [try_except truthy].
    destruct (String.eqb s "") eqn:E; [|reflexivity].
    apply String.eqb_eq in E. subst s. discriminate Hs.
Qed.

Lemma cell_record_witness :
  Openpyxl.formula_of (PStr "=1+2") = PStr "=1+2"
  /\ (exists d,
       Openpyxl._extract_cell_full_details Standin.get_column_letter o_formula_cell = Ok d
       /\ Openpyxl.formula d = PStr "=1+2" /\ Openpyxl.value d = PNone)
  /\ Xlwings.formula (Xlwings._extract_cell_full_details x_formula_cell) = PStr "=1+2".
Proof.
  split; [reflexivity|]. split.
  - eexists. split; [reflexivity|].
    apply (proj1 (proj1 cell_record_value_and_formula Standin.get_column_letter
                    o_formula_cell _ eq_refl) "=1+2"); reflexivity.
  - apply (proj2 (proj2 cell_record_value_and_formula x_formula_cell) "=1+2");
      reflexivity.
Defined.

(** C6 as stated fails in the live backend: a formula cell is reported
    with both its computed value and its formula text. *)
Lemma live_cell_has_value_and_formula_counterexample :
  Xlwings.value (Xlwings._extract_cell_full_details x_formula_cell) = PInt 3
  /\ Xlwings.formula (Xlwings._extract_cell_full_details x_formula_cell) = PStr "=1+2".
Proof. split; reflexivity. Qed.

End CellFacts.

(** ** The workbook walkers *)

Section WalkerFacts.
Import Examples.

Lemma nth_error_walk {A} (f : A -> pyval) (l : list A) (i : nat) (x : A) :
  nth_error l i = Some x -> nth_error (map f l) i = Some (f x).
Proof. intros H. rewrite nth_error_map, H. reflexivity. Qed.

(** The walker of the file-parsing backend: with a workbook open, the
    sheet list has, at the position of every sheet whose extraction raises,
    an entry made of the sheet name, the error text and empty [cells] and
    [tables] lists, and at the position of every other sheet the entry that
    its extraction returned. *)
Lemma openpyxl_failed_sheet_degraded
    (extract : Openpyxl.Extractor -> string -> Result pyval)
    (definedName : Openpyxl.Workbook -> Result (list Openpyxl.DefinedName))
    (now : string) (self : Openpyxl.Extractor) (wb : Openpyxl.Workbook) :
  Openpyxl.workbook self = Some wb ->
  exists d sheets,
    Openpyxl.extract_workbook_full_details extract definedName now self = Ok (PDict d)
    /\ Convert.get_nested d "workbook.sheets" = PList sheets
    /\ forall i ws,
         nth_error (Openpyxl.worksheets wb) i = Some ws ->
         (forall e,
             extract (Openpyxl.set_worksheet self ws) (Openpyxl.title ws) = Raise e ->
             nth_error sheets i =
             Some (PDict [("sheet", PDict [("name", PStr (Openpyxl.title ws));
                                           ("error", PStr (str_exn e))]);
                          ("cells", PList []);
                          ("tables", PList [])]))
         /\ (forall entry,
             extract (Openpyxl.set_worksheet self ws) (Openpyxl.title ws) = Ok entry ->
             nth_error sheets i = Some entry).
Proof.
  intros Hwb.
  unfold Openpyxl.extract_workbook_full_details. rewrite Hwb.
  eexists. eexists. split; [reflexivity|]. split; [reflexivity|].
  intros i ws Hi.
  pose proof (nth_error_walk (Openpyxl.walk_sheet extract self) _ _ Hi) as Hn.
  split; intros x Hx; rewrite Hn; unfold Openpyxl.walk_sheet; rewrite Hx; reflexivity.
Qed.

Section Live.

Variable cell_record : Xlwings.Sheet -> Z -> Z -> Result pyval.
Variable table_record : Xlwings.ListObject -> Result pyval.
Variable now : string.

(** In the live backend a turn of the loop returns the entry of the sheet
    method when the sheet's name can be read, and raises when it cannot:
    the handler reads the name again. *)
Lemma live_walk_sheet (self : Xlwings.Extractor) (ws : Xlwings.Sheet) :
  XlwingsWalker.walk_sheet cell_record table_record self ws
  = (sheet_name <- Xlwings.name ws ;;
     Ok (XlwingsWalker.extract_sheet_full_details cell_record table_record
           (Xlwings.set_worksheet self ws) (Some sheet_name))).
Proof.
  unfold XlwingsWalker.walk_sheet.
  destruct (Xlwings.name ws) as [n|e]; reflexivity.
Qed.

Lemma live_walk_length (self : Xlwings.Extractor) (wss : list Xlwings.Sheet)
    (entries : list pyval) :
  XlwingsWalker.walk cell_record table_record self wss = Ok entries ->
  List.length entries = List.length wss.
Proof.
  revert entries. induction wss as [|ws wss IH]; intros entries;
    cbn [XlwingsWalker.walk].
  - intros H. inversion H. reflexivity.
  - destruct (XlwingsWalker.walk_sheet cell_record table_record self ws) as [entry|e];
      [|discriminate]. cbn [bind].
    destruct (XlwingsWalker.walk cell_record table_record self wss) as [more|e];
      [|discriminate]. cbn [bind].
    intros H. inversion H. cbn [List.length]. rewrite (IH more eq_refl). reflexivity.
Qed.

Lemma live_walk_entries (self : Xlwings.Extractor) (wss : list Xlwings.Sheet)
    (entries : list pyval) :
  XlwingsWalker.walk cell_record table_record self wss = Ok entries ->
  Forall2 (fun ws entry =>
             XlwingsWalker.walk_sheet cell_record table_record self ws = Ok entry)
          wss entries.
Proof.
  revert entries. induction wss as [|ws wss IH]; intros entries;
    cbn [XlwingsWalker.walk].
  - intros H. inversion H. constructor.
  - destruct (XlwingsWalker.walk_sheet cell_record table_record self ws) as [entry|e] eqn:E;
      [|discriminate]. cbn [bind].
    destruct (XlwingsWalker.walk cell_record table_record self wss) as [more|e];
      [|discriminate]. cbn [bind].
    intros H. inversion H. constructor; [exact E|apply IH; reflexivity].
Qed.

(** One sheet whose name cannot be read makes the whole walk raise. *)
Lemma live_walk_unreadable_name (self : Xlwings.Extractor) (wss : list Xlwings.Sheet)
    (ws : Xlwings.Sheet) (e : exn) :
  In ws wss -> Xlwings.name ws = Raise e ->
  exists e', XlwingsWalker.walk cell_record table_record self wss = Raise e'.
Proof.
  intros Hin Hn. induction wss as [|ws0 wss IH]; [contradiction|].
  cbn [XlwingsWalker.walk]. destruct Hin as [->|Hin].
  - rewrite live_walk_sheet, Hn. exists e. reflexivity.
  - destruct (XlwingsWalker.walk_sheet cell_record table_record self ws0) as [entry|e0].
    + cbn [bind]. destruct (IH Hin) as [e' ->]. exists e'. reflexivity.
    + exists e0. reflexivity.
Qed.

(** The walker returns either the empty record or the workbook record
    built from a completed walk. *)
Lemma live_walk_result (self : Xlwings.Extractor) :
  XlwingsWalker.extract_workbook_full_details cell_record table_record now self = PDict []
  \/ exists wb entries,
       Xlwings.workbook self = Some wb
       /\ XlwingsWalker.walk cell_record table_record self (Xlwings.sheets wb) = Ok entries
       /\ XlwingsWalker.extract_workbook_full_details cell_record table_record now self
          = PDict [("file_path", PStr (Xlwings.excel_file_path self));
                   ("extraction_timestamp", PStr now);
                   ("workbook",
                    PDict [("sheet_count",
                            PInt (Z.of_nat (List.length (Xlwings.sheets wb))));
                           ("sheets", PList entries);
                           ("names", PList (Xlwings.names_metadata wb))])].
Proof.
  unfold XlwingsWalker.extract_workbook_full_details, Xlwings.the_workbook.
  destruct (Xlwings.workbook self) as [wb|]; [|left; reflexivity]. cbn [bind].
  destruct (XlwingsWalker.walk cell_record table_record self (Xlwings.sheets wb))
    as [entries|e] eqn:Hw; [|left; reflexivity].
  right. exists wb, entries. split; [reflexivity|]. split; [exact Hw|reflexivity].
Qed.

Lemma live_walk_aborted (self : Xlwings.Extractor) (wb : Xlwings.Book)
    (ws : Xlwings.Sheet) (e : exn) :
  Xlwings.workbook self = Some wb -> In ws (Xlwings.sheets wb) ->
  Xlwings.name ws = Raise e ->
  XlwingsWalker.extract_workbook_full_details cell_record table_record now self = PDict [].
Proof.
  intros Hwb Hin Hn.
  unfold XlwingsWalker.extract_workbook_full_details, Xlwings.the_workbook.
  rewrite Hwb. cbn [bind].
  destruct (live_walk_unreadable_name self _ _ Hin Hn) as [e' ->]. reflexivity.
Qed.

End Live.

(** C9 at the failing input. A live workbook has two sheets, the first of
    which has become inaccessible. When not even its name can be read, the
    walker returns the empty record: no entry for the sheet, and the entry
    of the healthy sheet is lost with it. When its name "Bad" can still be
    read, the walk completes, but the entry of the sheet carries neither
    its name nor an [error]. The walker of the file-parsing backend, on a
    workbook whose sheet "Bad" fails, gives the entry with the name, the
    error text and the empty lists, and the entry of the other sheet. *)
Theorem live_walk_loses_an_inaccessible_sheet :
  (forall cell_record table_record now,
      XlwingsWalker.extract_workbook_full_details cell_record table_record now x_self_gone
      = PDict [])
  /\ (forall cell_record table_record now,
      exists d good,
        XlwingsWalker.extract_workbook_full_details cell_record table_record now x_self_two
        = PDict d
        /\ Convert.get_nested d "workbook.sheets"
           = PList [PDict [("sheet", PDict [("name", PNone);
                                            ("used_range", PNone);
                                            ("rows", PNone);
                                            ("columns", PNone);
                                            ("visible", PNone);
                                            ("protect_contents", PNone);
                                            ("protect_drawing", PNone);
                                            ("protect_scenarios", PNone)]);
                           ("cells", PList []);
                           ("tables", PList [])];
                    PDict good]
        /\ Convert.get_nested good "sheet.name" = PStr "Sheet1")
  /\ (forall definedName now,
      exists d,
        Openpyxl.extract_workbook_full_details o_extract_sheet definedName now o_self_two
        = Ok (PDict d)
        /\ Convert.get_nested d "workbook.sheets"
           = PList [PDict [("sheet", PDict [("name", PStr "Bad");
                                            ("error", PStr "unreadable sheet")]);
                           ("cells", PList []);
                           ("tables", PList [])];
                    good_entry "Sheet1"]).
Proof.
  split; [|split].
  - intros cell_record table_record now.
    apply (@live_walk_aborted cell_record table_record now x_self_gone
             (x_book_two x_sheet_gone) x_sheet_gone (ComError "sheet")).
    + reflexivity.
    + left. reflexivity.
    + reflexivity.
  - intros cell_record table_record now.
    eexists. eexists. split; [reflexivity|]. split; reflexivity.
  - intros definedName now.
    eexists. split; [reflexivity|]. reflexivity.
Qed.

(** C10. Whenever a walker returns a workbook-shaped record, its
    [sheet_count] is the length of its [sheets] list, which has one entry
    per worksheet of the workbook. *)
Theorem sheet_count_is_number_of_entries :
  (forall extract definedName now self d,
      Openpyxl.extract_workbook_full_details extract definedName now self = Ok (PDict d) ->
      Convert.detect_structure d = "workbook" ->
      exists wb sheets,
        Openpyxl.workbook self = Some wb
        /\ Convert.get_nested d "workbook.sheets" = PList sheets
        /\ Convert.get_nested d "workbook.sheet_count" = PInt (Z.of_nat (List.length sheets))
        /\ List.length sheets = List.length (Openpyxl.worksheets wb))
  /\ (forall cell_record table_record now self d,
      XlwingsWalker.extract_workbook_full_details cell_record table_record now self
      = PDict d ->
      Convert.detect_structure d = "workbook" ->
      exists wb sheets,
        Xlwings.workbook self = Some wb
        /\ Convert.get_nested d "workbook.sheets" = PList sheets
        /\ Convert.get_nested d "workbook.sheet_count" = PInt (Z.of_nat (List.length sheets))
        /\ List.length sheets = List.length (Xlwings.sheets wb)).
Proof.
  split.
  - intros extract definedName now self d Hd _.
    unfold Openpyxl.extract_workbook_full_details in Hd.
    destruct (Openpyxl.workbook self) as [wb|]; [|discriminate].
    inversion Hd; subst d; clear Hd.
    exists wb. eexists. split; [reflexivity|]. split; [reflexivity|].
    rewrite length_map. split; reflexivity.
  - intros cell_record table_record now self d Hd Hshape.
    destruct (live_walk_result cell_record table_record now self)
      as [He|(wb & entries & Hwb & Hw & Hr)].
    + rewrite He in Hd. inversion Hd; subst d. discriminate Hshape.
    + rewrite Hr in Hd. inversion Hd; subst d; clear Hd.
      exists wb, entries. split; [exact Hwb|]. split; [reflexivity|].
      pose proof (live_walk_length _ _ _ _ Hw) as Hl.
      split; [|exact Hl].
      change (PInt (Z.of_nat (List.length (Xlwings.sheets wb)))
              = PInt (Z.of_nat (List.length entries))).
      rewrite Hl. reflexivity.
Qed.

Lemma sheet_count_witness :
  exists d sheets,
    XlwingsWalker.extract_workbook_full_details x_cell_record x_table_record
      "2024-01-01T00:00:00" x_self_two = PDict d
    /\ Convert.detect_structure d = "workbook"
    /\ Convert.get_nested d "workbook.sheets" = PList sheets
    /\ Convert.get_nested d "workbook.sheet_count" = PInt 2
    /\ List.length sheets = 2%nat.
Proof.
  destruct (proj2 sheet_count_is_number_of_entries x_cell_record x_table_record
              "2024-01-01T00:00:00" x_self_two _ eq_refl eq_refl)
    as (wb & sheets & Hwb & Hs & Hc & Hl).
  inversion Hwb; subst wb; clear Hwb. simpl in Hl.
  eexists. exists sheets. split; [reflexivity|]. split; [reflexivity|].
  split; [exact Hs|]. split; [|exact Hl].
  rewrite Hc, Hl. reflexivity.
Defined.

End WalkerFacts.

(** ** The CSV exporter *)

Section ConvertFacts.
Import Convert.

(** C7, as the code has it. The header of each of the three CSV files of
    a sheet is the list of 20 column names below, in this order; the
    all-cells file has one line per cell, the formulas file one per cell
    with a true [formula], the validations file one per cell with a true
    [data_validation], in the order of the cells; every line has 20
    entries, one per column: the value found under the column name, the
    dotted names looked up through the nested object, and a list joined
    with ", ". *)
Theorem csv_files_have_twenty_columns :
  forall (str : pyval -> string) (out_dir sheet_name : string) (cells : list dict)
         (fs : FileSystem),
    let header := map PStr
      [ "address"; "row"; "column"; "column_letter"; "value"; "display_text"; "formula";
        "format.number_format"; "format.font_name"; "format.font_size";
        "format.font_bold"; "format.font_italic"; "hyperlink.address"; "note";
        "data_validation.type_name"; "data_validation.formula1";
        "data_validation.formula2"; "data_validation.list_items";
        "format.merged"; "format.merge_area" ] in
    let nested := fun (r : dict) (a b : string) =>
      match py_get a r with
      | PDict d => py_get b d
      | _ => PNone
      end in
    let line := fun (r : dict) => map (join_list str)
      [ py_get "address" r; py_get "row" r; py_get "column" r; py_get "column_letter" r;
        py_get "value" r; py_get "display_text" r; py_get "formula" r;
        nested r "format" "number_format"; nested r "format" "font_name";
        nested r "format" "font_size"; nested r "format" "font_bold";
        nested r "format" "font_italic"; nested r "hyperlink" "address"; py_get "note" r;
        nested r "data_validation" "type_name"; nested r "data_validation" "formula1";
        nested r "data_validation" "formula2"; nested r "data_validation" "list_items";
        nested r "format" "merged"; nested r "format" "merge_area" ] in
    let path := fun (suffix : string) =>
      joinpath out_dir (sanitize_filename sheet_name ++ suffix) in
    List.length header = 20%nat
    /\ (forall r, List.length (line r) = 20%nat)
    /\ (forall l, join_list str (PList l) = PStr (String.concat ", " (map str l)))
    /\ (forall v, (forall l, v <> PList l) -> join_list str v = v)
    /\ snd (write_sheet_csvs str out_dir sheet_name cells fs) =
       (path "-validations.csv",
        header :: map line (filter (fun c => truthy (py_get "data_validation" c)) cells))
       :: (path "-formulas.csv",
           header :: map line (filter (fun c => truthy (py_get "formula" c)) cells))
       :: (path "-cells.csv", header :: map line cells)
       :: fs.
Proof.
  intros str out_dir sheet_name cells fs header nested line path.
  split; [reflexivity|]. split; [reflexivity|]. split; [reflexivity|].
  split.
  - intros v Hv. destruct v; try reflexivity. exfalso. eapply Hv. reflexivity.
  - reflexivity.
Qed.

(** C7 as stated fails on the number of columns: each of the three files
    written for a sheet has a header of 20 names, not 19. *)
Lemma csv_header_length_counterexample :
  map (fun file => List.length (hd [] (snd file)))
      (snd (write_sheet_csvs Standin.str "out" "Sheet1" [] []))
  = [20%nat; 20%nat; 20%nat]
  /\ List.length columns <> 19%nat.
Proof. split; [reflexivity | discriminate]. Qed.

End ConvertFacts.

(** ** Formula dependencies *)

Section DependencyFacts.
Import PyStr Dependencies.
Local Open Scope list_scope.
Local Open Scope nat_scope.

Lemma AZ_not_digit (c : ascii) : is_AZ c = true -> is_digit c = false.
Proof.
  unfold is_AZ, is_digit, in_range. intros H.
  apply andb_prop in H. destruct H as [H1 H2].
  apply Z.leb_le in H1. apply andb_false_iff. right. apply Z.leb_gt. lia.
Qed.

Lemma digit_not_AZ (c : ascii) : is_digit c = true -> is_AZ c = false.
Proof.
  intros H. destruct (is_AZ c) eqn:E; [|reflexivity].
  apply AZ_not_digit in E. congruence.
Qed.

Lemma stops_nil (p : ascii -> bool) : stops p [].
Proof. intros c q H. discriminate. Qed.

Lemma stops_cons (p : ascii -> bool) (c : ascii) (l : list ascii) :
  p c = false -> stops p (c :: l).
Proof. intros H c' q E. inversion E; subst. exact H. Qed.

Lemma span_app (p : ascii -> bool) (s : list ascii) :
  s = fst (span p s) ++ snd (span p s).
Proof.
  induction s as [|c s IH]; simpl; [reflexivity|].
  destruct (p c); [|reflexivity].
  destruct (span p s) as [a b]. simpl in *. congruence.
Qed.

Lemma span_all (p : ascii -> bool) (s : list ascii) :
  Forall (fun c => p c = true) (fst (span p s)).
Proof.
  induction s as [|c s IH]; simpl; [constructor|].
  destruct (p c) eqn:E; [|constructor].
  destruct (span p s) as [a b]. simpl in *. constructor; assumption.
Qed.

Lemma span_stops (p : ascii -> bool) (s : list ascii) :
  stops p (snd (span p s)).
Proof.
  induction s as [|c s IH]; simpl; [apply stops_nil|].
  destruct (p c) eqn:E; [|apply stops_cons; exact E].
  destruct (span p s) as [a b]. simpl in *. exact IH.
Qed.

Lemma span_run (p : ascii -> bool) (a b : list ascii) :
  Forall (fun c => p c = true) a -> stops p b -> span p (a ++ b) = (a, b).
Proof.
  intros Ha Hb. induction Ha as [|c a Hc _ IH]; simpl.
  - destruct b as [|c b]; [reflexivity|].
    simpl. rewrite (Hb c b eq_refl). reflexivity.
  - rewrite Hc, IH. reflexivity.
Qed.

Lemma run_unique (p : ascii -> bool) (a a' b b' : list ascii) :
  Forall (fun c => p c = true) a -> Forall (fun c => p c = true) a' ->
  stops p b -> stops p b' -> a ++ b = a' ++ b' -> a = a' /\ b = b'.
Proof.
  intros Ha Ha' Hb Hb' E.
  pose proof (span_run Ha Hb) as H1.
  pose proof (span_run Ha' Hb') as H2.
  rewrite E in H1. rewrite H1 in H2. inversion H2. split; reflexivity.
Qed.

Lemma match_digits_run (ds r : list ascii) :
  Forall (fun c => is_digit c = true) ds -> ds <> [] -> stops is_digit r ->
  match_digits (ds ++ r) = Some (ds, r).
Proof.
  intros Hd Hne Hr. unfold match_digits. rewrite (span_run Hd Hr).
  destruct ds; [contradiction|reflexivity].
Qed.

Lemma match_digits_stops (r : list ascii) :
  stops is_digit r -> match_digits r = None.
Proof.
  intros Hr. unfold match_digits.
  pose proof (span_run (Forall_nil _) Hr) as H. simpl in H. rewrite H. reflexivity.
Qed.

Lemma skipn_inside (k : nat) (ls r : list ascii) :
  k < List.length ls ->
  exists x t, skipn k (ls ++ r) = x :: t /\ In x ls.
Proof.
  revert ls. induction k as [|k IH]; intros [|c ls] Hk; simpl in Hk; try lia.
  - exists c, (ls ++ r). split; [reflexivity|left; reflexivity].
  - destruct (IH ls ltac:(lia)) as (x & t & E & Hin).
    exists x, t. split; [exact E|right; exact Hin].
Qed.

(** Backtracking into the run of letters never helps: what follows fewer
    letters is a letter, not a digit. *)
Lemma match_backtrack_inside (k : nat) (ls r : list ascii) :
  Forall (fun c => is_AZ c = true) ls -> k < List.length ls ->
  match_backtrack k (ls ++ r) = None.
Proof.
  intros Hls. induction k as [|k IH]; intros Hk; [reflexivity|].
  cbn [match_backtrack].
  destruct (@skipn_inside (S k) ls r Hk) as (x & t & E & Hin).
  rewrite E. rewrite match_digits_stops.
  - apply IH. lia.
  - apply stops_cons. apply AZ_not_digit.
    rewrite Forall_forall in Hls. apply Hls. exact Hin.
Qed.

(** One attempt at the head of a text: a match exactly when the text
    starts with letters followed by digits, and then the match is the whole
    run of letters and the whole run of digits. *)
Lemma match_here_run (ls r : list ascii) :
  Forall (fun c => is_AZ c = true) ls -> stops is_AZ r ->
  match_here (ls ++ r) =
  match ls with
  | [] => None
  | _ :: _ =>
      match match_digits r with
      | Some (ds, r') => Some (ls ++ ds, r')
      | None => None
      end
  end.
Proof.
  intros Hls Hr. unfold match_here. rewrite (span_run Hls Hr). cbn [fst].
  destruct ls as [|c ls]; [reflexivity|].
  remember (c :: ls) as l eqn:El.
  assert (Hlen : List.length l = S (List.length ls)) by (subst; reflexivity).
  rewrite Hlen. cbn [match_backtrack]. rewrite <- Hlen.
  rewrite skipn_app, skipn_all, Nat.sub_diag. cbn [skipn app].
  rewrite firstn_app, firstn_all, Nat.sub_diag. cbn [firstn]. rewrite app_nil_r.
  destruct (match_digits r) as [[ds r']|]; [reflexivity|].
  apply match_backtrack_inside; [exact Hls|lia].
Qed.

Lemma findall_cons (c : ascii) (s : list ascii) :
  findall (c :: s) =
  match match_here (c :: s) with
  | Some (tok, rest) => tok :: findall rest
  | None => findall s
  end.
Proof.
  rewrite findall_equation_2.
  destruct (inspect (match_here (c :: s))) as [[[tok rest]|] e];
    cbn [findall_unfold_clause_2]; rewrite e; reflexivity.
Qed.

Lemma findall_skip_other (c : ascii) (s : list ascii) :
  is_AZ c = false -> findall (c :: s) = findall s.
Proof.
  intros Hc. rewrite findall_cons.
  pose proof (@match_here_run [] (c :: s) (Forall_nil _) (stops_cons _ Hc)) as H.
  simpl in H. rewrite H. reflexivity.
Qed.

Lemma findall_skip_letters (ls r : list ascii) :
  Forall (fun c => is_AZ c = true) ls -> stops is_AZ r -> stops is_digit r ->
  findall (ls ++ r) = findall r.
Proof.
  intros Hls Hr Hd. induction ls as [|c ls IH]; [reflexivity|].
  change ((c :: ls) ++ r) with (c :: (ls ++ r)). rewrite findall_cons.
  change (c :: (ls ++ r)) with ((c :: ls) ++ r).
  rewrite (match_here_run Hls Hr), (match_digits_stops Hd).
  apply IH. inversion Hls; assumption.
Qed.

Lemma run_head (p : ascii -> bool) (ds r : list ascii) (q : ascii -> bool) :
  Forall (fun c => p c = true) ds -> ds <> [] ->
  (forall c, p c = true -> q c = false) -> stops q (ds ++ r).
Proof.
  intros Hds Hne Hpq. destruct ds as [|d ds]; [contradiction|].
  apply stops_cons. apply Hpq. inversion Hds; assumption.
Qed.

Lemma findall_match (ls ds r : list ascii) :
  Forall (fun c => is_AZ c = true) ls -> ls <> [] ->
  Forall (fun c => is_digit c = true) ds -> ds <> [] -> stops is_digit r ->
  findall (ls ++ ds ++ r) = (ls ++ ds) :: findall r.
Proof.
  intros Hls Hne Hds Hnd Hr.
  pose proof (match_here_run Hls (@run_head is_digit ds r is_AZ Hds Hnd digit_not_AZ)) as H.
  rewrite (match_digits_run Hds Hnd Hr) in H.
  destruct ls as [|c ls]; [contradiction|].
  change ((c :: ls) ++ ds ++ r) with (c :: (ls ++ ds ++ r)) in *.
  rewrite findall_cons, H. reflexivity.
Qed.

Lemma token_head (tok : list ascii) :
  token tok -> exists c t, tok = c :: t /\ is_AZ c = true.
Proof.
  intros (ls & ds & E & Hl & _ & Hls & _).
  destruct ls as [|c ls]; [contradiction|].
  exists c, (ls ++ ds). split; [subst; reflexivity|]. inversion Hls; assumption.
Qed.

Lemma no_token_in_nil (pre tok : list ascii) : ~ maximal_token_after pre [] tok.
Proof.
  intros (a & b & E & Ht & _). apply token_head in Ht.
  destruct Ht as (c & t & -> & _). destruct a; discriminate.
Qed.

Lemma maximal_token_shift (pre x s tok : list ascii) :
  maximal_token_after (pre ++ x) s tok -> maximal_token_after pre (x ++ s) tok.
Proof.
  intros (a & b & E & Ht & Ha & Hb). exists (x ++ a), b.
  rewrite <- app_assoc, <- E. repeat split; auto.
  rewrite app_assoc. exact Ha.
Qed.

Lemma maximal_token_unshift (pre x s tok a b : list ascii) :
  s = a ++ tok ++ b -> token tok -> no_letter_before (pre ++ x ++ a) ->
  no_digit_after b -> maximal_token_after (pre ++ x) s tok.
Proof.
  intros E Ht Ha Hb. exists a, b. repeat split; auto.
  rewrite <- app_assoc. exact Ha.
Qed.

Lemma no_letter_before_snoc (l : list ascii) (c : ascii) :
  is_AZ c = false -> no_letter_before (l ++ [c]).
Proof.
  intros Hc p c' E. apply app_inj_tail in E. destruct E as [_ E]. subst. exact Hc.
Qed.

(** A prefix that ends inside a run of letters, with no letter before its
    end, is empty. *)
Lemma prefix_in_letters (pre a l ls : list ascii) :
  Forall (fun c => is_AZ c = true) ls -> ls = a ++ l ->
  no_letter_before (pre ++ a) -> a = [].
Proof.
  intros Hls E Ha. destruct a as [|x a']; [reflexivity|]. exfalso.
  assert (Hne : x :: a' <> []) by discriminate.
  destruct (exists_last Hne) as (p & c & Ea). rewrite Ea in *.
  assert (Hc : is_AZ c = true).
  { rewrite Forall_forall in Hls. apply Hls. subst ls.
    apply in_or_app. left. apply in_or_app. right. left. reflexivity. }
  rewrite (Ha (pre ++ p) c) in Hc; [discriminate|].
  rewrite app_assoc. reflexivity.
Qed.

Lemma token_split (tok b s : list ascii) (p : list ascii) :
  token tok -> tok ++ b = p ++ s ->
  Forall (fun c => is_AZ c = true) p -> stops is_AZ s ->
  exists td, tok = p ++ td /\ td <> [] /\ Forall (fun c => is_digit c = true) td
             /\ td ++ b = s /\ p <> [].
Proof.
  intros (tl & td & -> & Hl & Hd & Htl & Htd) E Hp Hs.
  rewrite <- app_assoc in E.
  destruct (@run_unique is_AZ tl p (td ++ b) s Htl Hp
              (@run_head is_digit td b is_AZ Htd Hd digit_not_AZ) Hs E)
    as [-> E'].
  exists td. repeat split; auto.
Qed.

Lemma tokens_after_other (pre s tok : list ascii) (c : ascii) :
  is_AZ c = false ->
  maximal_token_after pre (c :: s) tok <-> maximal_token_after (pre ++ [c]) s tok.
Proof.
  intros Hc. split.
  - intros (a & b & E & Ht & Ha & Hb). destruct a as [|x a].
    + destruct (token_head Ht) as (c' & t & -> & Hc'). inversion E; subst. congruence.
    + inversion E; subst. apply (@maximal_token_unshift pre [x] _ tok a b); auto.
  - apply (@maximal_token_shift pre [c] s tok).
Qed.

Lemma tokens_after_letters (pre ls r tok : list ascii) :
  Forall (fun c => is_AZ c = true) ls -> stops is_AZ r -> stops is_digit r ->
  maximal_token_after pre (ls ++ r) tok <-> maximal_token_after (pre ++ ls) r tok.
Proof.
  intros Hls Hr Hd. split; [|apply maximal_token_shift].
  intros (a & b & E & Ht & Ha & Hb).
  apply app_eq_app in E. destruct E as (l & [[E1 E2]|[E1 E2]]).
  - exfalso. pose proof (@prefix_in_letters pre a l ls Hls E1 Ha) as ->. simpl in E1. subst l.
    destruct (@token_split tok b r ls Ht E2 Hls Hr) as (td & _ & Hne & Htd & Er & _).
    destruct td as [|d td]; [contradiction|].
    inversion Htd as [|? ? Hdd _]; subst.
    rewrite (Hd d (td ++ b) eq_refl) in Hdd. discriminate.
  - subst a. apply (@maximal_token_unshift pre ls r tok l b); auto.
Qed.

Lemma tokens_after_match (pre ls ds r tok : list ascii) :
  Forall (fun c => is_AZ c = true) ls -> ls <> [] ->
  Forall (fun c => is_digit c = true) ds -> ds <> [] -> stops is_digit r ->
  no_letter_before pre ->
  maximal_token_after pre (ls ++ ds ++ r) tok <->
  tok = ls ++ ds \/ maximal_token_after (pre ++ ls ++ ds) r tok.
Proof.
  intros Hls Hne Hds Hnd Hr Hpre. split.
  - intros (a & b & E & Ht & Ha & Hb).
    rewrite app_assoc in E.
    apply app_eq_app in E. destruct E as (l & [[E1 E2]|[E1 E2]]).
    + destruct a as [|x a'].
      * left. simpl in E1. subst l. rewrite <- app_assoc in E2.
        destruct (@token_split tok b (ds ++ r) ls Ht E2 Hls
                    (@run_head is_digit ds r is_AZ Hds Hnd digit_not_AZ))
          as (td & -> & Hne' & Htd & Er & _).
        destruct (@run_unique is_digit td ds b r Htd Hds Hb Hr Er) as [-> _]. reflexivity.
      * apply app_eq_app in E1. destruct E1 as (m & [[E3 E4]|[E3 E4]]).
        -- pose proof (@prefix_in_letters pre (x :: a') m ls Hls E3 Ha). discriminate.
        -- destruct l as [|d l'].
           ++ right. rewrite app_nil_r in E4. subst m. simpl in E2.
              apply (@maximal_token_unshift pre (ls ++ ds) r tok [] b); auto.
              rewrite app_nil_r, <- E3. exact Ha.
           ++ exfalso. destruct (token_head Ht) as (c' & t & -> & Hc').
              inversion E2; subst c'.
              assert (Hdd : is_digit d = true).
              { rewrite Forall_forall in Hds. apply Hds. rewrite E4.
                apply in_or_app. right. left. reflexivity. }
              apply digit_not_AZ in Hdd. congruence.
    + right. subst a. apply (@maximal_token_unshift pre (ls ++ ds) r tok l b); auto.
  - intros [->|H].
    + exists [], r. repeat split; auto.
      * rewrite <- app_assoc. reflexivity.
      * exists ls, ds. repeat split; auto.
      * rewrite app_nil_r. exact Hpre.
    + rewrite app_assoc. apply maximal_token_shift. exact H.
Qed.

(** The scanner finds the maximal tokens, and only them. The text [s] is
    read after [pre]; the scanner starts either where no letter precedes or
    where no letter follows. *)
Lemma findall_maximal_tokens (n : nat) :
  forall s pre : list ascii,
    List.length s <= n ->
    no_letter_before pre \/ stops is_AZ s ->
    forall tok, In tok (findall s) <-> maximal_token_after pre s tok.
Proof.
  induction n as [|n IH]; intros s pre Hlen Hstart tok.
  - destruct s; [|simpl in Hlen; lia].
    rewrite findall_equation_1. split; [intros []|intros H; apply no_token_in_nil in H; exact H].
  - destruct s as [|c s].
    { rewrite findall_equation_1.
      split; [intros []|intros H; apply no_token_in_nil in H; exact H]. }
    simpl in Hlen. destruct (is_AZ c) eqn:Hc.
    + assert (Hpre : no_letter_before pre).
      { destruct Hstart as [H|H]; [exact H|]. rewrite (H c s eq_refl) in Hc. discriminate. }
      pose proof (span_app is_AZ (c :: s)) as Es.
      pose proof (span_all is_AZ (c :: s)) as Hls.
      pose proof (span_stops is_AZ (c :: s)) as Hr.
      pose proof (span_length is_AZ (c :: s)) as Hl.
      assert (Hne : fst (span is_AZ (c :: s)) <> []).
      { simpl. rewrite Hc. destruct (span is_AZ s). discriminate. }
      destruct (span is_AZ (c :: s)) as [ls r]. cbn [fst snd] in *.
      assert (Hlr : List.length r <= n).
      { destruct ls; [contradiction|]. simpl in Hl. lia. }
      pose proof (span_app is_digit r) as Er.
      pose proof (span_all is_digit r) as Hds.
      pose proof (span_stops is_digit r) as Hr'.
      pose proof (span_length is_digit r) as Hl'.
      destruct (span is_digit r) as [ds r']. cbn [fst snd] in *.
      rewrite Es. destruct ds as [|d ds].
      * simpl in Er. subst r'.
        rewrite (@findall_skip_letters ls r Hls Hr Hr'),
          (@tokens_after_letters pre ls r tok Hls Hr Hr').
        apply IH; [exact Hlr|right; exact Hr].
      * assert (Hnd : d :: ds <> []) by discriminate.
        rewrite Er.
        rewrite (@findall_match ls (d :: ds) r' Hls Hne Hds Hnd Hr').
        rewrite (@tokens_after_match pre ls (d :: ds) r' tok Hls Hne Hds Hnd Hr' Hpre).
        cbn [In]. rewrite (IH r' (pre ++ ls ++ d :: ds)).
        -- split; intros [H|H]; auto.
        -- simpl in Hl'. lia.
        -- left. intros p x E.
           assert (Hx : is_digit x = true).
           { rewrite Forall_forall in Hds. apply Hds.
             assert (Hin : In x (pre ++ ls ++ d :: ds)) by
               (rewrite E; apply in_or_app; right; left; reflexivity).
             destruct (exists_last Hnd) as (p' & x' & Ed). rewrite Ed in E |- *.
             rewrite !app_assoc in E. apply app_inj_tail in E. destruct E as [_ <-].
             apply in_or_app. right. left. reflexivity. }
           apply digit_not_AZ. exact Hx.
    + rewrite (@findall_skip_other c s Hc), (@tokens_after_other pre s tok c Hc).
      apply IH; [lia|]. left. apply no_letter_before_snoc. exact Hc.
Qed.

Lemma leb_cases (a b : string) :
  String.leb a b = true <-> a = b \/ String_as_OT.lt a b.
Proof.
  unfold String.leb. split.
  - destruct (String.compare a b) eqn:E; intros H.
    + left. apply String.compare_eq_iff. exact E.
    + right. apply String_as_OT.cmp_lt. exact E.
    + discriminate.
  - intros [->|H].
    + assert (E : String.compare b b = Eq) by (apply String_as_OT.cmp_eq; reflexivity).
      rewrite E. reflexivity.
    + apply String_as_OT.cmp_lt in H. unfold String_as_OT.cmp in H.
      rewrite H. reflexivity.
Qed.

Lemma leb_transitive : Transitive (fun a b : string => is_true (StringOrder.leb a b)).
Proof.
  intros a b c Hab Hbc. unfold is_true, StringOrder.leb in *.
  apply leb_cases in Hab. apply leb_cases in Hbc. apply leb_cases.
  destruct Hab as [->|Hab]; [exact Hbc|].
  destruct Hbc as [->|Hbc]; [right; exact Hab|].
  right. eapply String_as_OT.lt_trans; eassumption.
Qed.

Lemma leb_distinct_ltb (a b : string) :
  String.leb a b = true -> a <> b -> String.ltb a b = true.
Proof.
  unfold String.leb, String.ltb. intros H Hne.
  destruct (String.compare a b) eqn:E; try reflexivity; try discriminate.
  apply String.compare_eq_iff in E. contradiction.
Qed.

Lemma strictly_sorted (l : list string) :
  StronglySorted (fun a b => is_true (StringOrder.leb a b)) l -> NoDup l ->
  StronglySorted (fun a b => String.ltb a b = true) l.
Proof.
  induction 1 as [|a l Hs IH Ha]; intros Hnd; constructor.
  - apply IH. inversion Hnd; assumption.
  - inversion Hnd as [|? ? Hnotin _]; subst.
    rewrite Forall_forall in *. intros b Hb.
    apply leb_distinct_ltb; [apply Ha; exact Hb|].
    intros ->. contradiction.
Qed.

Lemma in_sorted_set (tok : string) (l : list string) :
  In tok (sorted (py_set l)) <-> In tok l.
Proof.
  unfold sorted, py_set. split; intros H.
  - apply (Permutation_in _ (Permutation_sym (StringSort.Permuted_sort _))) in H.
    apply nodup_In in H. exact H.
  - apply (Permutation_in _ (StringSort.Permuted_sort _)).
    apply nodup_In. exact H.
Qed.

Lemma in_re_findall (tok s : string) :
  In tok (re_findall s) <->
  In (list_ascii_of_string tok) (findall (list_ascii_of_string s)).
Proof.
  unfold re_findall. rewrite in_map_iff. split.
  - intros (x & <- & Hx). rewrite list_ascii_of_string_of_list_ascii. exact Hx.
  - intros H. exists (list_ascii_of_string tok). split; [|exact H].
    apply string_of_list_ascii_of_string.
Qed.

(** C5, as the code has it. For every formula, the dependency extractor
    returns exactly the maximal tokens "letters A-Z then digits" of the
    upper-cased formula, in strictly ascending code point order (so sorted
    and without duplicates). "=SUM(A1:B2)+C3" yields A1, B2, C3; a lower
    case reference is found in its upper-case form; and the sheet-qualified
    "Sheet1!A1" yields A1 and also SHEET1, the upper-cased sheet name being
    itself letters followed by a digit. *)
Theorem dependencies_are_sorted_maximal_tokens :
  (forall formula : string,
      (forall tok : string,
          In tok (_parse_formula_dependencies formula) <->
          maximal_token_of (list_ascii_of_string (upper formula))
                           (list_ascii_of_string tok))
      /\ StronglySorted (fun a b => String.ltb a b = true)
                        (_parse_formula_dependencies formula)
      /\ NoDup (_parse_formula_dependencies formula))
  /\ _parse_formula_dependencies "=SUM(A1:B2)+C3" = ["A1"; "B2"; "C3"]%string
  /\ _parse_formula_dependencies "=b2+a1+B2" = ["A1"; "B2"]%string
  /\ _parse_formula_dependencies "Sheet1!A1" = ["A1"; "SHEET1"]%string.
Proof.
  split; [|repeat split; vm_compute; reflexivity].
  intros formula.
  assert (Hnd : NoDup (_parse_formula_dependencies formula)).
  { unfold _parse_formula_dependencies, sorted, py_set.
    eapply Permutation_NoDup; [apply StringSort.Permuted_sort|].
    apply NoDup_nodup. }
  split; [|split; [|exact Hnd]].
  - intros tok. unfold _parse_formula_dependencies.
    rewrite in_sorted_set, in_re_findall. unfold maximal_token_of.
    apply (@findall_maximal_tokens (List.length (list_ascii_of_string (upper formula)))).
    + apply Nat.le_refl.
    + left. intros p c E. destruct p; discriminate.
  - apply strictly_sorted; [|exact Hnd].
    unfold _parse_formula_dependencies, sorted.
    apply StringSort.StronglySorted_sort. exact leb_transitive.
Qed.

(** C5 as stated fails on a sheet-qualified reference: "Sheet1!A1" yields
    a token for the sheet-name part as well. *)
Lemma sheet_name_token_counterexample :
  _parse_formula_dependencies "Sheet1!A1" = ["A1"; "SHEET1"]%string
  /\ _parse_formula_dependencies "Sheet1!A1" <> ["A1"]%string.
Proof. split; [vm_compute; reflexivity | vm_compute; discriminate]. Qed.

End DependencyFacts.

(** ** File names *)

Section SanitizeFacts.
Import PyStr Convert.

Lemma contains_append (c : ascii) (s t : string) :
  contains c (s ++ t) = contains c s || contains c t.
Proof.
  induction s as [|x s IH]; simpl; [reflexivity|].
  rewrite IH. apply orb_assoc.
Qed.

Lemma contains_rev_acc (c : ascii) (s a : string) :
  contains c (rev_acc s a) = contains c s || contains c a.
Proof.
  revert a. induction s as [|x s IH]; intros a; simpl; [reflexivity|].
  rewrite IH. simpl. destruct (Ascii.eqb c x); simpl.
  - rewrite orb_true_r. reflexivity.
  - reflexivity.
Qed.

Lemma contains_rev (c : ascii) (s : string) : contains c (rev s) = contains c s.
Proof. unfold rev. rewrite contains_rev_acc. simpl. apply orb_false_r. Qed.

Lemma rev_acc_twice (s a b : string) :
  rev_acc (rev_acc s a) b = rev_acc a (s ++ b).
Proof.
  revert a b. induction s as [|x s IH]; intros a b; simpl; [reflexivity|].
  rewrite IH. reflexivity.
Qed.

Lemma append_empty (s : string) : s ++ "" = s.
Proof. induction s as [|x s IH]; simpl; [reflexivity|]. rewrite IH. reflexivity. Qed.

Lemma rev_involutive (s : string) : rev (rev s) = s.
Proof. unfold rev. rewrite rev_acc_twice. simpl. apply append_empty. Qed.

Lemma contains_lstrip (p : ascii -> bool) (c : ascii) (s : string) :
  contains c (lstrip_by p s) = true -> contains c s = true.
Proof.
  induction s as [|x s IH]; simpl; [discriminate|].
  destruct (p x); [|simpl; auto].
  intros H. rewrite (IH H). apply orb_true_r.
Qed.

Lemma contains_strip_by (p : ascii -> bool) (c : ascii) (s : string) :
  contains c (strip_by p s) = true -> contains c s = true.
Proof.
  unfold strip_by. rewrite contains_rev. intros H.
  apply contains_lstrip in H. rewrite contains_rev in H.
  apply contains_lstrip in H. exact H.
Qed.

Lemma contains_take (c : ascii) (n : nat) (s : string) :
  contains c (take n s) = true -> contains c s = true.
Proof.
  revert s. induction n as [|n IH]; intros [|x s]; simpl; try discriminate.
  destruct (Ascii.eqb c x); [reflexivity|]. simpl. apply IH.
Qed.

Lemma length_take (n : nat) (s : string) : (String.length (take n s) <= n)%nat.
Proof.
  revert s. induction n as [|n IH]; intros [|x s]; simpl; try lia.
  specialize (IH s). lia.
Qed.

Lemma take_all (n : nat) (s : string) : (String.length s <= n)%nat -> take n s = s.
Proof.
  revert s. induction n as [|n IH]; intros [|x s] H; simpl in *; try reflexivity; try lia.
  rewrite IH by lia. reflexivity.
Qed.

Lemma underscore_safe : forbidden "_"%char = false /\ is_space "_"%char = false.
Proof. split; reflexivity. Qed.

Lemma contains_sub_forbidden (c : ascii) (s : string) :
  contains c (sub_forbidden s) = true ->
  c = "_"%char \/ (contains c s = true /\ forbidden c = false).
Proof.
  induction s as [|x s IH]; simpl; [discriminate|].
  intros H. apply orb_prop in H. destruct H as [H|H].
  - apply Ascii.eqb_eq in H. destruct (forbidden x) eqn:Hx.
    + left. exact H.
    + right. subst c. rewrite Ascii.eqb_refl. split; [reflexivity|exact Hx].
  - destruct (IH H) as [E|[E1 E2]]; [left; exact E|right].
    rewrite E1, orb_true_r. split; [reflexivity|exact E2].
Qed.

Lemma contains_sub_spaces (c : ascii) (b : bool) (s : string) :
  contains c (sub_spaces b s) = true ->
  c = "_"%char \/ (contains c s = true /\ is_space c = false).
Proof.
  revert b. induction s as [|x s IH]; intros b; simpl; [discriminate|].
  destruct (is_space x) eqn:Hx.
  - destruct b; simpl; intros H.
    + destruct (IH _ H) as [E|[E1 E2]]; [left; exact E|right].
      rewrite E1, orb_true_r. split; [reflexivity|exact E2].
    + apply orb_prop in H. destruct H as [H|H].
      * left. apply Ascii.eqb_eq in H. exact H.
      * destruct (IH _ H) as [E|[E1 E2]]; [left; exact E|right].
        rewrite E1, orb_true_r. split; [reflexivity|exact E2].
  - simpl. intros H. apply orb_prop in H. destruct H as [H|H].
    + right. apply Ascii.eqb_eq in H. subst c. rewrite Ascii.eqb_refl.
      split; [reflexivity|exact Hx].
    + destruct (IH _ H) as [E|[E1 E2]]; [left; exact E|right].
      rewrite E1, orb_true_r. split; [reflexivity|exact E2].
Qed.

(** A string none of whose characters is forbidden or white space. *)
Lemma sanitize_chars (name : string) (c : ascii) :
  contains c (sanitize_filename name) = true ->
  forbidden c = false /\ is_space c = false.
Proof.
  unfold sanitize_filename.
  destruct (String.eqb (take 120 (sub_spaces false (sub_forbidden (strip name)))) "") eqn:E.
  - intros H. simpl in H.
    repeat (apply orb_prop in H; destruct H as [H|H];
            [apply Ascii.eqb_eq in H; subst c; split; reflexivity|]).
    discriminate.
  - intros H. apply contains_take in H. apply contains_sub_spaces in H.
    destruct H as [->|[H Hs]]; [apply underscore_safe|].
    apply contains_sub_forbidden in H.
    destruct H as [->|[_ Hf]]; [apply underscore_safe|]. split; assumption.
Qed.

Lemma sanitize_nonempty (name : string) : sanitize_filename name <> "".
Proof.
  unfold sanitize_filename.
  destruct (String.eqb (take 120 (sub_spaces false (sub_forbidden (strip name)))) "") eqn:E.
  - discriminate.
  - apply String.eqb_neq. exact E.
Qed.

Lemma sanitize_length (name : string) :
  (String.length (sanitize_filename name) <= 120)%nat.
Proof.
  unfold sanitize_filename.
  destruct (String.eqb (take 120 (sub_spaces false (sub_forbidden (strip name)))) "").
  - simpl. lia.
  - apply length_take.
Qed.

Lemma lstrip_fixed (p : ascii -> bool) (s : string) :
  (forall c, contains c s = true -> p c = false) -> lstrip_by p s = s.
Proof.
  destruct s as [|x s]; simpl; [reflexivity|]. intros H.
  rewrite (H x); [reflexivity|]. rewrite Ascii.eqb_refl. reflexivity.
Qed.

Lemma strip_by_fixed (p : ascii -> bool) (s : string) :
  (forall c, contains c s = true -> p c = false) -> strip_by p s = s.
Proof.
  intros H. unfold strip_by. rewrite (lstrip_fixed p s H).
  rewrite lstrip_fixed.
  - apply rev_involutive.
  - intros c Hc. rewrite contains_rev in Hc. apply H. exact Hc.
Qed.

Lemma sub_forbidden_fixed (s : string) :
  (forall c, contains c s = true -> forbidden c = false) -> sub_forbidden s = s.
Proof.
  induction s as [|x s IH]; simpl; [reflexivity|]. intros H.
  rewrite (H x) by (rewrite Ascii.eqb_refl; reflexivity).
  rewrite IH; [reflexivity|]. intros c Hc. apply H. rewrite Hc. apply orb_true_r.
Qed.

Lemma sub_spaces_fixed (s : string) :
  (forall c, contains c s = true -> is_space c = false) -> sub_spaces false s = s.
Proof.
  induction s as [|x s IH]; simpl; [reflexivity|]. intros H.
  rewrite (H x) by (rewrite Ascii.eqb_refl; reflexivity).
  rewrite IH; [reflexivity|]. intros c Hc. apply H. rewrite Hc. apply orb_true_r.
Qed.

Lemma sanitize_fixed (s : string) :
  s <> "" -> (String.length s <= 120)%nat ->
  (forall c, contains c s = true -> forbidden c = false /\ is_space c = false) ->
  sanitize_filename s = s.
Proof.
  intros Hne Hlen Hsafe. unfold sanitize_filename, strip.
  rewrite strip_by_fixed by (intros c Hc; apply Hsafe; exact Hc).
  rewrite sub_forbidden_fixed by (intros c Hc; apply Hsafe; exact Hc).
  rewrite sub_spaces_fixed by (intros c Hc; apply Hsafe; exact Hc).
  rewrite take_all by exact Hlen.
  apply String.eqb_neq in Hne. rewrite Hne. reflexivity.
Qed.

(** X1. A sanitized sheet name is never empty, has at most 120 characters
    and contains none of the characters backslash, slash, colon, star,
    question mark, double quote, angle brackets and bar, and no white
    space. *)
Theorem sanitized_name_is_safe :
  forall (name : string),
    sanitize_filename name <> ""
    /\ (String.length (sanitize_filename name) <= 120)%nat
    /\ (forall c, contains c (sanitize_filename name) = true ->
                  forbidden c = false /\ is_space c = false).
Proof.
  intros name. split; [apply sanitize_nonempty|]. split; [apply sanitize_length|].
  apply sanitize_chars.
Qed.

(** X2. Sanitizing leaves alone exactly the names that are already safe
    (non-empty, at most 120 characters, no forbidden character, no white
    space), so sanitizing twice is the same as sanitizing once. *)
Theorem sanitize_is_idempotent :
  (forall s : string,
      sanitize_filename s = s <->
      (s <> "" /\ (String.length s <= 120)%nat
       /\ forall c, contains c s = true -> forbidden c = false /\ is_space c = false))
  /\ forall name : string,
      sanitize_filename (sanitize_filename name) = sanitize_filename name.
Proof.
  split.
  - intros s. split.
    + intros E. rewrite <- E.
      split; [apply sanitize_nonempty|]. split; [apply sanitize_length|].
      apply sanitize_chars.
    + intros (Hne & Hlen & Hsafe). apply sanitize_fixed; assumption.
  - intros name. apply sanitize_fixed.
    + apply sanitize_nonempty.
    + apply sanitize_length.
    + apply sanitize_chars.
Qed.

End SanitizeFacts.

(** ** The converter *)

Section ConvertMoreFacts.
Import PyStr Source Convert ConvertMore Examples ExamplesMore.

Lemma split_no_separator (a : ascii) (s : string) :
  contains a s = false -> split a s = [s].
Proof.
  induction s as [|c s IH]; simpl; [reflexivity|]. intros H.
  apply orb_false_elim in H. destruct H as [Hc Hs].
  rewrite Hc, (IH Hs). reflexivity.
Qed.

Lemma split_at_separator (a : ascii) (t rest : string) :
  contains a t = false -> split a (t ++ String a rest) = t :: split a rest.
Proof.
  induction t as [|c t IH]; simpl; intros H.
  - rewrite Ascii.eqb_refl. reflexivity.
  - apply orb_false_elim in H. destruct H as [Hc Ht].
    rewrite Hc, (IH Ht). reflexivity.
Qed.

Lemma split_not_nil (a : ascii) (s : string) : split a s <> [].
Proof.
  destruct s as [|c s]; simpl; [discriminate|].
  destruct (Ascii.eqb a c); [discriminate|].
  destruct (split a s); discriminate.
Qed.

(** X3. The dotted-path lookup of the CSV writer descends one object per
    component: on a name without a dot it is the plain lookup, and on
    "a.rest" it looks "rest" up in the object stored under "a", giving
    [None] when "a" is missing or holds anything but an object. *)
Theorem nested_lookup_descends :
  forall (r : dict) (a : string),
    contains "."%char a = false ->
    get_nested r a = py_get a r
    /\ forall rest : string,
        get_nested r (a ++ String "."%char rest) =
        match py_get a r with
        | PDict d => get_nested d rest
        | _ => PNone
        end.
Proof.
  intros r a Ha. split.
  - unfold get_nested. rewrite (split_no_separator _ _ Ha). reflexivity.
  - intros rest. unfold get_nested. rewrite (split_at_separator _ _ _ Ha).
    cbn [get_nested_parts].
    destruct (py_get a r); try reflexivity;
      destruct (split "."%char rest) eqn:E; try reflexivity;
      exfalso; apply (split_not_nil _ _ E).
Qed.

Lemma nested_lookup_witness :
  contains "."%char "format" = false
  /\ get_nested [("format", PDict [("font", PDict [("bold", PBool true)])])]
                "format.font.bold" = PBool true
  /\ get_nested [("format", PStr "plain")] "format.font.bold" = PNone.
Proof.
  split; [reflexivity|].
  split.
  - exact (proj2 (nested_lookup_descends
                    [("format", PDict [("font", PDict [("bold", PBool true)])])]
                    "format" eq_refl) "font.bold").
  - exact (proj2 (nested_lookup_descends [("format", PStr "plain")] "format" eq_refl)
             "font.bold").
Defined.

(** X4. The converter reads back from a workbook record exactly the sheet
    entries the walker put in, in order; and from the empty record that
    the live backend returns on failure it reads no sheet at all. *)
Theorem converter_reads_walker_output :
  (forall extract definedName now self d,
      Openpyxl.extract_workbook_full_details extract definedName now self = Ok (PDict d) ->
      exists wb,
        Openpyxl.workbook self = Some wb
        /\ detect_structure d = "workbook"
        /\ extract_sheets d =
           PList (map (Openpyxl.walk_sheet extract self) (Openpyxl.worksheets wb)))
  /\ (forall cell_record table_record now self d,
      XlwingsWalker.extract_workbook_full_details cell_record table_record now self
      = PDict d ->
      (d = [] /\ detect_structure d = "unknown" /\ extract_sheets d = PList [])
      \/ (exists wb entries,
            Xlwings.workbook self = Some wb
            /\ XlwingsWalker.walk cell_record table_record self (Xlwings.sheets wb)
               = Ok entries
            /\ Forall2 (fun ws entry =>
                          XlwingsWalker.walk_sheet cell_record table_record self ws
                          = Ok entry)
                       (Xlwings.sheets wb) entries
            /\ detect_structure d = "workbook"
            /\ extract_sheets d = PList entries)).
Proof.
  split.
  - intros extract definedName now self d Hd.
    unfold Openpyxl.extract_workbook_full_details in Hd.
    destruct (Openpyxl.workbook self) as [wb|]; [|discriminate].
    inversion Hd; subst d; clear Hd. exists wb.
    split; [reflexivity|]. split; [reflexivity|].
    unfold extract_sheets. cbn.
    destruct (map (Openpyxl.walk_sheet extract self) (Openpyxl.worksheets wb));
      reflexivity.
  - intros cell_record table_record now self d Hd.
    destruct (live_walk_result cell_record table_record now self)
      as [He|(wb & entries & Hwb & Hw & Hr)].
    + rewrite He in Hd. inversion Hd; subst d. left. repeat split; reflexivity.
    + rewrite Hr in Hd. inversion Hd; subst d; clear Hd. right.
      exists wb, entries. split; [exact Hwb|]. split; [exact Hw|].
      split; [apply (live_walk_entries _ _ _ _ Hw)|]. split; [reflexivity|].
      unfold extract_sheets. cbn. destruct entries; reflexivity.
Qed.

Lemma converter_reads_walker_witness :
  exists d entries,
    XlwingsWalker.extract_workbook_full_details x_cell_record x_table_record
      "2024-01-01T00:00:00" x_self_two = PDict d
    /\ extract_sheets d = PList entries
    /\ List.length entries = 2%nat.
Proof.
  destruct (proj2 converter_reads_walker_output x_cell_record x_table_record
              "2024-01-01T00:00:00" x_self_two _ eq_refl)
    as [(Hd & _)|(wb & entries & Hwb & Hw & _ & _ & Hex)].
  - discriminate Hd.
  - eexists. exists entries. split; [reflexivity|]. split; [exact Hex|].
    apply live_walk_length in Hw. rewrite Hw. inversion Hwb. reflexivity.
Defined.

Lemma count_if_bounds (test : pyval -> Result bool) (l : list pyval) (n : Z) :
  count_if test l = Ok n -> 0 <= n <= Z.of_nat (List.length l).
Proof.
  revert n. induction l as [|c l IH]; intros n; cbn [count_if].
  - intros H. inversion H. simpl. lia.
  - destruct (test c) as [b|e]; [|discriminate]. cbn [bind].
    destruct (count_if test l) as [m|e]; [|discriminate]. cbn [bind].
    intros H. specialize (IH m eq_refl).
    rewrite length_cons, Nat2Z.inj_succ. destruct b; [assert (n = 1 + m) by congruence | assert (n = m) by congruence]; lia.
Qed.

Lemma count_if_le (test1 test2 : pyval -> Result bool) (l : list pyval) (n1 n2 : Z) :
  (forall c, test1 c = Ok true -> test2 c = Ok true) ->
  count_if test1 l = Ok n1 -> count_if test2 l = Ok n2 -> n1 <= n2.
Proof.
  intros Himp. revert n1 n2. induction l as [|c l IH]; intros n1 n2; cbn [count_if].
  - intros H1 H2. inversion H1. inversion H2. lia.
  - destruct (test1 c) as [b1|e] eqn:E1; [|discriminate]. cbn [bind].
    destruct (count_if test1 l) as [m1|e]; [|discriminate]. cbn [bind].
    destruct (test2 c) as [b2|e] eqn:E2; [|discriminate]. cbn [bind].
    destruct (count_if test2 l) as [m2|e]; [|discriminate]. cbn [bind].
    intros H1 H2. specialize (IH m1 m2 eq_refl eq_refl).
    destruct b1.
    + rewrite (Himp c E1) in E2. assert (b2 = true) by congruence. subst b2.
      assert (n1 = 1 + m1) by congruence. assert (n2 = 1 + m2) by congruence. lia.
    + assert (n1 = m1) by congruence.
      destruct b2; [assert (n2 = 1 + m2) by congruence | assert (n2 = m2) by congruence];
        lia.
Qed.

Lemma dropdown_is_validation (c : pyval) :
  is_dropdown c = Ok true -> has_validation c = Ok true.
Proof.
  unfold is_dropdown, has_validation.
  destruct (cell_get "data_validation" c) as [v|e]; [|discriminate]. cbn [bind].
  destruct (truthy v) eqn:Hv; [reflexivity|].
  cbn. discriminate.
Qed.

Lemma length_chars (s : string) : List.length (chars s) = String.length s.
Proof. induction s as [|c s IH]; simpl; [reflexivity|]. rewrite IH. reflexivity. Qed.

Lemma py_iter_len (v : pyval) (l : list pyval) :
  py_iter v = Ok l -> py_len v = Z.of_nat (List.length l).
Proof.
  destruct v; simpl; intros H; inversion H; subst; try reflexivity.
  - rewrite length_chars. reflexivity.
  - rewrite length_map. reflexivity.
Qed.

(** X5. Whenever [summarize_sheet] returns, its four counts are
    consistent: no more formulas than cells, no more validations than
    cells, and no more dropdowns than validations; none is negative. *)
Theorem summary_counts_are_consistent :
  forall (sheet_entry : dict) (name : pyval) (stats : Stats),
    summarize_sheet sheet_entry = Ok (name, stats) ->
    0 <= n_formulas stats <= n_cells stats
    /\ 0 <= n_dropdowns stats <= n_validations stats
    /\ n_validations stats <= n_cells stats.
Proof.
  intros e name st H. unfold summarize_sheet in H.
  destruct (sheet_name_of e) as [nm|x]; [|discriminate]. cbn [bind] in H.
  destruct (py_iter (cells_value e)) as [items|x] eqn:Hit; [|discriminate].
  cbn [bind] in H.
  destruct (count_if has_formula items) as [nf|x] eqn:Hf; [|discriminate].
  cbn [bind] in H.
  destruct (count_if has_validation items) as [nv|x] eqn:Hv; [|discriminate].
  cbn [bind] in H.
  destruct (count_if is_dropdown items) as [nd|x] eqn:Hd; [|discriminate].
  cbn [bind] in H. inversion H; subst; clear H. cbn [n_cells n_formulas n_validations n_dropdowns].
  rewrite (py_iter_len _ Hit).
  pose proof (count_if_bounds _ _ Hf). pose proof (count_if_bounds _ _ Hv).
  pose proof (count_if_bounds _ _ Hd).
  pose proof (count_if_le _ _ _ dropdown_is_validation Hd Hv).
  lia.
Qed.

Lemma summary_counts_witness :
  exists stats,
    summarize_sheet summary_example = Ok (PStr "S", stats)
    /\ n_cells stats = 3 /\ n_formulas stats = 1
    /\ 0 <= n_dropdowns stats <= n_validations stats.
Proof.
  eexists. split; [reflexivity|]. split; [reflexivity|]. split; [reflexivity|].
  apply (summary_counts_are_consistent summary_example (name := PStr "S")). reflexivity.
Defined.

Lemma all_dicts_map (l : list pyval) (ds : list dict) :
  all_dicts l = Ok ds -> l = map PDict ds.
Proof.
  revert ds. induction l as [|v l IH]; intros ds; cbn [all_dicts].
  - intros H. inversion H. reflexivity.
  - destruct v; try discriminate. cbn [as_dict bind].
    destruct (all_dicts l) as [ds'|e]; [|discriminate]. cbn [bind].
    intros H. inversion H; subst. rewrite (IH ds' eq_refl). reflexivity.
Qed.

Lemma typed_cells_value (e : dict) (ds : list dict) :
  typed_cells e = Ok ds -> cells_value e = PList (map PDict ds).
Proof.
  unfold typed_cells. destruct (cells_value e); try discriminate.
  intros H. rewrite (all_dicts_map _ H). reflexivity.
Qed.

Lemma count_if_dicts (k : string) (ds : list dict) :
  count_if (fun c => v <- cell_get k c ;; Ok (truthy v)) (map PDict ds)
  = Ok (Z.of_nat (List.length (filter (fun c => truthy (py_get k c)) ds))).
Proof.
  induction ds as [|d ds IH]; [reflexivity|].
  cbn [map count_if cell_get as_dict bind filter]. rewrite IH. cbn [bind].
  destruct (truthy (py_get k d)); [|reflexivity].
  rewrite length_cons, Nat2Z.inj_succ. f_equal. lia.
Qed.

(** X6. The counts of the index agree with the CSV files of the sheet:
    the all-cells, formulas and validations files have, besides the header,
    as many lines as the summary counts cells, formulas and validations. *)
Theorem summary_counts_match_csv_lines :
  forall (str : pyval -> string) (out_dir sheet_name : string) (sheet_entry : dict)
         (cells : list dict) (name : pyval) (stats : Stats),
    typed_cells sheet_entry = Ok cells ->
    summarize_sheet sheet_entry = Ok (name, stats) ->
    map (fun file => Z.of_nat (List.length (snd file)))
        (snd (write_sheet_csvs str out_dir sheet_name cells []))
    = [1 + n_validations stats; 1 + n_formulas stats; 1 + n_cells stats].
Proof.
  intros str out_dir sheet_name e ds name st Ht H.
  pose proof (typed_cells_value _ Ht) as Hc.
  unfold summarize_sheet in H. rewrite Hc in H.
  destruct (sheet_name_of e) as [nm|x]; [|discriminate].
  cbn [bind py_iter] in H.
  unfold has_formula, has_validation in H. rewrite !count_if_dicts in H.
  cbn [bind] in H.
  destruct (count_if is_dropdown (map PDict ds)) as [nd|x]; [|discriminate].
  cbn [bind] in H. inversion H; subst; clear H.
  cbn [n_cells n_formulas n_validations py_len].
  unfold write_sheet_csvs, write_csv. cbn [snd map List.length].
  rewrite !length_map, !Nat2Z.inj_succ.
  rewrite !Z.add_1_l. reflexivity.
Qed.

Lemma summary_counts_match_csv_witness :
  map (fun file => Z.of_nat (List.length (snd file)))
      (snd (write_sheet_csvs Standin.str "out" "S"
              [[("formula", PStr "=A1")];
               [("data_validation", PDict [("type_name", PStr "xlValidateList")])];
               [("value", PInt 1)]] []))
  = [2; 2; 4].
Proof.
  exact (summary_counts_match_csv_lines Standin.str "out" "S" summary_example
           (name := PStr "S") eq_refl eq_refl).
Defined.

Lemma dict_get_set {A} (k k' : string) (v : A) (d : list (string * A)) :
  dict_get k (dict_set k' v d) = if String.eqb k k' then Some v else dict_get k d.
Proof.
  induction d as [|[k0 v0] d IH]; simpl.
  - reflexivity.
  - destruct (String.eqb k' k0) eqn:E0; simpl.
    + apply String.eqb_eq in E0. subst k0.
      destruct (String.eqb k k'); reflexivity.
    + rewrite IH. destruct (String.eqb k k0) eqn:E1; [|reflexivity].
      apply String.eqb_eq in E1. subst k0.
      rewrite String.eqb_sym in E0. rewrite E0. reflexivity.
Qed.

Lemma dict_get_absent {A} (k : string) (d : list (string * A)) :
  ~ In k (map fst d) -> dict_get k d = None.
Proof.
  induction d as [|[k0 v0] d IH]; simpl; [reflexivity|]. intros H.
  destruct (String.eqb k k0) eqn:E.
  - apply String.eqb_eq in E. exfalso. apply H. left. symmetry. exact E.
  - apply IH. intros Hin. apply H. right. exact Hin.
Qed.

Lemma dict_get_update (k : string) (d u : dict) :
  NoDup (map fst u) ->
  dict_get k (dict_update d u) =
  match dict_get k u with
  | Some v => Some v
  | None => dict_get k d
  end.
Proof.
  unfold dict_update. revert d. induction u as [|[k1 v1] u IH]; intros d Hnd; simpl.
  - reflexivity.
  - inversion Hnd as [|? ? Hnotin Hnd']; subst.
    rewrite (IH _ Hnd'). rewrite dict_get_set.
    destruct (String.eqb k k1) eqn:E.
    + apply String.eqb_eq in E. subst k1.
      rewrite (@dict_get_absent _ _ _ Hnotin). reflexivity.
    + reflexivity.
Qed.

Lemma ndjson_rows_tagged (sheets : list dict) (rows : list dict) :
  ndjson_rows sheets = Ok rows ->
  exists tagged : list (pyval * list dict),
    Forall2 (fun e t => sheet_name_of e = Ok (fst t) /\ typed_cells e = Ok (snd t))
            sheets tagged
    /\ rows = flat_map (fun t => map (dict_update [("sheet", fst t)]) (snd t)) tagged.
Proof.
  revert rows. induction sheets as [|e sheets IH]; intros rows; cbn [ndjson_rows].
  - intros H. inversion H. exists []. split; [constructor|reflexivity].
  - destruct (sheet_name_of e) as [nm|x] eqn:En; [|discriminate]. cbn [bind].
    destruct (typed_cells e) as [cells|x] eqn:Ec; [|discriminate]. cbn [bind].
    destruct (ndjson_rows sheets) as [more|x]; [|discriminate]. cbn [bind].
    intros H. inversion H; subst rows; clear H.
    destruct (IH more eq_refl) as (tagged & HF & ->).
    exists ((nm, cells) :: tagged). split; [constructor; auto|reflexivity].
Qed.

(** X7. The NDJSON file has one row per cell of every sheet, in order,
    each made of the tag [sheet] followed by the fields of the cell. The tag
    holds the sheet name unless the cell record has a [sheet] field of its
    own, which then replaces it; every field of the cell keeps its value. *)
Theorem ndjson_rows_carry_the_sheet_tag :
  forall (sheets : list dict) (rows : list dict),
    ndjson_rows sheets = Ok rows ->
    (exists tagged : list (pyval * list dict),
        Forall2 (fun e t => sheet_name_of e = Ok (fst t) /\ typed_cells e = Ok (snd t))
                sheets tagged
        /\ rows = flat_map (fun t => map (dict_update [("sheet", fst t)]) (snd t)) tagged
        /\ Z.of_nat (List.length rows)
           = fold_right (fun t n => Z.of_nat (List.length (snd t)) + n) 0 tagged)
    /\ (forall (name : pyval) (cell : dict),
        NoDup (map fst cell) ->
        py_get "sheet" (dict_update [("sheet", name)] cell)
        = (if key_in "sheet" cell then py_get "sheet" cell else name)
        /\ forall k, key_in k cell = true ->
                     py_get k (dict_update [("sheet", name)] cell) = py_get k cell).
Proof.
  intros sheets rows H. split.
  - destruct (ndjson_rows_tagged _ H) as (tagged & HF & ->).
    exists tagged. split; [exact HF|]. split; [reflexivity|].
    clear. induction tagged as [|t tagged IH]; simpl; [reflexivity|].
    rewrite length_app, length_map, Nat2Z.inj_add, IH. reflexivity.
  - intros name cell Hnd. split.
    + unfold py_get, key_in. rewrite (@dict_get_update _ _ _ Hnd).
      destruct (dict_get "sheet" cell); reflexivity.
    + intros k Hk. unfold py_get, key_in in *. rewrite (@dict_get_update _ _ _ Hnd).
      destruct (dict_get k cell); [reflexivity|discriminate].
Qed.

Lemma ndjson_rows_witness :
  ndjson_rows [ [("sheet", PDict [("name", PStr "S")]);
                 ("cells", PList [PDict [("address", PStr "A1")];
                                  PDict [("sheet", PStr "other"); ("address", PStr "A2")]])] ]
  = Ok [ [("sheet", PStr "S"); ("address", PStr "A1")];
         [("sheet", PStr "other"); ("address", PStr "A2")] ]
  /\ py_get "sheet" (dict_update [("sheet", PStr "S")]
                       [("sheet", PStr "other"); ("address", PStr "A2")])
     = PStr "other".
Proof.
  split; [reflexivity|].
  refine (proj1 (proj2 (ndjson_rows_carry_the_sheet_tag
                          [ [("sheet", PDict [("name", PStr "S")]);
                             ("cells", PList [PDict [("address", PStr "A1")]])] ]
                          eq_refl)
                   (PStr "S") [("sheet", PStr "other"); ("address", PStr "A2")] _)).
  repeat constructor; simpl; intuition discriminate.
Defined.

Lemma convert_sheets_length (str : pyval -> string) (out_root : string)
    (sheets : list dict) :
  forall file_map fs file_map' fs',
    convert_sheets str out_root sheets file_map fs = Ok (file_map', fs') ->
    List.length fs' = (List.length fs + 5 * List.length sheets)%nat.
Proof.
  induction sheets as [|e sheets IH]; intros fm fs fm' fs'; cbn [convert_sheets].
  - intros H. inversion H. simpl. lia.
  - destruct (sheet_name_of e) as [nm|x]; [|discriminate]. cbn [bind].
    destruct (as_str nm) as [name|x]; [|discriminate]. cbn [bind].
    destruct (typed_cells e) as [cells|x]; [|discriminate]. cbn [bind].
    unfold write_sheet_csvs_on, write_sheet_csvs, write_sheet_json, write_csv.
    intros H. apply IH in H. rewrite H. simpl. lia.
Qed.

(** X8. [convert] stops with "No sheets found" exactly when
    [extract_sheets] finds none in the input, in particular on the empty
    record that the live backend returns on failure, and then writes
    nothing. When it runs to its end on n sheets it has created the output
    directory, for each sheet a directory with three CSV files and one JSON
    file, the NDJSON file if asked for, and last of all INDEX.md in the
    output directory. *)
Theorem convert_aborts_without_sheets :
  forall (str : pyval -> string) (path_name : string -> string) (data : dict)
         (input_stem input_name output_dir : string) (make_ndjson : bool) (fs : Files),
    (forall msg,
        convert str path_name data input_stem input_name output_dir make_ndjson fs
        = Exit msg
        <-> (truthy (extract_sheets data) = false /\ msg = no_sheets_message))
    /\ convert str path_name [] input_stem input_name output_dir make_ndjson fs
       = Exit no_sheets_message
    /\ (forall fs',
        convert str path_name data input_stem input_name output_dir make_ndjson fs
        = Done fs' ->
        exists sheets text rest,
          py_iter (extract_sheets data) = Ok (map PDict sheets)
          /\ fs' = (joinpath (joinpath output_dir (spaces_to_underscores input_stem))
                             "INDEX.md", Text text) :: rest
          /\ List.length fs'
             = (List.length fs + 5 * List.length sheets
                + (if make_ndjson then 3 else 2))%nat).
Proof.
  intros str path_name data stem name out nd fs. split; [|split].
  - intros msg. unfold convert.
    destruct (truthy (extract_sheets data)); cbn [negb].
    + split; [|intros [H _]; discriminate].
      match goal with |- context [match ?r with Ok _ => _ | Raise _ => _ end] =>
        destruct r end; discriminate.
    + split; [intros H; inversion H; auto|intros [_ ->]; reflexivity].
  - reflexivity.
  - intros fs'. unfold convert.
    destruct (truthy (extract_sheets data)); cbn [negb]; [|discriminate].
    destruct (py_iter (extract_sheets data)) as [items|x]; [|discriminate].
    cbn [bind].
    destruct (all_dicts items) as [sheets|x] eqn:Ea; [|discriminate]. cbn [bind].
    destruct (convert_sheets str _ sheets [] _) as [[fm fs1]|x] eqn:Ec; [|discriminate].
    cbn [bind]. apply convert_sheets_length in Ec. cbn [List.length] in Ec.
    unfold write_ndjson, write_index_md.
    destruct nd.
    + destruct (ndjson_rows sheets) as [rows|x]; [|discriminate]. cbn [bind snd].
      destruct (index_lines str path_name fm sheets) as [body|x]; [|discriminate].
      cbn [bind snd]. intros H. inversion H; subst fs'; clear H.
      exists sheets. eexists. eexists. split; [rewrite (all_dicts_map _ Ea); reflexivity|].
      split; [reflexivity|]. cbn [List.length]. rewrite Ec. unfold dict. lia.
    + cbn [bind].
      destruct (index_lines str path_name fm sheets) as [body|x]; [|discriminate].
      cbn [bind snd]. intros H. inversion H; subst fs'; clear H.
      exists sheets. eexists. eexists. split; [rewrite (all_dicts_map _ Ea); reflexivity|].
      split; [reflexivity|]. cbn [List.length]. rewrite Ec. unfold dict. lia.
Qed.

Lemma convert_witness :
  convert Standin.str path_name [("sheets", PList [])] "book" "book.json" "out" true []
    = Exit no_sheets_message
  /\ exists fs',
      convert Standin.str path_name workbook_example "my book" "my book.json" "out" true []
      = Done fs'
      /\ exists sheets text rest,
          py_iter (extract_sheets workbook_example) = Ok (map PDict sheets)
          /\ fs' = (joinpath (joinpath "out" (spaces_to_underscores "my book")) "INDEX.md",
                    Text text) :: rest
          /\ List.length fs'
             = (List.length (@nil (string * Content)) + 5 * List.length sheets + 3)%nat.
Proof.
  split.
  - apply (proj1 (convert_aborts_without_sheets Standin.str path_name
                    [("sheets", PList [])] "book" "book.json" "out" true [])).
    split; reflexivity.
  - eexists. split; [vm_compute; reflexivity|].
    apply (proj2 (proj2 (convert_aborts_without_sheets Standin.str path_name
                           workbook_example "my book" "my book.json" "out" true []))).
    vm_compute. reflexivity.
Defined.

End ConvertMoreFacts.

(** ** Colours and reported cells *)

Section XlwingsMoreFacts.
Import PyStr XlwingsMore.

Lemma channel_low (x : Z) : Z.land x 255 = x mod 256.
Proof. change 255 with (Z.ones 8). rewrite Z.land_ones by lia. reflexivity. Qed.

Lemma channels_spec (c : Z) :
  red_of c = c mod 256
  /\ green_of c = (c / 256) mod 256
  /\ blue_of c = (c / 65536) mod 256.
Proof.
  unfold red_of, green_of, blue_of.
  rewrite !channel_low, !Z.shiftr_div_pow2 by lia.
  repeat split; reflexivity.
Qed.

Lemma channels_recompose (c : Z) :
  red_of c + 256 * green_of c + 65536 * blue_of c = c mod 16777216.
Proof.
  destruct (channels_spec c) as (-> & -> & ->).
  pose proof (Z.div_mod c 256 ltac:(lia)) as H1.
  pose proof (Z.div_mod (c / 256) 256 ltac:(lia)) as H2.
  pose proof (Z.mod_pos_bound c 256 ltac:(lia)) as B1.
  pose proof (Z.mod_pos_bound (c / 256) 256 ltac:(lia)) as B2.
  pose proof (Z.mod_pos_bound (c / 65536) 256 ltac:(lia)) as B3.
  assert (E : c / 65536 = c / 256 / 256).
  { rewrite Z.div_div by lia. reflexivity. }
  pose proof (Z.div_mod (c / 65536) 256 ltac:(lia)) as H3.
  rewrite E in *.
  apply (Z.mod_unique c 16777216 (c / 256 / 256 / 256)); lia.
Qed.

(** X9. The colour decomposition of the live backend yields three channels
    between 0 and 255 that recompose, as red + 256 green + 65536 blue, to
    the colour number modulo 2^24, hence to the colour number itself when
    it lies in [0, 2^24); a colour that cannot be read, or is [None], gives
    a null. *)
Theorem colour_channels_recompose :
  forall (c : Z),
    _extract_font_color_rgb (Ok (Some c))
      = PDict [("r", PInt (red_of c)); ("g", PInt (green_of c)); ("b", PInt (blue_of c))]
    /\ _get_cell_fill_color (Ok (Some c))
       = PDict [("excel_bgr", PInt c);
                ("rgb", PDict [("r", PInt (red_of c)); ("g", PInt (green_of c));
                               ("b", PInt (blue_of c))])]
    /\ 0 <= red_of c <= 255 /\ 0 <= green_of c <= 255 /\ 0 <= blue_of c <= 255
    /\ red_of c + 256 * green_of c + 65536 * blue_of c = c mod 16777216
    /\ (0 <= c < 16777216 -> red_of c + 256 * green_of c + 65536 * blue_of c = c)
    /\ _extract_font_color_rgb (Ok None) = PNone
    /\ _get_cell_fill_color (Ok None) = PNone
    /\ (forall e, _extract_font_color_rgb (Raise e) = PNone
                  /\ _get_cell_fill_color (Raise e) = PNone).
Proof.
  intros c. split; [reflexivity|]. split; [reflexivity|].
  destruct (channels_spec c) as (Hr & Hg & Hb).
  pose proof (Z.mod_pos_bound c 256 ltac:(lia)).
  pose proof (Z.mod_pos_bound (c / 256) 256 ltac:(lia)).
  pose proof (Z.mod_pos_bound (c / 65536) 256 ltac:(lia)).
  split; [rewrite Hr; lia|]. split; [rewrite Hg; lia|]. split; [rewrite Hb; lia|].
  split; [apply channels_recompose|].
  split.
  - intros Hc. rewrite channels_recompose. apply Z.mod_small. exact Hc.
  - repeat split; reflexivity.
Qed.

Lemma colour_channels_witness :
  0 <= 16711935 < 16777216
  /\ red_of 16711935 + 256 * green_of 16711935 + 65536 * blue_of 16711935 = 16711935.
Proof.
  split; [lia|].
  apply (proj1 (proj2 (proj2 (proj2 (proj2 (proj2 (proj2
           (colour_channels_recompose 16711935)))))))).
  lia.
Defined.






End XlwingsMoreFacts.

(** ** More on the validation list resolver *)

Section ResolverMoreFacts.
Import PyStr Source Examples ExamplesMore.

Lemma lstrip_idempotent (p : ascii -> bool) (s : string) :
  lstrip_by p (lstrip_by p s) = lstrip_by p s.
Proof.
  induction s as [|c s IH]; simpl; [reflexivity|].
  destruct (p c) eqn:E; [exact IH|]. simpl. rewrite E. reflexivity.
Qed.

Lemma lstrip_head (p : ascii -> bool) (s : string) (c : ascii) (s' : string) :
  lstrip_by p s = String c s' -> p c = false.
Proof.
  induction s as [|x s IH]; simpl; [discriminate|].
  destruct (p x) eqn:E; [exact IH|].
  intros H. inversion H; subst. exact E.
Qed.

Lemma rev_acc_app (s t a : string) :
  rev_acc (s ++ t) a = rev_acc t (rev_acc s a).
Proof.
  revert a. induction s as [|x s IH]; intros a; simpl; [reflexivity|]. apply IH.
Qed.

Lemma rev_acc_snoc (s a : string) (c : ascii) :
  rev_acc s (a ++ String c "") = rev_acc s a ++ String c "".
Proof.
  revert a. induction s as [|x s IH]; intros a; simpl; [reflexivity|].
  apply (IH (String x a)).
Qed.

Lemma rev_cons (c : ascii) (s : string) : rev (String c s) = rev s ++ String c "".
Proof. unfold rev. simpl. apply (rev_acc_snoc s "" c). Qed.

Lemma rev_snoc (s : string) (c : ascii) : rev (s ++ String c "") = String c (rev s).
Proof. unfold rev. rewrite rev_acc_app. reflexivity. Qed.

Lemma lstrip_keeps_last (p : ascii -> bool) (s : string) (c : ascii) :
  p c = false -> exists y, lstrip_by p (s ++ String c "") = y ++ String c "".
Proof.
  intros Hc. induction s as [|x s IH]; simpl.
  - rewrite Hc. exists "". reflexivity.
  - destruct (p x); [exact IH|]. exists (String x s). reflexivity.
Qed.

(** Stripping the right end leaves a clean left end clean. *)
Lemma rstrip_keeps_head (p : ascii -> bool) (s : string) :
  (forall c s', s = String c s' -> p c = false) ->
  lstrip_by p (rev (lstrip_by p (rev s))) = rev (lstrip_by p (rev s)).
Proof.
  intros H. destruct s as [|c s]; [reflexivity|].
  pose proof (H c s eq_refl) as Hc.
  rewrite rev_cons.
  destruct (@lstrip_keeps_last p (rev s) c Hc) as [y ->].
  rewrite rev_snoc. simpl. rewrite Hc. reflexivity.
Qed.

Lemma strip_by_idempotent (p : ascii -> bool) (s : string) :
  strip_by p (strip_by p s) = strip_by p s.
Proof.
  unfold strip_by.
  rewrite (@rstrip_keeps_head p (lstrip_by p s)).
  - rewrite rev_involutive, lstrip_idempotent. reflexivity.
  - intros c s' E. apply (@lstrip_head p s c s' E).
Qed.

(** The number of occurrences of a character. *)
Lemma split_length (a : ascii) (s : string) :
  List.length (split a s)
  = S (List.length (filter (Ascii.eqb a) (list_ascii_of_string s))).
Proof.
  induction s as [|c s IH]; simpl; [reflexivity|].
  destruct (Ascii.eqb a c); simpl.
  - rewrite IH. reflexivity.
  - destruct (split a s) as [|p ps]; simpl in *; [discriminate|exact IH].
Qed.

Lemma split_pieces_clean (a : ascii) (s p : string) :
  In p (split a s) -> contains a p = false.
Proof.
  revert p. induction s as [|c s IH]; intros p; simpl.
  - intros [<-|[]]. reflexivity.
  - destruct (Ascii.eqb a c) eqn:E.
    + intros [<-|H]; [reflexivity|apply IH; exact H].
    + destruct (split a s) as [|q qs].
      * intros [<-|[]]. simpl. rewrite E. reflexivity.
      * intros [<-|H].
        -- simpl. rewrite E. apply IH. left. reflexivity.
        -- apply IH. right. exact H.
Qed.

Lemma contains_count (a : ascii) (s : string) :
  contains a s = true ->
  (1 <= List.length (filter (Ascii.eqb a) (list_ascii_of_string s)))%nat.
Proof.
  induction s as [|c s IH]; simpl; [discriminate|].
  destruct (Ascii.eqb a c); simpl; [lia|exact IH].
Qed.

Lemma contains_strip_clean (p : ascii -> bool) (a : ascii) (s : string) :
  contains a s = false -> contains a (strip_by p s) = false.
Proof.
  intros H. destruct (contains a (strip_by p s)) eqn:E; [|reflexivity].
  apply contains_strip_by in E. congruence.
Qed.

(** X11. A literal list has exactly one more item than its normalised
    source has commas, so at least two; every item is a string that is
    already trimmed and contains no comma. Both backends return the same
    items. *)
Theorem literal_list_items_are_trimmed_pieces :
  forall (formula1 : string),
    is_literal_list (normalize formula1) = true ->
    exists pieces : list string,
      (forall CellRange wb ws,
          Openpyxl._resolve_validation_list_items CellRange wb ws (Some formula1)
          = Some (map PStr pieces))
      /\ (forall self,
          Xlwings._resolve_validation_list_items self (Some formula1)
          = Some (map PStr pieces))
      /\ List.length pieces
         = S (List.length (filter (Ascii.eqb ","%char)
                                  (list_ascii_of_string (normalize formula1))))
      /\ (2 <= List.length pieces)%nat
      /\ (forall p, In p pieces -> strip p = p /\ contains ","%char p = false).
Proof.
  intros formula1 H.
  pose proof (literal_not_blank _ H) as Hb.
  exists (map strip (split ","%char (normalize formula1))).
  assert (Hlen : List.length (map strip (split ","%char (normalize formula1)))
                 = S (List.length (filter (Ascii.eqb ","%char)
                                     (list_ascii_of_string (normalize formula1))))).
  { rewrite length_map. apply split_length. }
  split; [|split; [|split; [|split]]].
  - intros. unfold Openpyxl._resolve_validation_list_items. rewrite Hb, H.
    unfold literal_items. rewrite map_map. reflexivity.
  - intros. unfold Xlwings._resolve_validation_list_items. rewrite Hb, H.
    unfold literal_items. rewrite map_map. reflexivity.
  - exact Hlen.
  - rewrite Hlen. unfold is_literal_list in H.
    destruct (contains ","%char (normalize formula1)) eqn:Hc; [|discriminate].
    pose proof (contains_count _ _ Hc). lia.
  - intros p Hp. apply in_map_iff in Hp. destruct Hp as (q & <- & Hq). split.
    + apply strip_by_idempotent.
    + apply contains_strip_clean. apply (split_pieces_clean _ _ _ Hq).
Qed.

Lemma literal_list_items_witness :
  is_literal_list (normalize "= Low ,Medium,  High ") = true
  /\ exists pieces : list string,
      Xlwings._resolve_validation_list_items x_self (Some "= Low ,Medium,  High ")
      = Some (map PStr pieces)
      /\ List.length pieces = 3%nat.
Proof.
  split; [reflexivity|].
  destruct (literal_list_items_are_trimmed_pieces "= Low ,Medium,  High " eq_refl)
    as (pieces & _ & Hx & Hlen & _).
  exists pieces. split; [apply Hx | exact Hlen].
Defined.

(** *** Structured references in the file-parsing backend *)

Lemma comprehension_getattr_value (l : list pyval) (vals : list pyval) :
  Openpyxl.comprehension Openpyxl.getattr_value l = Ok vals -> vals = [].
Proof.
  destruct l as [|x l]; simpl; [|discriminate].
  intros H. inversion H. reflexivity.
Qed.

Lemma openpyxl_table_column_on_sheet_empty
    (CellRange : string -> Result Openpyxl.CellRange_t) (ws : Openpyxl.Worksheet)
    (table_name col_name : string) (flat : list pyval) :
  Openpyxl.table_column_on_sheet CellRange ws table_name col_name = Ok (Some flat) ->
  flat = [].
Proof.
  unfold Openpyxl.table_column_on_sheet.
  destruct (dict_get table_name (Openpyxl.tables ws)) as [tbl|]; [|discriminate].
  destruct (CellRange (Openpyxl.tbl_ref tbl)) as [cr|e]; [|discriminate]. cbn [bind].
  destruct (Openpyxl.next _) as [headers|e]; [|discriminate]. cbn [bind].
  destruct (existsb (str_eq_val col_name) headers); [|discriminate].
  destruct (Openpyxl.comprehension _ _) as [vals|e] eqn:E; [|discriminate]. cbn [bind].
  apply comprehension_getattr_value in E. subst vals.
  intros H. inversion H. reflexivity.
Qed.

Lemma openpyxl_table_column_sheets_empty
    (CellRange : string -> Result Openpyxl.CellRange_t) (wss : list Openpyxl.Worksheet)
    (table_name col_name : string) (flat : list pyval) :
  Openpyxl.table_column_sheets CellRange wss table_name col_name = Some flat ->
  flat = [].
Proof.
  induction wss as [|ws wss IH]; cbn [Openpyxl.table_column_sheets]; [discriminate|].
  destruct (Openpyxl.table_column_on_sheet CellRange ws table_name col_name)
    as [[f|]|e] eqn:E; [|exact IH|exact IH].
  intros H. inversion H; subst. apply (openpyxl_table_column_on_sheet_empty _ _ _ _ E).
Qed.

Lemma openpyxl_table_column_empty
    (CellRange : string -> Result Openpyxl.CellRange_t) (wb : Openpyxl.Workbook)
    (ref : string) (vals : list pyval) :
  Openpyxl._resolve_table_column CellRange wb ref = Some vals -> vals = [].
Proof.
  unfold Openpyxl._resolve_table_column.
  destruct (negb (contains "["%char ref) || negb (contains "]"%char ref));
    [discriminate|].
  destruct (index (split1 "["%char ref) 0) as [t|e]; [|discriminate]. cbn [bind].
  destruct (index (split1 "["%char ref) 1) as [a|e]; [|discriminate]. cbn [bind].
  destruct (index (split1 "]"%char a) 0) as [c|e]; [|discriminate].
  cbn [bind try_except]. apply openpyxl_table_column_sheets_empty.
Qed.

(** X12. The structured-reference lookup of the file-parsing backend never
    returns a value of a table: whenever it returns a list, the list is
    empty. So for a source with both brackets the resolver returns either
    the empty list or what the range and named-range branches give. *)
Theorem openpyxl_table_column_is_never_filled :
  forall (CellRange : string -> Result Openpyxl.CellRange_t) (wb : Openpyxl.Workbook),
    (forall ref vals,
        Openpyxl._resolve_table_column CellRange wb ref = Some vals -> vals = [])
    /\ (forall ws formula1,
        has_brackets (normalize formula1) = true ->
        Openpyxl._resolve_validation_list_items CellRange wb ws (Some formula1) = Some []
        \/ Openpyxl._resolve_validation_list_items CellRange wb ws (Some formula1)
           = Openpyxl.resolve_range_or_name CellRange wb ws (normalize formula1)).
Proof.
  intros CellRange wb. split.
  - intros ref vals. apply openpyxl_table_column_empty.
  - intros ws formula1 H.
    unfold Openpyxl._resolve_validation_list_items.
    rewrite (brackets_not_blank _ H), (brackets_not_literal _ H), H.
    destruct (Openpyxl._resolve_table_column CellRange wb (normalize formula1))
      as [vals|] eqn:E.
    + left. rewrite (openpyxl_table_column_empty _ _ _ E). reflexivity.
    + right. reflexivity.
Qed.

Lemma openpyxl_table_column_witness :
  Openpyxl._resolve_table_column Standin.CellRange o_book_tables "Empty[Col]" = Some []
  /\ has_brackets (normalize "=Table1[Col]") = true
  /\ Openpyxl._resolve_validation_list_items Standin.CellRange o_book_tables
       o_sheet_tables (Some "=Table1[Col]") = None.
Proof.
  split; [|split; [reflexivity|]].
  - destruct (Openpyxl._resolve_table_column Standin.CellRange o_book_tables "Empty[Col]")
      as [vals|] eqn:E; [|discriminate E].
    rewrite (proj1 (openpyxl_table_column_is_never_filled Standin.CellRange o_book_tables)
               "Empty[Col]" vals E).
    reflexivity.
  - destruct (proj2 (openpyxl_table_column_is_never_filled Standin.CellRange o_book_tables)
                o_sheet_tables "=Table1[Col]" eq_refl) as [H|H].
    + discriminate H.
    + rewrite H. reflexivity.
Defined.

(** *** Defined names *)

(** X13. A defined name of the file-parsing backend is resolved through
    its destinations in order. A first destination whose range parses
    decides; one whose range does not parse is passed over; but one whose
    sheet is not in the workbook ends the lookup with no result, whatever
    the later destinations are. *)
Theorem openpyxl_name_destinations_in_order :
  forall (CellRange : string -> Result Openpyxl.CellRange_t) (wb : Openpyxl.Workbook)
         (name : string) (dn : Openpyxl.DefinedName) (sheet coord : string)
         (rest : list (string * string)),
    dict_get name (Openpyxl.defined_names wb) = Some dn ->
    Openpyxl.destinations dn = (sheet, coord) :: rest ->
    match Openpyxl.wb_getitem wb sheet with
    | Raise _ => Openpyxl._resolve_named_range CellRange wb name = None
    | Ok ws =>
        match CellRange coord with
        | Ok _ =>
            Openpyxl._resolve_named_range CellRange wb name
            = Openpyxl._values_from_range CellRange ws coord
            /\ Openpyxl._values_from_range CellRange ws coord <> None
        | Raise _ =>
            Openpyxl._resolve_named_range CellRange wb name
            = try_except (Openpyxl.named_range_destinations CellRange wb rest) None
        end
    end.
Proof.
  intros CellRange wb name dn sheet coord rest Hdn Hdest.
  unfold Openpyxl._resolve_named_range. rewrite Hdn, Hdest.
  cbn [Openpyxl.named_range_destinations].
  destruct (Openpyxl.wb_getitem wb sheet) as [ws|e]; [|reflexivity]. cbn [bind].
  unfold Openpyxl._values_from_range.
  destruct (CellRange coord) as [cr|e].
  - split; [reflexivity|discriminate].
  - reflexivity.
Qed.

Lemma openpyxl_name_destinations_witness :
  Openpyxl._resolve_named_range Standin.CellRange o_book_missing_sheet "Both" = None
  /\ Openpyxl._resolve_named_range Standin.CellRange o_book_missing_sheet "Later"
     = Some [PInt 10; PNone; PInt 30].
Proof.
  split.
  - exact (@openpyxl_name_destinations_in_order Standin.CellRange o_book_missing_sheet
             "Both" _ "Gone" "$A$1:$A$3" _ eq_refl eq_refl).
  - rewrite (@openpyxl_name_destinations_in_order Standin.CellRange o_book_missing_sheet
               "Later" _ "Sheet1" "A:A" _ eq_refl eq_refl).
    reflexivity.
Defined.

Lemma xlwings_named_range_skip_prefix
    (self : Xlwings.Extractor) (wb : Xlwings.Book) (target : string)
    (pre rest : list Xlwings.Name) :
  Forall (fun nm => match Xlwings.nonempty (Xlwings.nm_name nm) with
                    | Some n => Xlwings.same_name n target = false
                    | None => True
                    end) pre ->
  Xlwings.named_range_names self wb target (pre ++ rest)%list
  = Xlwings.named_range_names self wb target rest.
Proof.
  induction 1 as [|nm pre Hnm _ IH]; [reflexivity|].
  cbn [List.app Xlwings.named_range_names].
  destruct (Xlwings.nonempty (Xlwings.nm_name nm)) as [n|]; [|exact IH].
  rewrite Hnm. exact IH.
Qed.

(** X14. In the live backend the first defined name that matches the
    wanted name up to case and spaces, and refers to a range, decides the
    result: the values of that range when it can be read, and no result
    otherwise. Names that come earlier and do not match are passed over;
    names that come later are never consulted. *)
Theorem xlwings_first_matching_name_decides :
  forall (self : Xlwings.Extractor) (wb : Xlwings.Book) (name n refers_to : string)
         (pre post : list Xlwings.Name) (nm : Xlwings.Name),
    Xlwings.workbook self = Some wb ->
    Xlwings.names wb = (pre ++ nm :: post)%list ->
    Forall (fun nm' => match Xlwings.nonempty (Xlwings.nm_name nm') with
                       | Some n' => Xlwings.same_name n' (strip_char SQUOTE (strip name)) = false
                       | None => True
                       end) pre ->
    Xlwings.nm_name nm = Some n -> n <> "" ->
    Xlwings.same_name n (strip_char SQUOTE (strip name)) = true ->
    Xlwings.nm_refers_to nm = Some refers_to -> refers_to <> "" ->
    is_range_like (strip_equals refers_to) = true ->
    Xlwings._try_resolve_named_range self name
    = match Xlwings.named_range_target self wb (strip_equals refers_to) with
      | Ok t => Xlwings._values_from_range_on_sheet (fst t) (snd t)
      | Raise _ => None
      end.
Proof.
  intros self wb name n refers_to pre post nm Hwb Hnames Hpre Hn Hne Hsame Hr Hre Hrange.
  unfold Xlwings._try_resolve_named_range, Xlwings.the_workbook.
  rewrite Hwb. cbn [bind]. rewrite Hnames.
  rewrite (@xlwings_named_range_skip_prefix self wb _ pre (nm :: post) Hpre).
  cbn [Xlwings.named_range_names]. rewrite Hn, Hr. unfold Xlwings.nonempty.
  apply String.eqb_neq in Hne. apply String.eqb_neq in Hre.
  rewrite Hne, Hre, Hsame, Hrange.
  destruct (Xlwings.named_range_target self wb (strip_equals refers_to)); reflexivity.
Qed.

Lemma xlwings_first_matching_name_witness :
  Xlwings._try_resolve_named_range x_self_names "myrange" = Some [PInt 10; PInt 30].
Proof.
  rewrite (@xlwings_first_matching_name_decides x_self_names x_book_names
             "myrange" "My Range" "=Sheet1!$A$1:$A$3"
             [ {| Xlwings.nm_name := Some "Other";
                  Xlwings.nm_refers_to := Some "=Sheet1!$B$2:$B$3" |};
               {| Xlwings.nm_name := None;
                  Xlwings.nm_refers_to := Some "=Sheet1!$B$2:$B$3" |} ]
             [ {| Xlwings.nm_name := Some "MYRANGE";
                  Xlwings.nm_refers_to := Some "=Sheet1!$B$2:$B$3" |} ]
             {| Xlwings.nm_name := Some "My Range";
                Xlwings.nm_refers_to := Some "=Sheet1!$A$1:$A$3" |}).
  - reflexivity.
  - reflexivity.
  - reflexivity.
  - repeat constructor.
  - reflexivity.
  - discriminate.
  - reflexivity.
  - reflexivity.
  - discriminate.
  - reflexivity.
Defined.

(** *** Nulls in the live backend *)

Lemma xlwings_values_from_range_no_None (sheet : option Xlwings.Sheet) (addr : string)
    (vals : list pyval) :
  Xlwings._values_from_range_on_sheet sheet addr = Some vals -> ~ In PNone vals.
Proof.
  unfold Xlwings._values_from_range_on_sheet.
  destruct sheet as [sh|]; [|discriminate].
  destruct (Xlwings.range_value sh addr) as [v|e]; [|discriminate].
  intros H. inversion H. apply flatten_to_list_no_None.
Qed.

Lemma xlwings_table_column_on_object_no_None (ws : Xlwings.Sheet) (lo : Xlwings.ListObject)
    (table_name col_name : string) (vals : list pyval) :
  Xlwings.table_column_on_object ws lo table_name col_name = Some vals -> ~ In PNone vals.
Proof.
  unfold Xlwings.table_column_on_object.
  destruct (match Xlwings.lo_Name lo with Some n => String.eqb n table_name | None => false end);
    [|discriminate].
  destruct (Xlwings.data_body_address lo col_name) as [addr|e]; [|discriminate].
  destruct (Xlwings.nonempty addr) as [a|]; [|discriminate].
  destruct (Xlwings.range_value ws a) as [v|e]; [|discriminate].
  intros H. inversion H. apply flatten_to_list_no_None.
Qed.

Lemma xlwings_table_column_objects_no_None (ws : Xlwings.Sheet)
    (los : list (Result Xlwings.ListObject)) (table_name col_name : string)
    (vals : list pyval) :
  Xlwings.table_column_objects ws los table_name col_name = Ok (Some vals) ->
  ~ In PNone vals.
Proof.
  induction los as [|item los IH]; cbn [Xlwings.table_column_objects]; [discriminate|].
  destruct item as [lo|e]; [|discriminate]. cbn [bind].
  destruct (Xlwings.table_column_on_object ws lo table_name col_name) as [v|] eqn:E;
    [|exact IH].
  intros H. inversion H; subst.
  apply (xlwings_table_column_on_object_no_None _ _ _ _ E).
Qed.

Lemma xlwings_table_column_sheets_no_None (wss : list Xlwings.Sheet)
    (table_name col_name : string) (vals : list pyval) :
  Xlwings.table_column_sheets wss table_name col_name = Some vals -> ~ In PNone vals.
Proof.
  induction wss as [|ws wss IH]; cbn [Xlwings.table_column_sheets]; [discriminate|].
  destruct (Xlwings.ListObjects ws) as [los|e]; cbn [bind]; [|exact IH].
  destruct (Xlwings.table_column_objects ws los table_name col_name) as [[v|]|e] eqn:E;
    [|exact IH|exact IH].
  intros H. inversion H; subst.
  apply (xlwings_table_column_objects_no_None _ _ _ _ E).
Qed.

Lemma xlwings_table_column_no_None (self : Xlwings.Extractor) (ref : string)
    (vals : list pyval) :
  Xlwings._try_resolve_table_column self ref = Some vals -> ~ In PNone vals.
Proof.
  unfold Xlwings._try_resolve_table_column.
  destruct (has_brackets (strip_char SQUOTE (strip ref))); [|discriminate].
  destruct (index _ 0) as [t|e]; [|discriminate]. cbn [bind].
  destruct (index _ 1) as [a|e]; [|discriminate]. cbn [bind].
  destruct (index _ 0) as [c|e]; [|discriminate]. cbn [bind].
  destruct (Xlwings.the_workbook self) as [wb|e]; [|discriminate].
  cbn [bind try_except]. apply xlwings_table_column_sheets_no_None.
Qed.

Lemma xlwings_evaluate_on_sheets_no_None (self : Xlwings.Extractor) (f : string)
    (wss : list Xlwings.Sheet) (vals : list pyval) :
  Xlwings.evaluate_on_sheets self f wss = Some vals -> ~ In PNone vals.
Proof.
  induction wss as [|ws wss IH]; cbn [Xlwings.evaluate_on_sheets]; [discriminate|].
  destruct (Xlwings.nonempty _) as [addr|]; [|exact IH].
  destruct (Xlwings.range_value ws addr) as [v|e]; [|exact IH].
  intros H. inversion H. apply flatten_to_list_no_None.
Qed.

Lemma xlwings_named_range_names_no_None (self : Xlwings.Extractor) (wb : Xlwings.Book)
    (target : string) (nms : list Xlwings.Name) (vals : list pyval) :
  Xlwings.named_range_names self wb target nms = Ok (Some vals) -> ~ In PNone vals.
Proof.
  induction nms as [|nm nms IH]; cbn [Xlwings.named_range_names]; [discriminate|].
  destruct (Xlwings.nonempty (Xlwings.nm_name nm)) as [n|]; [|exact IH].
  destruct (Xlwings.same_name n target); [|exact IH].
  destruct (Xlwings.nonempty (Xlwings.nm_refers_to nm)) as [r|]; [|exact IH].
  destruct (is_range_like (strip_equals r)).
  - destruct (Xlwings.named_range_target self wb (strip_equals r)) as [t|e];
      [|discriminate]. cbn [bind].
    intros H. inversion H as [E]. apply (xlwings_values_from_range_no_None _ _ E).
  - destruct (Xlwings.evaluate_on_sheets self (strip_equals r) (Xlwings.sheets wb))
      as [v|] eqn:E; [|exact IH].
    intros H. inversion H; subst. apply (xlwings_evaluate_on_sheets_no_None _ _ _ E).
Qed.

Lemma xlwings_named_range_no_None (self : Xlwings.Extractor) (name : string)
    (vals : list pyval) :
  Xlwings._try_resolve_named_range self name = Some vals -> ~ In PNone vals.
Proof.
  unfold Xlwings._try_resolve_named_range.
  destruct (Xlwings.the_workbook self) as [wb|e]; [|discriminate]. cbn [bind].
  destruct (Xlwings.named_range_names self wb _ (Xlwings.names wb)) as [r|e] eqn:E;
    [|discriminate].
  cbn [try_except]. intros ->. apply (xlwings_named_range_names_no_None _ _ _ _ E).
Qed.

Lemma xlwings_range_or_name_no_None (self : Xlwings.Extractor) (f : string)
    (vals : list pyval) :
  Xlwings.resolve_range_or_name self f = Some vals -> ~ In PNone vals.
Proof.
  unfold Xlwings.resolve_range_or_name.
  assert (Hrest :
    match Xlwings._try_resolve_named_range self f with
    | Some named_vals => Some named_vals
    | None => Xlwings.last_resort self f
    end = Some vals -> ~ In PNone vals).
  { destruct (Xlwings._try_resolve_named_range self f) as [v|] eqn:E.
    - intros H. inversion H; subst. apply (xlwings_named_range_no_None _ _ E).
    - unfold Xlwings.last_resort.
      destruct (Xlwings.nonempty _) as [addr|]; [|discriminate].
      apply xlwings_values_from_range_no_None. }
  destruct (is_range_like f); [|exact Hrest].
  destruct (Xlwings.range_target self f) as [t|e]; [|discriminate]. cbn [bind].
  destruct (Xlwings._values_from_range_on_sheet (fst t) (snd t)) as [v|] eqn:E;
    [|exact Hrest].
  intros H. inversion H; subst. apply (xlwings_values_from_range_no_None _ _ E).
Qed.

(** X15. Whatever the validation source and whichever branch resolves it,
    the list of items returned by the live backend contains no null. *)
Theorem xlwings_items_contain_no_null :
  forall (self : Xlwings.Extractor) (formula1 : option string) (vals : list pyval),
    Xlwings._resolve_validation_list_items self formula1 = Some vals ->
    ~ In PNone vals.
Proof.
  intros self formula1 vals. unfold Xlwings._resolve_validation_list_items.
  destruct formula1 as [formula1|]; [|discriminate].
  destruct (String.eqb formula1 ""); [discriminate|].
  destruct (is_literal_list (normalize formula1)).
  - intros H. inversion H. unfold literal_items. intros Hin.
    apply in_map_iff in Hin. destruct Hin as (s & Hs & _). discriminate.
  - destruct (if has_brackets (normalize formula1)
              then Xlwings._try_resolve_table_column self (normalize formula1)
              else None) as [v|] eqn:E.
    + intros H. inversion H; subst.
      destruct (has_brackets (normalize formula1)); [|discriminate].
      apply (xlwings_table_column_no_None _ _ E).
    + apply xlwings_range_or_name_no_None.
Qed.

Lemma xlwings_items_witness :
  Xlwings._resolve_validation_list_items x_self (Some "=Sheet1!$A$1:$A$3")
    = Some [PInt 10; PInt 30]
  /\ ~ In PNone [PInt 10; PInt 30].
Proof.
  split; [reflexivity|].
  apply (@xlwings_items_contain_no_null x_self (Some "=Sheet1!$A$1:$A$3")).
  reflexivity.
Defined.

(** *** Ranges in the file-parsing backend *)

Lemma nth_error_concat_uniform {A} (n : nat) (ll : list (list A)) (i j : nat) :
  Forall (fun l => List.length l = n) ll -> (j < n)%nat ->
  nth_error (List.concat ll) (i * n + j)
  = match nth_error ll i with
    | Some l => nth_error l j
    | None => None
    end.
Proof.
  intros Hll Hj. revert i. induction Hll as [|l ll Hl _ IH]; intros i.
  - cbn [List.concat]. rewrite !nth_error_nil. reflexivity.
  - destruct i as [|i]; simpl.
    + rewrite nth_error_app1 by lia. reflexivity.
    + rewrite nth_error_app2 by lia.
      replace (n + i * n + j - List.length l)%nat with (i * n + j)%nat by lia.
      apply IH.
Qed.

Lemma length_concat_uniform {A} (n : nat) (ll : list (list A)) :
  Forall (fun l => List.length l = n) ll ->
  List.length (List.concat ll) = (List.length ll * n)%nat.
Proof.
  induction 1 as [|l ll Hl _ IH]; simpl; [reflexivity|].
  rewrite length_app, IH, Hl. reflexivity.
Qed.

Lemma length_zrange (lo hi : Z) : List.length (zrange lo hi) = Z.to_nat (hi + 1 - lo).
Proof. unfold zrange. rewrite length_map, length_seq. reflexivity. Qed.

Lemma nth_error_zrange (lo hi : Z) (i : nat) :
  (i < Z.to_nat (hi + 1 - lo))%nat -> nth_error (zrange lo hi) i = Some (lo + Z.of_nat i).
Proof.
  intros H. unfold zrange. rewrite nth_error_map.
  rewrite nth_error_seq. destruct (Nat.ltb_spec i (Z.to_nat (hi + 1 - lo))); [|lia].
  reflexivity.
Qed.

(** X16. A range that parses resolves, in the file-parsing backend, to
    every cell of the rectangle in row-major order: the list has rows
    times columns entries and entry [i * columns + j] is the value of the
    cell in row [min_row + i] and column [min_col + j], empty cells
    included. *)
Theorem openpyxl_range_is_the_whole_rectangle :
  forall (CellRange : string -> Result Openpyxl.CellRange_t) (ws : Openpyxl.Worksheet)
         (ref : string) (cr : Openpyxl.CellRange_t),
    CellRange ref = Ok cr ->
    (forall r c l, Openpyxl.cell_value ws r c <> PList l) ->
    let rows := Z.to_nat (Openpyxl.max_row cr + 1 - Openpyxl.min_row cr) in
    let cols := Z.to_nat (Openpyxl.max_col cr + 1 - Openpyxl.min_col cr) in
    exists vals,
      Openpyxl._values_from_range CellRange ws ref = Some vals
      /\ List.length vals = (rows * cols)%nat
      /\ forall i j, (i < rows)%nat -> (j < cols)%nat ->
           nth_error vals (i * cols + j)
           = Some (Openpyxl.cell_value ws (Openpyxl.min_row cr + Z.of_nat i)
                                          (Openpyxl.min_col cr + Z.of_nat j)).
Proof.
  intros CellRange ws ref cr Hcr Hscalar rows cols.
  eexists. split; [apply (openpyxl_values_from_range_row_major _ _ _ Hcr Hscalar)|].
  assert (Huni : Forall (fun l : list pyval => List.length l = cols)
            (map (fun r => map (fun c => Openpyxl.cell_value ws r c)
                               (zrange (Openpyxl.min_col cr) (Openpyxl.max_col cr)))
                 (zrange (Openpyxl.min_row cr) (Openpyxl.max_row cr)))).
  { apply Forall_forall. intros row Hrow. apply in_map_iff in Hrow.
    destruct Hrow as (r & <- & _). rewrite length_map. apply length_zrange. }
  split.
  - rewrite (length_concat_uniform Huni), length_map, length_zrange. reflexivity.
  - intros i j Hi Hj.
    rewrite (nth_error_concat_uniform i Huni Hj).
    rewrite nth_error_map, (nth_error_zrange _ _ Hi). cbn [option_map].
    rewrite nth_error_map, (nth_error_zrange _ _ Hj). reflexivity.
Qed.

Lemma openpyxl_range_rectangle_witness :
  exists vals,
    Openpyxl._values_from_range Standin.CellRange o_sheet1 "A1:B3" = Some vals
    /\ List.length vals = 6%nat
    /\ nth_error vals 4 = Some (PInt 30).
Proof.
  assert (Hs : forall r c l, Openpyxl.cell_value o_sheet1 r c <> PList l).
  { intros r c l. simpl.
    destruct ((c =? 1) && (r =? 1)); [discriminate|].
    destruct ((c =? 1) && (r =? 3)); discriminate. }
  destruct (@openpyxl_range_is_the_whole_rectangle Standin.CellRange o_sheet1 "A1:B3"
              _ eq_refl Hs) as (vals & Hv & Hlen & Hnth).
  exists vals. split; [exact Hv|]. split; [exact Hlen|].
  apply (Hnth 2%nat 0%nat); simpl; lia.
Defined.

End ResolverMoreFacts.

(** ** More on column letters and dependencies *)

Section AddressMoreFacts.
Import PyStr ColumnLetter Dependencies.

Lemma column_to_letter_loop_step (n : Z) (res : string) :
  0 < n ->
  column_to_letter_loop n res
  = column_to_letter_loop ((n - 1) / 26) (String (chr (65 + (n - 1) mod 26)) res).
Proof.
  intros Hn. rewrite column_to_letter_loop_equation_1.
  destruct (Z_gt_dec n 0) as [Hpos|Hz]; cbn [column_to_letter_loop_unfold_clause_1];
    [reflexivity|lia].
Qed.

Lemma column_to_letter_loop_stop (n : Z) (res : string) :
  n <= 0 -> column_to_letter_loop n res = res.
Proof.
  intros Hn. rewrite column_to_letter_loop_equation_1.
  destruct (Z_gt_dec n 0) as [Hpos|Hz]; cbn [column_to_letter_loop_unfold_clause_1];
    [lia|reflexivity].
Qed.

Lemma quotient_range (n lo hi : Z) :
  26 * lo + 1 <= n <= 26 * hi + 26 -> lo <= (n - 1) / 26 <= hi.
Proof.
  intros H. split.
  - apply Z.div_le_lower_bound; lia.
  - apply Z.lt_succ_r. apply Z.div_lt_upper_bound; lia.
Qed.

Lemma column_letter_one (n : Z) (res : string) :
  1 <= n <= 26 ->
  String.length (column_to_letter_loop n res) = S (String.length res).
Proof.
  intros H. rewrite column_to_letter_loop_step by lia.
  pose proof (@quotient_range n 0 0 ltac:(lia)).
  rewrite column_to_letter_loop_stop by lia. reflexivity.
Qed.

Lemma column_letter_two (n : Z) (res : string) :
  27 <= n <= 702 ->
  String.length (column_to_letter_loop n res) = S (S (String.length res)).
Proof.
  intros H. rewrite column_to_letter_loop_step by lia.
  pose proof (@quotient_range n 1 26 ltac:(lia)).
  rewrite column_letter_one by lia. reflexivity.
Qed.

Lemma column_letter_three (n : Z) (res : string) :
  703 <= n <= 18278 ->
  String.length (column_to_letter_loop n res) = S (S (S (String.length res))).
Proof.
  intros H. rewrite column_to_letter_loop_step by lia.
  pose proof (@quotient_range n 27 702 ltac:(lia)).
  rewrite column_letter_two by lia. reflexivity.
Qed.

(** X17. Column letters: a number that is not positive gives the empty
    string; the numbers 1 to 26 give one letter, 27 to 702 two letters and
    703 to 18278 three letters; and two different positive numbers never
    give the same letters. *)
Theorem column_letters_length_and_injectivity :
  (forall n, n <= 0 -> _column_to_letter n = "")
  /\ (forall n, 1 <= n <= 26 -> String.length (_column_to_letter n) = 1%nat)
  /\ (forall n, 27 <= n <= 702 -> String.length (_column_to_letter n) = 2%nat)
  /\ (forall n, 703 <= n <= 18278 -> String.length (_column_to_letter n) = 3%nat)
  /\ (forall m n, 1 <= m -> 1 <= n ->
        _column_to_letter m = _column_to_letter n -> m = n).
Proof.
  unfold _column_to_letter.
  split; [|split; [|split; [|split]]].
  - intros n Hn. apply column_to_letter_loop_stop. exact Hn.
  - intros n Hn. apply (@column_letter_one n "" Hn).
  - intros n Hn. apply (@column_letter_two n "" Hn).
  - intros n Hn. apply (@column_letter_three n "" Hn).
  - intros m n Hm Hn E.
    pose proof (@column_to_letter_loop_inverse m "" ltac:(lia)) as Im.
    pose proof (@column_to_letter_loop_inverse n "" ltac:(lia)) as In.
    rewrite E in Im. rewrite Im in In. exact In.
Qed.

Lemma column_letters_witness :
  _column_to_letter 0 = ""
  /\ String.length (_column_to_letter 26) = 1%nat
  /\ String.length (_column_to_letter 702) = 2%nat
  /\ String.length (_column_to_letter 16384) = 3%nat
  /\ (_column_to_letter 28 = _column_to_letter 28 -> 28 = 28).
Proof.
  destruct column_letters_length_and_injectivity as (H0 & H1 & H2 & H3 & H4).
  split; [apply H0; lia|]. split; [apply H1; lia|]. split; [apply H2; lia|].
  split; [apply H3; lia|]. apply H4; lia.
Defined.

(** Every list ends with a run of letters A-Z, possibly empty, before
    which there is no letter. *)
Lemma letter_suffix (a : list ascii) :
  exists a1 ls : list ascii,
    a = (a1 ++ ls)%list /\ Forall (fun c => is_AZ c = true) ls /\ no_letter_before a1.
Proof.
  induction a as [|x a IH] using rev_ind.
  - exists [], []. split; [reflexivity|]. split; [constructor|].
    intros p c E. destruct p; discriminate.
  - destruct (is_AZ x) eqn:Hx.
    + destruct IH as (a1 & ls & -> & Hls & Ha1).
      exists a1, (ls ++ [x])%list. split; [rewrite app_assoc; reflexivity|].
      split; [|exact Ha1].
      apply Forall_app. split; [exact Hls|]. constructor; [exact Hx|constructor].
    + exists (a ++ [x])%list, []. split; [rewrite app_nil_r; reflexivity|].
      split; [constructor|]. apply no_letter_before_snoc. exact Hx.
Qed.

Lemma adjacent_pair_gives_token (s a b : list ascii) (c d : ascii) :
  s = (a ++ c :: d :: b)%list -> is_AZ c = true -> is_digit d = true ->
  exists tok, maximal_token_of s tok.
Proof.
  intros -> Hc Hd.
  destruct (letter_suffix a) as (a1 & ls & -> & Hls & Ha1).
  pose proof (span_app is_digit (d :: b)) as Hsp.
  pose proof (span_all is_digit (d :: b)) as Hall.
  pose proof (span_stops is_digit (d :: b)) as Hst.
  assert (Hne : fst (span is_digit (d :: b)) <> []).
  { simpl. rewrite Hd. destruct (span is_digit b). discriminate. }
  set (ds := fst (span is_digit (d :: b))) in *.
  set (r := snd (span is_digit (d :: b))) in *.
  exists ((ls ++ [c]) ++ ds)%list. exists a1, r.
  split.
  - rewrite Hsp. rewrite <- !app_assoc. reflexivity.
  - split; [|split].
    + exists (ls ++ [c])%list, ds. split; [reflexivity|].
      split; [destruct ls; discriminate|]. split; [exact Hne|].
      split; [|exact Hall].
      apply Forall_app. split; [exact Hls|]. constructor; [exact Hc|constructor].
    + exact Ha1.
    + exact Hst.
Qed.

Lemma token_gives_adjacent_pair (s tok : list ascii) :
  maximal_token_of s tok ->
  exists a c d b, s = (a ++ c :: d :: b)%list /\ is_AZ c = true /\ is_digit d = true.
Proof.
  intros (a & b & -> & (ls & ds & -> & Hls & Hds & Fls & Fds) & _ & _).
  destruct (@exists_last _ ls Hls) as (p & c & ->).
  destruct ds as [|d ds]; [congruence|].
  exists (a ++ p)%list, c, d, (ds ++ b)%list. split.
  - rewrite <- !app_assoc. reflexivity.
  - apply Forall_app in Fls. destruct Fls as [_ Fc].
    inversion Fc; subst. inversion Fds; subst. split; assumption.
Qed.

Lemma findall_tokens (s tok : list ascii) :
  In tok (findall s) <-> maximal_token_of s tok.
Proof.
  apply (@findall_maximal_tokens (List.length s)).
  - apply Nat.le_refl.
  - left. intros p c E. destruct p; discriminate.
Qed.

Lemma dependencies_NoDup (formula : string) :
  NoDup (_parse_formula_dependencies formula).
Proof.
  unfold _parse_formula_dependencies, sorted, py_set.
  eapply Permutation_NoDup; [apply StringSort.Permuted_sort|].
  apply NoDup_nodup.
Qed.

(** X18. A formula has no dependency at all exactly when its upper-cased
    text nowhere has a letter A-Z directly followed by a digit. A formula
    that writes all its references in the absolute form, with a "$" before
    each row number, therefore has none. *)
Theorem no_dependency_without_letter_digit_pair :
  (forall formula : string,
      _parse_formula_dependencies formula = [] <->
      ~ exists a c d b,
          list_ascii_of_string (upper formula) = (a ++ c :: d :: b)%list
          /\ is_AZ c = true /\ is_digit d = true)
  /\ _parse_formula_dependencies "=$A$1*Rates!$B$2" = [].
Proof.
  split; [|vm_compute; reflexivity].
  intros formula. split.
  - intros Hnil (a & c & d & b & Hs & Hc & Hd).
    destruct (@adjacent_pair_gives_token _ a b c d Hs Hc Hd) as [tok Htok].
    assert (Hin : In (string_of_list_ascii tok) (_parse_formula_dependencies formula)).
    { unfold _parse_formula_dependencies. rewrite in_sorted_set, in_re_findall.
      rewrite list_ascii_of_string_of_list_ascii. apply findall_tokens. exact Htok. }
    rewrite Hnil in Hin. exact Hin.
  - intros Hno.
    destruct (_parse_formula_dependencies formula) as [|tok l] eqn:E; [reflexivity|].
    exfalso. apply Hno.
    assert (Hin : In tok (_parse_formula_dependencies formula)) by (rewrite E; left; reflexivity).
    unfold _parse_formula_dependencies in Hin.
    rewrite in_sorted_set, in_re_findall in Hin. apply findall_tokens in Hin.
    apply (token_gives_adjacent_pair Hin).
Qed.

End AddressMoreFacts.

(** ** More on the file-parsing backend *)

Section OpenpyxlMoreFacts.
Import PyStr Source Openpyxl OpenpyxlMore Examples ExamplesMore.

Lemma in_zrange (lo hi x : Z) : In x (zrange lo hi) -> lo <= x <= hi.
Proof.
  unfold zrange. intros H. apply in_map_iff in H. destruct H as (i & <- & Hi).
  apply in_seq in Hi. lia.
Qed.

Lemma collect_reported_spec (get_column_letter : Z -> Result string)
    (cells : list Cell) (out : list CellDetails) :
  collect_reported get_column_letter cells = Ok out ->
  Forall (fun info => exists cell, In cell cells
                        /\ _extract_cell_full_details get_column_letter cell = Ok info
                        /\ reported info = true) out
  /\ (List.length out <= List.length cells)%nat.
Proof.
  revert out. induction cells as [|cell cells IH]; intros out; cbn [collect_reported].
  - intros H. inversion H. split; [constructor|simpl; lia].
  - destruct (_extract_cell_full_details get_column_letter cell) as [info|e] eqn:E;
      [|discriminate]. cbn [bind].
    destruct (collect_reported get_column_letter cells) as [more|e]; [|discriminate].
    cbn [bind]. destruct (IH more eq_refl) as [HF Hlen].
    assert (HF' : Forall (fun info => exists cell0, In cell0 (cell :: cells)
                        /\ _extract_cell_full_details get_column_letter cell0 = Ok info
                        /\ reported info = true) more).
    { eapply Forall_impl; [|exact HF]. intros i (c0 & Hin & H1 & H2).
      exists c0. split; [right; exact Hin|]. split; assumption. }
    destruct (reported info) eqn:Hr; intros H; inversion H; subst; clear H.
    + split; [|simpl; lia]. constructor; [|exact HF'].
      exists cell. split; [left; reflexivity|]. split; assumption.
    + split; [exact HF'|simpl; lia].
Qed.

Lemma cell_details_fields (get_column_letter : Z -> Result string) (cell : Cell)
    (info : CellDetails) :
  _extract_cell_full_details get_column_letter cell = Ok info ->
  row info = cell_row cell /\ column info = cell_column cell
  /\ address info = coordinate cell
  /\ formula info = formula_of (cell_value_attr cell)
  /\ value info = (if truthy (formula_of (cell_value_attr cell)) then PNone
                   else cell_value_attr cell).
Proof.
  unfold _extract_cell_full_details, _column_to_letter.
  destruct (get_column_letter (cell_column cell)) as [l|e]; [|discriminate].
  cbn [bind]. intros H. inversion H; subst. repeat split; reflexivity.
Qed.

Lemma reported_kinds (v : pyval) :
  truthy (formula_of v)
  || (XlwingsMore.is_number (if truthy (formula_of v) then PNone else v)
      && XlwingsMore.is_nonzero (if truthy (formula_of v) then PNone else v)) = true ->
  (exists s, v = PStr s /\ startswith "="%char s = true
             /\ formula_of v = PStr s
             /\ (if truthy (formula_of v) then PNone else v) = PNone)
  \/ (formula_of v = PNone
      /\ (if truthy (formula_of v) then PNone else v) = v
      /\ XlwingsMore.is_number (if truthy (formula_of v) then PNone else v) = true
      /\ XlwingsMore.is_nonzero (if truthy (formula_of v) then PNone else v) = true).
Proof.
  destruct v as [ |b|z|s|l|l|d]; cbn [formula_of truthy orb]; intros H;
    try (right; apply andb_prop in H; destruct H as [H1 H2];
         split; [reflexivity|split; [reflexivity|split; assumption]]).
  destruct (startswith "="%char s) eqn:Hs; cbn [truthy] in *.
  - left. exists s. destruct (String.eqb s "") eqn:Hes.
    + apply String.eqb_eq in Hes. subst s. discriminate.
    + repeat split; try reflexivity; try exact Hs.
  - discriminate.
Qed.

(** X19. Every record that [extract_formulas_from_range] of the
    file-parsing backend returns describes a cell of the requested
    rectangle and is of one of two kinds: a formula cell, whose record
    carries the formula text and a null value, or a cell without formula
    whose value is a number other than zero. Text and empty cells are never
    returned, and there are at most as many records as cells. *)
Theorem openpyxl_range_reports_formulas_and_numbers :
  forall (CellRange : string -> Result CellRange_t)
         (get_column_letter : Z -> Result string) (coordinate_of : Z -> Z -> string)
         (ws : Worksheet) (start_cell : string) (end_cell : option string)
         (out : list CellDetails),
    extract_formulas_from_range CellRange get_column_letter coordinate_of ws
      start_cell end_cell = Ok out ->
    exists rng,
      CellRange (match end_cell with
                 | Some e => if String.eqb e "" then start_cell else start_cell ++ ":" ++ e
                 | None => start_cell
                 end) = Ok rng
      /\ (List.length out
          <= Z.to_nat (max_row rng + 1 - min_row rng)
             * Z.to_nat (max_col rng + 1 - min_col rng))%nat
      /\ Forall (fun info =>
           (min_row rng <= row info <= max_row rng
            /\ min_col rng <= column info <= max_col rng
            /\ address info = coordinate_of (row info) (column info))
           /\ ((exists s, cell_value ws (row info) (column info) = PStr s
                          /\ startswith "="%char s = true
                          /\ formula info = PStr s /\ value info = PNone)
               \/ (formula info = PNone
                   /\ value info = cell_value ws (row info) (column info)
                   /\ XlwingsMore.is_number (value info) = true
                   /\ XlwingsMore.is_nonzero (value info) = true))) out.
Proof.
  intros CellRange gcl coord ws start_cell end_cell out H.
  unfold extract_formulas_from_range in H.
  destruct (CellRange _) as [rng|e] eqn:Er; [|discriminate]. cbn [bind] in H.
  exists rng. split; [reflexivity|].
  destruct (collect_reported_spec _ _ H) as [HF Hlen].
  split.
  - eapply Nat.le_trans; [exact Hlen|]. unfold iter_cells.
    apply Nat.eq_le_incl.
    generalize (zrange (min_row rng) (max_row rng)) (length_zrange (min_row rng) (max_row rng)).
    intros rows <-.
    induction rows as [|r rows IH]; [reflexivity|].
    cbn [flat_map List.length]. rewrite length_app, length_map, length_zrange, IH.
    reflexivity.
  - eapply Forall_impl; [|exact HF]. intros info (cell & Hin & Hd & Hrep).
    destruct (cell_details_fields _ _ Hd) as (Hrow & Hcol & Haddr & Hform & Hval).
    unfold iter_cells in Hin. apply in_flat_map in Hin. destruct Hin as (r & Hr & Hin).
    apply in_map_iff in Hin. destruct Hin as (c & <- & Hc).
    cbn [cell_row cell_column coordinate cell_value_attr] in *.
    apply in_zrange in Hr. apply in_zrange in Hc.
    rewrite Hrow, Hcol. split; [split; [exact Hr|split; [exact Hc|exact Haddr]]|].
    unfold reported in Hrep. rewrite Hform, Hval in *.
    apply reported_kinds. exact Hrep.
Qed.

Lemma openpyxl_range_reports_witness :
  exists out,
    extract_formulas_from_range Standin.CellRange Standin.get_column_letter
      (fun r c => ColumnLetter._column_to_letter c ++ str_int r) o_sheet1 "A1" (Some "B3")
    = Ok out
    /\ List.length out = 2%nat
    /\ (List.length out <= 6)%nat.
Proof.
  eexists. split; [vm_compute; reflexivity|]. split; [reflexivity|].
  destruct (@openpyxl_range_reports_formulas_and_numbers Standin.CellRange
              Standin.get_column_letter
              (fun r c => ColumnLetter._column_to_letter c ++ str_int r) o_sheet1 "A1" (Some "B3")
              _ eq_refl) as (rng & Hr & Hlen & _).
  vm_compute in Hr. inversion Hr; subst rng. exact Hlen.
Defined.

Lemma dict_set_fresh {A} (k : string) (v : A) (d : list (string * A)) :
  ~ In k (map fst d) -> ConvertMore.dict_set k v d = (d ++ [(k, v)])%list.
Proof.
  induction d as [|[k0 v0] d IH]; simpl; [reflexivity|]. intros H.
  destruct (String.eqb k k0) eqn:E.
  - apply String.eqb_eq in E. exfalso. apply H. left. symmetry. exact E.
  - rewrite IH; [reflexivity|]. intros Hin. apply H. right. exact Hin.
Qed.

Lemma fold_dict_set_fresh {A} (f : string -> A) (keys : list string)
    (acc : list (string * A)) :
  NoDup (map fst acc ++ keys)%list ->
  fold_left (fun acc k => ConvertMore.dict_set k (f k) acc) keys acc
  = (acc ++ map (fun k => (k, f k)) keys)%list.
Proof.
  revert acc. induction keys as [|k keys IH]; intros acc Hnd; simpl.
  - rewrite app_nil_r. reflexivity.
  - rewrite dict_set_fresh.
    + rewrite IH.
      * rewrite <- app_assoc. reflexivity.
      * rewrite map_app. simpl. rewrite <- app_assoc. exact Hnd.
    + apply NoDup_remove_2 in Hnd. intros Hin. apply Hnd.
      apply in_or_app. left. exact Hin.
Qed.

Lemma dict_get_tabulate {A} (f : string -> A) (keys : list string) (k : string) :
  In k keys -> dict_get k (map (fun k => (k, f k)) keys) = Some (f k).
Proof.
  induction keys as [|k0 keys IH]; simpl; [tauto|].
  destruct (String.eqb k k0) eqn:E.
  - apply String.eqb_eq in E. subst. reflexivity.
  - intros [->|H]; [rewrite String.eqb_refl in E; discriminate|apply IH; exact H].
Qed.

(** X20. [extract_formula_dependencies] of the file-parsing backend: a
    cell that cannot be read makes the call fail; a cell that does not hold
    a formula gives the error record; and a formula cell gives a record
    whose dependency list is the parser's and whose [dependent_values] has
    exactly one entry per dependency, in the same order, each the value
    record of that cell or the marker "Could not access cell". *)
Theorem openpyxl_dependency_record_is_complete :
  forall (value_at : Worksheet -> string -> Result pyval) (ws : Worksheet)
         (cell_address : string),
    (forall e, value_at ws cell_address = Raise e ->
       extract_formula_dependencies value_at ws cell_address = Raise e)
    /\ (forall v, value_at ws cell_address = Ok v -> formula_of v = PNone ->
       extract_formula_dependencies value_at ws cell_address
       = Ok (PDict [("error", PStr "Cell does not contain a formula")]))
    /\ (forall f, value_at ws cell_address = Ok (PStr f) -> startswith "="%char f = true ->
       exists dv,
         extract_formula_dependencies value_at ws cell_address
         = Ok (PDict [("cell_address", PStr cell_address);
                      ("formula", PStr f);
                      ("dependencies",
                       PList (map PStr (Dependencies._parse_formula_dependencies f)));
                      ("dependent_values", PDict dv);
                      ("calculated_value", PNone)])
         /\ map fst dv = Dependencies._parse_formula_dependencies f
         /\ forall dep, In dep (Dependencies._parse_formula_dependencies f) ->
              dict_get dep dv
              = Some (match value_at ws dep with
                      | Ok v => PDict [("value", v); ("formula", formula_of v);
                                       ("address", PStr dep)]
                      | Raise _ => PDict [("error", PStr "Could not access cell")]
                      end)).
Proof.
  intros value_at ws addr. split; [|split].
  - intros e He. unfold extract_formula_dependencies. rewrite He. reflexivity.
  - intros v Hv Hf. unfold extract_formula_dependencies. rewrite Hv. cbn [bind].
    rewrite Hf. reflexivity.
  - intros f Hv Hs. unfold extract_formula_dependencies. rewrite Hv. cbn [bind].
    unfold formula_of. rewrite Hs.
    rewrite (@fold_dict_set_fresh _ (dependency_entry value_at ws)
               (Dependencies._parse_formula_dependencies f) []).
    + cbn [List.app]. eexists. split; [reflexivity|]. split.
      * rewrite map_map. cbn [fst]. apply map_id.
      * intros dep Hdep.
        rewrite (@dict_get_tabulate _ (dependency_entry value_at ws) _ dep Hdep).
        reflexivity.
    + cbn [map List.app]. apply dependencies_NoDup.
Qed.

Lemma openpyxl_dependency_record_witness :
  exists dv,
    extract_formula_dependencies o_value_at o_sheet_formula "C1"
    = Ok (PDict [("cell_address", PStr "C1");
                 ("formula", PStr "=A1+A3+ZZZZ9");
                 ("dependencies",
                  PList (map PStr (Dependencies._parse_formula_dependencies "=A1+A3+ZZZZ9")));
                 ("dependent_values", PDict dv);
                 ("calculated_value", PNone)])
    /\ map fst dv = Dependencies._parse_formula_dependencies "=A1+A3+ZZZZ9"
    /\ Dependencies._parse_formula_dependencies "=A1+A3+ZZZZ9" = ["A1"; "A3"; "ZZZZ9"]%string.
Proof.
  destruct (proj2 (proj2 (openpyxl_dependency_record_is_complete o_value_at
                            o_sheet_formula "C1")) "=A1+A3+ZZZZ9" eq_refl eq_refl)
    as (dv & H & Hk & _).
  exists dv. split; [exact H|]. split; [exact Hk|vm_compute; reflexivity].
Defined.

End OpenpyxlMoreFacts.

(** ** The two backends side by side, and the file map of the converter *)

Section CrossFacts.
Import PyStr Source Convert ConvertMore Examples ExamplesMore.

Lemma filter_not_None_twice (l : list pyval) :
  filter is_not_None (filter is_not_None l) = filter is_not_None l.
Proof.
  induction l as [|v l IH]; simpl; [reflexivity|].
  destruct (is_not_None v) eqn:E; simpl; [rewrite E, IH|]; auto.
Qed.

Lemma filter_flat_map {A B} (p : B -> bool) (f : A -> list B) (l : list A) :
  filter p (flat_map f l) = flat_map (fun x => filter p (f x)) l.
Proof.
  induction l as [|x l IH]; simpl; [reflexivity|].
  rewrite filter_app, IH. reflexivity.
Qed.

(** X21. The two backends flatten range values in the same way except for
    nulls: the live backend's result is the file-parsing backend's result
    with every null removed. They agree whenever the file-parsing result
    has no null, and the live result is never longer. *)
Theorem flatteners_differ_by_nulls_only :
  forall (vals : pyval),
    Xlwings._flatten_to_list vals
    = filter is_not_None (Openpyxl._flatten_values vals)
    /\ (List.length (Xlwings._flatten_to_list vals)
        <= List.length (Openpyxl._flatten_values vals))%nat
    /\ (~ In PNone (Openpyxl._flatten_values vals) ->
        Xlwings._flatten_to_list vals = Openpyxl._flatten_values vals).
Proof.
  intros vals.
  assert (E : Xlwings._flatten_to_list vals
              = filter is_not_None (Openpyxl._flatten_values vals)).
  { destruct vals as [ |b|z|s|l|l|d]; try reflexivity.
    cbn [Xlwings._flatten_to_list Openpyxl._flatten_values].
    rewrite filter_flat_map. apply flat_map_ext. intros row.
    destruct row as [ |b|z|s|r|r|d]; try reflexivity.
    symmetry. apply filter_not_None_twice. }
  split; [exact E|]. split.
  - rewrite E. apply filter_length_le.
  - intros Hno. rewrite E.
    apply forallb_filter_id. apply forallb_forall. intros v Hv.
    destruct v; try reflexivity. exfalso. apply Hno. exact Hv.
Qed.

Lemma flatteners_witness :
  ~ In PNone (Openpyxl._flatten_values (PList [PList [PInt 1; PNone]; PStr "a"]))
  /\ Xlwings._flatten_to_list (PList [PList [PInt 1; PNone]; PStr "a"])
     = Openpyxl._flatten_values (PList [PList [PInt 1; PNone]; PStr "a"]).
Proof.
  assert (H : ~ In PNone (Openpyxl._flatten_values
                            (PList [PList [PInt 1; PNone]; PStr "a"]))).
  { simpl. intros [H|[H|[]]]; discriminate. }
  split; [exact H|].
  apply (proj2 (proj2 (flatteners_differ_by_nulls_only
                         (PList [PList [PInt 1; PNone]; PStr "a"]))) H).
Defined.

Lemma keys_dict_set {A} (k : string) (v : A) (d : list (string * A)) (k' : string) :
  In k' (map fst (dict_set k v d)) <-> k' = k \/ In k' (map fst d).
Proof.
  induction d as [|[k0 v0] d IH]; simpl.
  - split; [intros [H|[]]; left; congruence|intros [H|[]]; left; congruence].
  - destruct (String.eqb k k0) eqn:E; simpl.
    + apply String.eqb_eq in E. subst k0. split.
      * intros [H|H]; [left; congruence|right; right; exact H].
      * intros [H|[H|H]]; [left; congruence|left; exact H|right; exact H].
    + rewrite IH. split.
      * intros [H|[H|H]]; [right; left; exact H|left; exact H|right; right; exact H].
      * intros [H|[H|H]]; [right; left; exact H|left; exact H|right; right; exact H].
Qed.

Lemma NoDup_dict_set {A} (k : string) (v : A) (d : list (string * A)) :
  NoDup (map fst d) -> NoDup (map fst (dict_set k v d)).
Proof.
  induction d as [|[k0 v0] d IH]; simpl; intros Hnd.
  - constructor; [tauto|constructor].
  - inversion Hnd as [|? ? Hnot Hrest]; subst.
    destruct (String.eqb k k0) eqn:E; simpl.
    + apply String.eqb_eq in E. subst k0. constructor; assumption.
    + constructor; [|apply IH; exact Hrest].
      rewrite keys_dict_set. intros [H|H]; [|contradiction].
      subst k0. rewrite String.eqb_refl in E. discriminate.
Qed.

Lemma length_dict_set {A} (k : string) (v : A) (d : list (string * A)) :
  (List.length (dict_set k v d) <= S (List.length d))%nat.
Proof.
  induction d as [|[k0 v0] d IH]; simpl; [lia|].
  destruct (String.eqb k k0); simpl; lia.
Qed.

Lemma convert_sheets_file_map (str : pyval -> string) (out_root : string)
    (sheets : list dict) :
  forall file_map fs file_map' fs',
    convert_sheets str out_root sheets file_map fs = Ok (file_map', fs') ->
    (NoDup (map fst file_map) -> NoDup (map fst file_map'))
    /\ (List.length file_map' <= List.length file_map + List.length sheets)%nat
    /\ (forall k, In k (map fst file_map') <->
          In k (map fst file_map)
          \/ exists e n, In e sheets /\ sheet_name_of e = Ok (PStr n)
                         /\ k = sanitize_filename n).
Proof.
  induction sheets as [|e sheets IH]; intros fm fs fm' fs'; cbn [convert_sheets].
  - intros H. inversion H; subst. split; [auto|]. split; [simpl; lia|].
    intros k. split; [auto|]. intros [H1|(e & n & [] & _)]. exact H1.
  - destruct (sheet_name_of e) as [nm|x] eqn:En; [|discriminate]. cbn [bind].
    destruct nm as [ |b|z|n|l|l|d]; try discriminate. cbn [as_str bind].
    destruct (typed_cells e) as [cells|x]; [|discriminate]. cbn [bind].
    destruct (write_sheet_csvs_on _ _ _ _ _) as [csv_files fs1].
    destruct (write_sheet_json _ _ _ _) as [json_file fs2].
    intros H. apply IH in H. destruct H as (Hnd & Hlen & Hkeys).
    split; [|split].
    + intros H0. apply Hnd. apply NoDup_dict_set. exact H0.
    + pose proof (length_dict_set (sanitize_filename n)
                    (csv_files ++ [("json", json_file)])%list fm).
      cbn [List.length]. lia.
    + intros k. rewrite Hkeys, keys_dict_set. split.
      * intros [[H|H]|(e' & n' & Hin & Hn' & Hk)].
        -- right. exists e, n. split; [left; reflexivity|]. split; assumption.
        -- left. exact H.
        -- right. exists e', n'. split; [right; exact Hin|]. split; assumption.
      * intros [H|(e' & n' & [<-|Hin] & Hn' & Hk)].
        -- left. right. exact H.
        -- left. left. rewrite En in Hn'. inversion Hn'; subst. reflexivity.
        -- right. exists e', n'. split; [exact Hin|]. split; assumption.
Qed.

(** X22. The file map that [convert] builds for the index has one entry
    per sanitized sheet name: its keys are pairwise different and are
    exactly the sanitized names of the sheets. Sheets whose names sanitize
    to the same text therefore share one entry, the one of the last such
    sheet, and the map can be shorter than the sheet list. *)
Theorem file_map_has_one_entry_per_sanitized_name :
  forall (str : pyval -> string) (out_root : string) (sheets : list dict)
         (fs : Files) (file_map : list (string * list (string * string))) (fs' : Files),
    convert_sheets str out_root sheets [] fs = Ok (file_map, fs') ->
    NoDup (map fst file_map)
    /\ (List.length file_map <= List.length sheets)%nat
    /\ (forall k, In k (map fst file_map) <->
          exists e n, In e sheets /\ sheet_name_of e = Ok (PStr n)
                      /\ k = sanitize_filename n).
Proof.
  intros str out_root sheets fs fm fs' H.
  destruct (convert_sheets_file_map _ _ _ _ _ H) as (Hnd & Hlen & Hkeys).
  split; [apply Hnd; constructor|]. split; [exact Hlen|].
  intros k. rewrite Hkeys. split; [intros [[]|H0]; exact H0|intros H0; right; exact H0].
Qed.

Lemma file_map_witness :
  exists file_map fs',
    convert_sheets Standin.str "out"
      [ [("sheet", PDict [("name", PStr "A/B")])];
        [("sheet", PDict [("name", PStr "A:B")])] ] [] []
    = Ok (file_map, fs')
    /\ map fst file_map = ["A_B"]
    /\ NoDup (map fst file_map).
Proof.
  eexists. eexists. split; [vm_compute; reflexivity|]. split; [reflexivity|].
  eapply (fun fm fs' H =>
            proj1 (@file_map_has_one_entry_per_sanitized_name Standin.str "out"
                     [ [("sheet", PDict [("name", PStr "A/B")])];
                       [("sheet", PDict [("name", PStr "A:B")])] ] [] fm fs' H)).
  vm_compute. reflexivity.
Defined.

End CrossFacts.

(** ** Validations and the dropdown count *)

Section ValidationFacts.
Import PyStr Source Convert ConvertMore Validations Examples ExamplesMore.

Lemma dropdown_test (d : dict) :
  d <> [] ->
  is_dropdown (PDict [("data_validation", PDict d)])
  = Ok (str_eq_val "xlValidateList" (py_get "type_name" d)).
Proof.
  intros Hd. unfold is_dropdown, cell_get. cbn [as_dict bind].
  change (py_get "data_validation" [("data_validation", PDict d)]) with (PDict d).
  destruct d as [|kv d]; [congruence|]. reflexivity.
Qed.

Lemma dict_set_not_nil {A} (k : string) (v : A) (d : list (string * A)) :
  dict_set k v d <> [].
Proof.
  destruct d as [|[k0 v0] d]; simpl; [discriminate|].
  destruct (String.eqb k k0); discriminate.
Qed.

Lemma with_list_items_not_nil (r : option (list pyval)) (d : dict) :
  d <> [] -> with_list_items r d <> [].
Proof.
  intros Hd. destruct r as [l|]; [apply dict_set_not_nil|exact Hd].
Qed.

Lemma py_get_with_list_items (k : string) (r : option (list pyval)) (d : dict) :
  k <> "list_items" -> py_get k (with_list_items r d) = py_get k d.
Proof.
  intros Hk. destruct r as [l|]; [|reflexivity].
  unfold with_list_items, py_get. rewrite dict_get_set.
  apply String.eqb_neq in Hk. rewrite Hk. reflexivity.
Qed.

Lemma key_in_with_list_items (r : option (list pyval)) (d : dict) :
  key_in "list_items" d = false ->
  key_in "list_items" (with_list_items r d) = match r with Some _ => true | None => false end.
Proof.
  intros Hd. destruct r as [l|]; [|exact Hd].
  unfold with_list_items, key_in. rewrite dict_get_set. reflexivity.
Qed.

Lemma type_name_is_list (t : Z) :
  str_eq_val "xlValidateList" (type_name_map t) = (t =? 3).
Proof.
  unfold type_name_map.
  destruct (Z.eqb_spec t 0) as [->|H0]; [reflexivity|].
  destruct (Z.eqb_spec t 1) as [->|H1]; [reflexivity|].
  destruct (Z.eqb_spec t 2) as [->|H2]; [reflexivity|].
  destruct (Z.eqb_spec t 3) as [->|H3]; [reflexivity|].
  destruct (Z.eqb_spec t 4) as [->|H4]; [reflexivity|].
  destruct (Z.eqb_spec t 5) as [->|H5]; [reflexivity|].
  destruct (Z.eqb_spec t 6) as [->|H6]; [reflexivity|].
  destruct (Z.eqb_spec t 7) as [->|H7]; reflexivity.
Qed.

Lemma validation_loop_raising
    (CellRange : string -> Result Openpyxl.CellRange_t)
    (covers : string -> string -> Result bool)
    (wb : Openpyxl.Workbook) (ws : Openpyxl.Worksheet)
    (coord : string) (dvs : list DataValidation) :
  (forall sq c, exists e, covers sq c = Raise e) ->
  validation_loop CellRange covers wb ws coord dvs = PNone.
Proof.
  intros Hc. induction dvs as [|dv dvs IH]; cbn [validation_loop]; [reflexivity|].
  destruct (sqref dv) as [|sq sqs]; cbn [validation_on_ranges]; [exact IH|].
  destruct (Hc sq coord) as [e ->]. cbn [bind]. exact IH.
Qed.

(** X23. How validations meet the dropdown count of the converter. A
    validation record of the live backend is counted as a dropdown exactly
    when its type is 3, and only such a record can carry resolved list
    items. In the file-parsing backend every range of a validation goes
    through [CellRange(sq)] before the cell is looked up in it; when that
    call raises for every range, as the library's constructor does on the
    range objects it is handed, the method returns [None] for every cell,
    and the converter counts the cell neither as a validation nor as a
    dropdown. *)
Theorem list_validations_and_dropdown_count :
  (forall (self : Xlwings.Extractor) (api_Validation : Result XlValidation) (d : dict),
      _get_cell_validation self api_Validation = PDict d ->
      exists t,
        py_get "type" d = PInt t
        /\ is_dropdown (PDict [("data_validation", PDict d)]) = Ok (t =? 3)
        /\ (key_in "list_items" d = true -> t = 3))
  /\ (forall CellRange get_column_letter str_int covers wb ws data_validations row col,
      (forall sq coord, exists e, covers sq coord = Raise e) ->
      _data_validation_for_cell CellRange get_column_letter str_int covers wb ws
        data_validations row col = PNone
      /\ has_validation
           (PDict [("data_validation",
                    _data_validation_for_cell CellRange get_column_letter str_int covers
                      wb ws data_validations row col)]) = Ok false
      /\ is_dropdown
           (PDict [("data_validation",
                    _data_validation_for_cell CellRange get_column_letter str_int covers
                      wb ws data_validations row col)]) = Ok false).
Proof.
  split.
  - intros self api d. unfold _get_cell_validation.
    destruct api as [v|e]; [|discriminate]. cbn [bind].
    destruct (v_Type v) as [[t|]|e]; [|discriminate|discriminate]. cbn [bind].
    destruct (v_AlertStyle v) as [a|e]; [|discriminate]. cbn [bind].
    destruct (v_Operator v) as [o|e]; [|discriminate]. cbn [bind].
    destruct (v_IgnoreBlank v) as [ib|e]; [|discriminate]. cbn [bind].
    destruct (v_InCellDropdown v) as [icd|e]; [|discriminate]. cbn [bind].
    destruct (v_Formula1 v) as [f1|e]; [|discriminate]. cbn [bind].
    destruct (v_Formula2 v) as [f2|e]; [|discriminate]. cbn [bind try_except].
    set (validation := [("type", PInt t); ("type_name", type_name_map t);
                        ("alert_style", opt_int a); ("operator", opt_int o);
                        ("ignore_blank", PBool ib); ("in_cell_dropdown", PBool icd);
                        ("formula1", Xlwings.opt_str f1); ("formula2", f2)]).
    assert (Hne : validation <> []) by discriminate.
    assert (Hty : py_get "type" validation = PInt t) by reflexivity.
    assert (Htn : py_get "type_name" validation = type_name_map t) by reflexivity.
    assert (Hk : key_in "list_items" validation = false) by reflexivity.
    intros H. inversion H as [Hd]. clear H. exists t.
    destruct (Z.eqb_spec t 3) as [->|H3].
    + split; [|split].
      * rewrite py_get_with_list_items by discriminate. exact Hty.
      * rewrite dropdown_test by (apply with_list_items_not_nil; exact Hne).
        rewrite py_get_with_list_items by discriminate. reflexivity.
      * intros _. reflexivity.
    + split; [exact Hty|]. split.
      * rewrite dropdown_test by exact Hne. rewrite Htn, type_name_is_list.
        apply Z.eqb_neq in H3. rewrite H3. reflexivity.
      * rewrite Hk. discriminate.
  - intros CellRange gcl str_int covers wb ws dvs row col Hc.
    assert (E : _data_validation_for_cell CellRange gcl str_int covers wb ws dvs row col
                = PNone).
    { unfold _data_validation_for_cell.
      destruct dvs as [dvs|]; [|reflexivity].
      destruct (gcl col) as [letter|e]; [|reflexivity].
      apply validation_loop_raising. exact Hc. }
    rewrite E. repeat split; reflexivity.
Qed.

Lemma list_validations_witness :
  (exists d t,
      _get_cell_validation x_self (Ok x_validation_list) = PDict d
      /\ key_in "list_items" d = true
      /\ py_get "type" d = PInt t
      /\ is_dropdown (PDict [("data_validation", PDict d)]) = Ok (t =? 3))
  /\ _data_validation_for_cell Standin.CellRange Standin.get_column_letter str_int covers
       o_book_plain o_sheet1 (Some [o_validation_list]) 3 2 = PNone.
Proof.
  split.
  - destruct (proj1 list_validations_and_dropdown_count x_self (Ok x_validation_list)
                _ eq_refl) as (t & Ht & Hd & _).
    eexists. exists t. split; [reflexivity|]. split; [reflexivity|].
    split; [exact Ht|exact Hd].
  - apply (proj2 list_validations_and_dropdown_count Standin.CellRange
             Standin.get_column_letter str_int covers o_book_plain o_sheet1
             (Some [o_validation_list]) 3 2).
    intros sq coord. eexists. reflexivity.
Defined.

End ValidationFacts.

(** ** The command line *)

Section CliFacts.
Import PyStr Source Openpyxl OpenpyxlMore Cli Examples ExamplesMore.

Lemma concat_cons (sep x y : string) (l : list string) :
  String.concat sep (x :: y :: l) = x ++ sep ++ String.concat sep (y :: l).
Proof. reflexivity. Qed.

Lemma split_join (a : ascii) (s : string) :
  String.concat (String a "") (split a s) = s.
Proof.
  induction s as [|c s IH]; [reflexivity|]. cbn [split].
  destruct (Ascii.eqb_spec a c) as [->|Hac].
  - destruct (split c s) as [|p ps] eqn:E; [exfalso; apply (split_not_nil _ _ E)|].
    rewrite concat_cons, IH. reflexivity.
  - destruct (split a s) as [|p ps] eqn:E; [exfalso; apply (split_not_nil _ _ E)|].
    destruct ps as [|q qs].
    + cbn [String.concat] in *. rewrite IH. reflexivity.
    + rewrite concat_cons in *. rewrite <- IH. reflexivity.
Qed.

Lemma contains_no_count (a : ascii) (s : string) :
  contains a s = false <->
  List.length (filter (Ascii.eqb a) (list_ascii_of_string s)) = 0%nat.
Proof.
  induction s as [|c s IH]; simpl; [tauto|].
  destruct (Ascii.eqb a c); simpl; [split; discriminate|exact IH].
Qed.

Lemma split_two (a : ascii) (s : string) :
  List.length (filter (Ascii.eqb a) (list_ascii_of_string s)) = 1%nat ->
  exists x y, split a s = [x; y] /\ s = x ++ String a y
              /\ contains a x = false /\ contains a y = false.
Proof.
  intros Hc. pose proof (split_length a s) as Hl. rewrite Hc in Hl.
  destruct (split a s) as [|x [|y [|z l]]] eqn:E; try discriminate.
  exists x, y. split; [reflexivity|].
  pose proof (split_join a s) as Hj. rewrite E in Hj. cbn [String.concat] in Hj.
  split; [symmetry; exact Hj|].
  split; apply (@split_pieces_clean a s); rewrite E; simpl; auto.
Qed.

Lemma endswith_append (a : ascii) (x y : string) :
  y <> "" -> endswith a (x ++ y) = endswith a y.
Proof.
  intros Hy. induction x as [|c x IH]; [reflexivity|].
  cbn [String.append endswith]. destruct (x ++ y) eqn:E.
  - destruct x; [simpl in E; congruence|discriminate].
  - exact IH.
Qed.

Lemma endswith_contains (a : ascii) (s : string) :
  endswith a s = true -> contains a s = true.
Proof.
  induction s as [|c s IH]; [discriminate|]. cbn [endswith contains].
  destruct s as [|c' s'].
  - intros H. rewrite H. reflexivity.
  - intros H. rewrite (IH H). apply orb_true_r.
Qed.

Lemma drop_last_snoc (x : string) (a : ascii) : drop_last (x ++ String a "") = x.
Proof.
  induction x as [|c x IH]; [reflexivity|].
  cbn [String.append drop_last]. destruct (x ++ String a "") eqn:E.
  - destruct x; discriminate.
  - rewrite IH. reflexivity.
Qed.

(** X24. What the command line runs. With [--full] the full extraction of
    the workbook or of one sheet runs, whatever [--dependencies] and
    [--range] say; without [--full] the flag [--all-sheets] changes
    nothing, a cell given with [--dependencies] goes before a range, and a
    range is cut at its colon: no colon gives a one-cell range, one colon
    gives the two ends, and two or more colons make the program fail. *)
Theorem cli_dispatch_precedence :
  forall (args : Args),
    (full args = true ->
       dispatch args
       = Ok (if all_sheets args then call_extract_workbook_full_details
             else call_extract_sheet_full_details (sheet args)))
    /\ (full args = false ->
        forall b : bool,
          dispatch {| excel_file := excel_file args; sheet := sheet args;
                      output := output args; format := format args;
                      range := range args; dependencies := dependencies args;
                      full := full args; all_sheets := b; engine := engine args |}
          = dispatch args)
    /\ (full args = false ->
        forall d, dependencies args = Some d -> d <> "" ->
          dispatch args = Ok (call_extract_formula_dependencies d))
    /\ (full args = false -> Xlwings.nonempty (dependencies args) = None ->
        forall r, range args = Some r -> r <> "" ->
          let colons := List.length (filter (Ascii.eqb ":"%char) (list_ascii_of_string r)) in
          (colons = 0%nat -> dispatch args = Ok (call_extract_formulas_from_range r None))
          /\ (colons = 1%nat ->
              exists a b, r = a ++ String ":"%char b
                          /\ contains ":"%char a = false /\ contains ":"%char b = false
                          /\ dispatch args
                             = Ok (call_extract_formulas_from_range a (Some b)))
          /\ ((2 <= colons)%nat -> dispatch args = Raise (ValueError "unpack"))).
Proof.
  intros args. split; [|split; [|split]].
  - intros Hf. unfold dispatch. rewrite Hf. destruct (all_sheets args); reflexivity.
  - intros Hf b. unfold dispatch. cbn [full dependencies range sheet]. rewrite Hf.
    reflexivity.
  - intros Hf d Hd Hne. unfold dispatch. rewrite Hf, Hd. unfold Xlwings.nonempty.
    apply String.eqb_neq in Hne. rewrite Hne. reflexivity.
  - intros Hf Hd r Hr Hne colons. unfold dispatch. rewrite Hf, Hd, Hr.
    unfold Xlwings.nonempty. apply String.eqb_neq in Hne. rewrite Hne.
    split; [|split].
    + intros H0. apply contains_no_count in H0. rewrite H0. reflexivity.
    + intros H1. destruct (split_two _ _ H1) as (a & b & Hs & Hj & Ha & Hb).
      exists a, b. split; [exact Hj|]. split; [exact Ha|]. split; [exact Hb|].
      destruct (contains ":"%char r) eqn:Hc.
      * rewrite Hs. reflexivity.
      * apply contains_no_count in Hc. unfold colons in H1. congruence.
    + intros H2. destruct (contains ":"%char r) eqn:Hc.
      * pose proof (split_length ":"%char r) as Hl. fold colons in Hl.
        destruct (split ":"%char r) as [|x [|y [|z l]]]; simpl in Hl; try lia.
        reflexivity.
      * apply contains_no_count in Hc. unfold colons in H2. lia.
Qed.

Lemma cli_dispatch_witness :
  dispatch args_full = Ok (call_extract_sheet_full_details None)
  /\ exists a b, "A1:B3" = a ++ String ":"%char b
                 /\ contains ":"%char a = false /\ contains ":"%char b = false
                 /\ dispatch args_range = Ok (call_extract_formulas_from_range a (Some b)).
Proof.
  split.
  - exact (proj1 (cli_dispatch_precedence args_full) eq_refl).
  - refine (proj1 (proj2 (proj2 (proj2 (proj2 (cli_dispatch_precedence args_range)))
              eq_refl eq_refl "A1:B3" eq_refl _)) eq_refl).
    discriminate.
Defined.

(** X25. A range given on the command line reaches the range parser of
    the file-parsing backend unchanged, except that a colon at its very
    end is dropped: the records returned are those of the cells of
    [CellRange] applied to that text. *)
Theorem cli_range_reaches_the_parser :
  forall (CellRange : string -> Result CellRange_t)
         (get_column_letter : Z -> Result string) (coordinate_of : Z -> Z -> string)
         (ws : Worksheet) (args : Args) (r start_cell : string) (end_cell : option string),
    full args = false -> Xlwings.nonempty (dependencies args) = None ->
    range args = Some r -> r <> "" ->
    dispatch args = Ok (call_extract_formulas_from_range start_cell end_cell) ->
    extract_formulas_from_range CellRange get_column_letter coordinate_of ws
      start_cell end_cell
    = (rng <- CellRange (if endswith ":"%char r then drop_last r else r) ;;
       collect_reported get_column_letter
         (iter_cells coordinate_of ws (min_row rng) (max_row rng)
                     (min_col rng) (max_col rng))).
Proof.
  intros CR gcl coord ws args r a e Hf Hd Hr Hne Hcall.
  unfold dispatch in Hcall. rewrite Hf, Hd, Hr in Hcall.
  unfold Xlwings.nonempty in Hcall. apply String.eqb_neq in Hne. rewrite Hne in Hcall.
  unfold extract_formulas_from_range.
  destruct (contains ":"%char r) eqn:Hc.
  - destruct (split ":"%char r) as [|x [|y [|z l]]] eqn:Hs; try discriminate.
    cbn [unpack2 bind fst snd] in Hcall. inversion Hcall; subst a e; clear Hcall.
    pose proof (split_join ":"%char r) as Hj. rewrite Hs in Hj.
    cbn [String.concat] in Hj. simpl in Hj.
    assert (Hy : contains ":"%char y = false).
    { apply (@split_pieces_clean ":"%char r). rewrite Hs. simpl. auto. }
    destruct y as [|c y].
    + cbn [String.eqb]. rewrite <- Hj.
      rewrite (@endswith_append ":"%char x (String ":"%char "")) by discriminate.
      cbn [endswith]. rewrite Ascii.eqb_refl. rewrite drop_last_snoc. reflexivity.
    + cbn [String.eqb].
      assert (He : endswith ":"%char r = false).
      { rewrite <- Hj.
        rewrite (@endswith_append ":"%char x (String ":"%char (String c y))) by discriminate.
        change (endswith ":"%char (String ":"%char (String c y)))
          with (endswith ":"%char (String c y)).
        destruct (endswith ":"%char (String c y)) eqn:E; [|reflexivity].
        apply endswith_contains in E. congruence. }
      rewrite He. rewrite <- Hj. reflexivity.
  - inversion Hcall; subst a e; clear Hcall.
    assert (He : endswith ":"%char r = false).
    { destruct (endswith ":"%char r) eqn:E; [|reflexivity].
      apply endswith_contains in E. congruence. }
    rewrite He. reflexivity.
Qed.

Lemma cli_range_witness :
  exists out,
    extract_formulas_from_range Standin.CellRange Standin.get_column_letter
      (fun r c => ColumnLetter._column_to_letter c ++ str_int r) o_sheet1 "A1" (Some "B3")
    = Ok out
    /\ map address out = ["A1"; "A3"].
Proof.
  rewrite (@cli_range_reaches_the_parser Standin.CellRange Standin.get_column_letter
             (fun r c => ColumnLetter._column_to_letter c ++ str_int r) o_sheet1
             args_range "A1:B3" "A1" (Some "B3") eq_refl eq_refl eq_refl).
  - eexists. split; [vm_compute; reflexivity|]. reflexivity.
  - discriminate.
  - reflexivity.
Defined.

End CliFacts.
